(** * UrlPay payment gateway: a shallow embedding and its verification

    Source: [app/bot/payment_gateways/urlpay.py] (class [UrlPay]) and the
    migration [1d5d6e69d5c6_add_payment_uuid_to_transactions.py].

    Definitions:
    - [Digits]  : decimal digit strings;
    - [Py]      : the Python values the gateway handles (JSON documents),
                  with truthiness, [str()], [dict.get] and set membership;
    - [Dec]     : [decimal.Decimal] restricted to what [create_payment] uses
                  ([quantize] with [ROUND_HALF_UP], [format(_, ".2f")]);
    - [Sha1]    : [hashlib.sha1(...).hexdigest()];
    - [Gateway] : the class [UrlPay] itself, as a state-and-exception monad
                  over the transaction table and a trace of observable
                  events (requests, table accesses, hooks, log lines);
    - [Migration] : the revision that adds [payment_uuid], over the
                  operations of Alembic it calls;
    - [Demo]    : a provider, a table and a few deliveries to run it on.

    Then the facts: digits and decimal rounding, the runs of
    [_fetch_payment], [_verify_callback], [webhook_handler] and
    [create_payment], the properties C1 to C10 of the specification, and
    further properties X1 to X18 of the code.

    Conventions.  A Python [str] is represented by the [string] of its UTF-8
    bytes, so that [s.encode("utf-8")] is the list of its characters and
    equality of strings is equality of [string]s.  [str.lower()] is modelled
    on the ASCII letters (the only ones that can produce the ASCII words the
    gateway compares against, and the only ones in a currency code).  A
    webhook delivery or a payment creation runs alone: the interleaving of
    two deliveries is outside this model. *)

From Stdlib Require Import ZArith NArith List String Ascii SpecFloat Lia.
From stdpp Require Import base option list strings gmap fin_maps.

Open Scope string_scope.
Set Warnings "-register-all".

(* ===================================================================== *)
(** ** Decimal digits of a natural number *)
(* ===================================================================== *)

Module Digits.

Definition digit_char (n : N) : ascii := ascii_of_N (48 + n).

(** [digits_aux fuel n acc] writes the decimal digits of [n] in front of
    [acc], least significant digit first. *)
Fixpoint digits_aux (fuel : nat) (n : N) (acc : string) : string :=
  let acc' := String (digit_char (n mod 10)) acc in
  match fuel with
  | O => acc'
  | S fuel' => if (n / 10 =? 0)%N then acc' else digits_aux fuel' (n / 10) acc'
  end.

(** [str(n)] for a natural number: no leading zero, ["0"] for zero. *)
Definition digits (n : N) : string := digits_aux (N.size_nat n) n "".

Definition is_digit (c : ascii) : bool :=
  let n := N_of_ascii c in ((48 <=? n) && (n <=? 57))%N.

Fixpoint all_digits (s : string) : bool :=
  match s with
  | EmptyString => true
  | String c s' => is_digit c && all_digits s'
  end.

(** The number a string of digits denotes (most significant digit first). *)
Fixpoint value_aux (acc : N) (s : string) : N :=
  match s with
  | EmptyString => acc
  | String c s' => value_aux (10 * acc + (N_of_ascii c - 48)) s'
  end.

Definition value (s : string) : N := value_aux 0 s.

Fixpoint zeros (k : nat) : string :=
  match k with
  | O => ""
  | S k' => String "0" (zeros k')
  end.

Fixpoint str_take (k : nat) (s : string) : string :=
  match k, s with
  | S k', String c s' => String c (str_take k' s')
  | _, _ => ""
  end.

Fixpoint str_drop (k : nat) (s : string) : string :=
  match k, s with
  | S k', String _ s' => str_drop k' s'
  | _, _ => s
  end.

End Digits.

(* ===================================================================== *)
(** ** Python values *)
(* ===================================================================== *)

Module Py.

(** What [json.loads] produces: [None], booleans, integers, floats (with the
    [NaN] and [Infinity] literals Python accepts), strings, lists and
    objects.  A JSON object is kept as its list of members; [dict.get] finds
    the binding of a key. *)
Inductive pyval : Type :=
| PNone
| PBool (b : bool)
| PInt (z : Z)
| PFloat (f : spec_float)
| PStr (s : string)
| PList (l : list pyval)
| PDict (d : list (string * pyval)).

(** Exceptions the gateway raises itself or lets through. *)
Inductive runtime_msg : Type :=
| CredentialsNotConfigured
| CreatePaymentFailed (status : Z) (body : pyval)
| NoPaymentUrl.

Inductive exn : Type :=
| RuntimeError (msg : runtime_msg)
| AttributeError
| KeyError (key : string)
| TypeError
| InvalidOperation
| IntegrityError
| ExternalError (origin : string).

Inductive outcome (A : Type) : Type :=
| Returns (a : A)
| Raises (e : exn).
Arguments Returns {A} a.
Arguments Raises {A} e.

(** [v is None] *)
Definition is_None (v : pyval) : bool :=
  match v with PNone => true | _ => false end.

(** [bool(v)] *)
Definition truthy (v : pyval) : bool :=
  match v with
  | PNone => false
  | PBool b => b
  | PInt z => negb (z =? 0)%Z
  | PFloat (S754_zero _) => false
  | PFloat _ => true
  | PStr s => match s with EmptyString => false | String _ _ => true end
  | PList l => match l with [] => false | _ :: _ => true end
  | PDict d => match d with [] => false | _ :: _ => true end
  end.

Definition str_truthy (s : string) : bool :=
  match s with EmptyString => false | String _ _ => true end.

Definition str_of_Z (z : Z) : string :=
  match z with
  | Z0 => "0"
  | Zpos p => Digits.digits (Npos p)
  | Zneg p => String "-" (Digits.digits (Npos p))
  end.

(** [str(v)].  The printed form of floats and containers is the
    interpreter's business: [repr] stands for it. *)
Definition str (repr : pyval -> string) (v : pyval) : string :=
  match v with
  | PNone => "None"
  | PBool true => "True"
  | PBool false => "False"
  | PInt z => str_of_Z z
  | PStr s => s
  | PFloat _ | PList _ | PDict _ => repr v
  end.

Definition lower_char (c : ascii) : ascii :=
  let n := N_of_ascii c in
  if ((65 <=? n) && (n <=? 90))%N then ascii_of_N (n + 32) else c.

(** [s.lower()] *)
Fixpoint lower (s : string) : string :=
  match s with
  | EmptyString => EmptyString
  | String c s' => String (lower_char c) (lower s')
  end.

Fixpoint dict_get (d : list (string * pyval)) (k : string) : option pyval :=
  match d with
  | [] => None
  | (k', v) :: d' => if String.eqb k' k then Some v else dict_get d' k
  end.

(** [v.get(k, default)]: only a [dict] has the method. *)
Definition get (v : pyval) (k : string) (default : pyval) : outcome pyval :=
  match v with
  | PDict d => Returns (match dict_get d k with Some x => x | None => default end)
  | _ => Raises AttributeError
  end.

(** [v[k]] on the value of a JSON document.  A missing key of a [dict] is a
    [KeyError]; subscripting anything else with a string is a [TypeError]. *)
Definition getitem (v : pyval) (k : string) : outcome pyval :=
  match v with
  | PDict d => match dict_get d k with Some x => Returns x | None => Raises (KeyError k) end
  | _ => Raises TypeError
  end.

(** [f == z] for a float and an integer. *)
Definition float_eq_Z (f : spec_float) (z : Z) : bool :=
  match f with
  | S754_zero _ => (z =? 0)%Z
  | S754_infinity _ | S754_nan => false
  | S754_finite s m e =>
      let v := if s then Zneg m else Zpos m in
      if (0 <=? e)%Z then (v * 2 ^ e =? z)%Z else (v =? z * 2 ^ (- e))%Z
  end.

(** [v == z] for a hashable value and an integer. *)
Definition eq_int (v : pyval) (z : Z) : bool :=
  match v with
  | PBool b => ((if b then 1 else 0) =? z)%Z
  | PInt i => (i =? z)%Z
  | PFloat f => float_eq_Z f z
  | _ => false
  end.

(** [v in {z1, ..., zn}]: the value is hashed first (lists and dicts are
    unhashable), then compared with the members. *)
Definition in_int_set (v : pyval) (members : list Z) : outcome bool :=
  match v with
  | PList _ | PDict _ => Raises TypeError
  | _ => Returns (existsb (eq_int v) members)
  end.

End Py.

(* ===================================================================== *)
(** ** [decimal.Decimal] *)
(* ===================================================================== *)

Module Dec.

(** A finite decimal [(-1)^sign * coeff * 10^exp], as [Decimal] stores it
    ([_sign], [_int], [_exp]); [_int] is [Digits.digits coeff]. *)
Record Decimal : Type := mkDecimal { sign : bool; coeff : N; exp : Z }.

Inductive rounding : Type := ROUND_HALF_UP | ROUND_HALF_EVEN.

(** The default context: [prec=28], [Emax=999999], [rounding=ROUND_HALF_EVEN],
    with [InvalidOperation] trapped. *)
Definition prec : Z := 28.
Definition Emax : Z := 999999.
Definition context_rounding : rounding := ROUND_HALF_EVEN.

(** [len(self._int)] *)
Definition ndigits (d : Decimal) : Z :=
  Z.of_nat (String.length (Digits.digits (coeff d))).

(** [self.adjusted()] *)
Definition adjusted (d : Decimal) : Z := exp d + ndigits d - 1.

(** Whether the digits dropped by a rounding push the kept part up:
    [q] is what is kept, [r] what is dropped, of [k] digits. *)
Definition round_up (mode : rounding) (q r : N) (k : Z) : bool :=
  let first := (r / 10 ^ Z.to_N (k - 1))%N in
  match mode with
  | ROUND_HALF_UP => (5 <=? first)%N
  | ROUND_HALF_EVEN =>
      if ((r =? 5 * 10 ^ Z.to_N (k - 1)) && N.even q)%N then false
      else (5 <=? first)%N
  end.

(** [self._rescale(e, mode)] *)
Definition rescale (d : Decimal) (e : Z) (mode : rounding) : Decimal :=
  if (coeff d =? 0)%N then mkDecimal (sign d) 0 e
  else if (e <=? exp d)%Z then
    mkDecimal (sign d) (coeff d * 10 ^ Z.to_N (exp d - e)) e
  else
    let k := (e - exp d)%Z in
    let q := (coeff d / 10 ^ Z.to_N k)%N in
    let r := (coeff d mod 10 ^ Z.to_N k)%N in
    mkDecimal (sign d) (if round_up mode q r k then q + 1 else q)%N e.

(** [self.quantize(Decimal("0.01"), rounding=mode)] in the default context.
    The result keeps the exponent [-2]; a result that needs more than
    [prec] digits is an [InvalidOperation]. *)
Definition quantize_cents (d : Decimal) (mode : rounding) : Py.outcome Decimal :=
  if (coeff d =? 0)%N then Py.Returns (mkDecimal (sign d) 0 (-2))
  else if (Emax <? adjusted d)%Z then Py.Raises Py.InvalidOperation
  else if (prec <? adjusted d - (-2) + 1)%Z then Py.Raises Py.InvalidOperation
  else
    let ans := rescale d (-2) mode in
    if (Emax <? adjusted ans)%Z then Py.Raises Py.InvalidOperation
    else if (prec <? ndigits ans)%Z then Py.Raises Py.InvalidOperation
    else Py.Returns ans.

(** [format(d, ".2f")]: round to two places with the context's rounding,
    place the decimal point, print sign, integer part and fraction. *)
Definition format_2f (d : Decimal) : string :=
  let d' := rescale d (-2) context_rounding in
  let ds := Digits.digits (coeff d') in
  let len := Z.of_nat (String.length ds) in
  let dotplace := (exp d' + len)%Z in
  let '(intpart, fracpart) :=
    if (dotplace <? 0)%Z then
      ("0", Digits.zeros (Z.to_nat (- dotplace)) +:+ ds)
    else if (len <? dotplace)%Z then
      (ds +:+ Digits.zeros (Z.to_nat (dotplace - len)), "")
    else
      let ip := Digits.str_take (Z.to_nat dotplace) ds in
      (if Py.str_truthy ip then ip else "0", Digits.str_drop (Z.to_nat dotplace) ds) in
  (if sign d' then "-" else "") +:+ intpart +:+
  (if Py.str_truthy fracpart then "." +:+ fracpart else "").

(** Half-up rounding to two decimal places, in the words of the spec: the
    number of hundredths nearest to [|d|], a tie going up, that is
    [floor (|d| * 100 + 1/2)]. *)
Definition cents_half_up (d : Decimal) : N :=
  if (-2 <=? exp d)%Z then (coeff d * 10 ^ Z.to_N (exp d + 2))%N
  else
    let k := Z.to_N (- 2 - exp d) in
    ((2 * coeff d + 10 ^ k) / (2 * 10 ^ k))%N.

(** A number of hundredths in fixed-point notation: sign, integer part,
    a point, two digits. *)
Definition render_cents (negative : bool) (c : N) : string :=
  (if negative then "-" else "") +:+ Digits.digits (c / 100) +:+ "." +:+
  String (Digits.digit_char ((c / 10) mod 10))
         (String (Digits.digit_char (c mod 10)) "").

End Dec.

(* ===================================================================== *)
(** ** [hashlib.sha1] *)
(* ===================================================================== *)

Module Sha1.

Local Open Scope Z_scope.

(** 32-bit words are integers in [0, 2^32); every operation wraps. *)
Definition mask32 (x : Z) : Z := Z.land x 0xFFFFFFFF.
Definition add32 (x y : Z) : Z := mask32 (x + y).
Definition rotl (n x : Z) : Z :=
  mask32 (Z.lor (Z.shiftl x n) (Z.shiftr x (32 - n))).

(** [s.encode("utf-8")] *)
Definition bytes_of_string (s : string) : list Z :=
  map (fun c => Z.of_N (N_of_ascii c)) (list_ascii_of_string s).

(** The [n] low bytes of [x], most significant first. *)
Fixpoint be_bytes (n : nat) (x : Z) : list Z :=
  match n with
  | O => []
  | S n' => Z.land (Z.shiftr x (8 * Z.of_nat n')) 0xFF :: be_bytes n' x
  end.

(** Padding: a [1] bit, zeros up to 56 modulo 64, the bit length on 64 bits. *)
Definition pad (msg : list Z) : list Z :=
  let len := Z.of_nat (length msg) in
  msg ++ [0x80] ++ repeat 0 (Z.to_nat ((55 - len) mod 64)) ++ be_bytes 8 (8 * len).

Fixpoint words (bs : list Z) : list Z :=
  match bs with
  | b0 :: b1 :: b2 :: b3 :: rest =>
      Z.lor (Z.shiftl b0 24) (Z.lor (Z.shiftl b1 16) (Z.lor (Z.shiftl b2 8) b3))
      :: words rest
  | _ => []
  end.

(** Message schedule, kept newest word first: [W(t)] is computed from
    [W(t-3)], [W(t-8)], [W(t-14)] and [W(t-16)]. *)
Fixpoint schedule (n : nat) (w_rev : list Z) : list Z :=
  match n with
  | O => w_rev
  | S n' =>
      let w := rotl 1 (Z.lxor (Z.lxor (nth 2 w_rev 0) (nth 7 w_rev 0))
                              (Z.lxor (nth 13 w_rev 0) (nth 15 w_rev 0))) in
      schedule n' (w :: w_rev)
  end.

Record state : Type := mkState { ha : Z; hb : Z; hc : Z; hd : Z; he : Z }.

Definition initial : state :=
  mkState 0x67452301 0xEFCDAB89 0x98BADCFE 0x10325476 0xC3D2E1F0.

Definition lnot32 (x : Z) : Z := Z.lxor x 0xFFFFFFFF.

Definition round (s : state) (tw : nat * Z) : state :=
  let '(t, w) := tw in
  let '(f, k) :=
    if (t <? 20)%nat then
      (Z.lor (Z.land (hb s) (hc s)) (Z.land (lnot32 (hb s)) (hd s)), 0x5A827999)
    else if (t <? 40)%nat then
      (Z.lxor (hb s) (Z.lxor (hc s) (hd s)), 0x6ED9EBA1)
    else if (t <? 60)%nat then
      (Z.lor (Z.land (hb s) (hc s))
             (Z.lor (Z.land (hb s) (hd s)) (Z.land (hc s) (hd s))), 0x8F1BBCDC)
    else
      (Z.lxor (hb s) (Z.lxor (hc s) (hd s)), 0xCA62C1D6) in
  let temp := add32 (add32 (add32 (add32 (rotl 5 (ha s)) f) (he s)) k) w in
  mkState temp (ha s) (rotl 30 (hb s)) (hc s) (hd s).

Definition compress (h : state) (block : list Z) : state :=
  let w := rev (schedule 64 (rev (words block))) in
  let s := fold_left round (combine (seq 0 80) w) h in
  mkState (add32 (ha h) (ha s)) (add32 (hb h) (hb s)) (add32 (hc h) (hc s))
          (add32 (hd h) (hd s)) (add32 (he h) (he s)).

Fixpoint blocks (n : nat) (bs : list Z) (h : state) : state :=
  match n with
  | O => h
  | S n' => blocks n' (skipn 64 bs) (compress h (firstn 64 bs))
  end.

Definition digest (msg : list Z) : state :=
  let padded := pad msg in
  blocks (length padded / 64)%nat padded initial.

Definition hex_char (n : Z) : ascii :=
  ascii_of_N (Z.to_N (if n <? 10 then 48 + n else 87 + n)).

Fixpoint hex_word (nibbles : nat) (x : Z) : string :=
  match nibbles with
  | O => ""
  | S n' => String (hex_char (Z.land (Z.shiftr x (4 * Z.of_nat n')) 0xF)) (hex_word n' x)
  end.

(** [hashlib.sha1(msg).hexdigest()]: forty lowercase hexadecimal digits. *)
Definition hexdigest (msg : list Z) : string :=
  let h := digest msg in
  hex_word 8 (ha h) +:+ hex_word 8 (hb h) +:+ hex_word 8 (hc h) +:+
  hex_word 8 (hd h) +:+ hex_word 8 (he h).

End Sha1.

(* ===================================================================== *)
(** ** The gateway *)
(* ===================================================================== *)

Module Gateway.

Import Py.

(** *** Data model *)

(** Modelled from the spec: [TransactionStatus] of
    [app.bot.utils.constants]; the spec names the lifecycle states PENDING,
    SUCCEEDED and CANCELED. *)
Inductive TransactionStatus : Type := PENDING | SUCCEEDED | CANCELED.

(** Modelled from the spec: the [Transaction] row of [app.db.models].  The
    column [payment_uuid] is the one the migration adds:
    [String(64)], nullable, under a unique constraint. *)
Record Transaction : Type := mkTransaction {
  tg_id : Z;
  subscription : string;
  payment_id : string;
  payment_uuid : option string;
  status : TransactionStatus
}.

(** [transaction.payment_uuid], under a name that the local variable
    [payment_uuid] of [_verify_callback] does not hide. *)
Definition payment_uuid_of (t : Transaction) : option string := payment_uuid t.

Definition with_payment_uuid (t : Transaction) (u : option string) : Transaction :=
  mkTransaction (tg_id t) (subscription t) (payment_id t) u (status t).

(** Modelled from the spec: [SubscriptionData] of [app.bot.models]: user id,
    device count, duration and price.  [price] is the finite decimal that
    [Decimal(str(data.price))] denotes; [packed] is [data.pack()]. *)
Record SubscriptionData : Type := mkSubscriptionData {
  user_id : Z;
  devices : Z;
  duration : Z;
  price : Dec.Decimal;
  packed : string
}.

(** Modelled from the spec: [self.config.urlpay] of [app.config], "API key,
    shop id, secret key"; each is a string or [None]. *)
Record UrlPayConfig : Type := mkUrlPayConfig {
  API_KEY : option string;
  SHOP_ID : option string;
  SECRET_KEY : option string
}.

(** The gateway object: its configuration and the class attribute
    [currency] ([Currency.RUB], whose [code] is declared elsewhere). *)
Record UrlPay : Type := mkUrlPay {
  config : UrlPayConfig;
  currency_code : string
}.

Definition _base_url : string := "https://urlpay.io/api".

(** [bool(c)] for a value that is a string or [None] (a credential, a
    stored [payment_uuid]) *)
Definition opt_truthy (c : option string) : bool :=
  match c with Some s => str_truthy s | None => false end.

(** [str(c)], which is also [f"{c}"], for a string or [None] *)
Definition opt_str (c : option string) : string :=
  match c with Some s => s | None => "None" end.

(** *** The world outside the gateway *)

Inductive http_method : Type := GET | POST.

Record http_request : Type := mkRequest {
  req_method : http_method;
  req_url : string;
  req_authorization : string;
  req_json : option pyval
}.

(** What an outbound call yields: the client raises (no connection, time
    out), or a response arrives with a status and a body; [json] is [None]
    when [response.json()] raises. *)
Inductive http_response : Type :=
| HttpFails
| HttpResponse (code : Z) (json : option pyval).

Inductive hook : Type := HookSucceeded | HookCanceled.

Inductive log_site : Type :=
| LogWebhookPayload
| LogUnsupportedStatus
| LogVerificationFailed
| LogWebhookException
| LogNoPaymentId
| LogNoUuid
| LogUnknownPayment
| LogUuidMismatchDatabase
| LogUuidMismatchApi
| LogUuidMismatchDatabaseApi
| LogStatusMismatch
| LogApiKeyMissing
| LogFetchFailed
| LogFetchUnsuccessful
| LogPaymentLinkCreated.

Inductive event : Type :=
| EvGetMe
| EvHttp (req : http_request)
| EvDbGet (pid : string)
| EvDbCreate (row : Transaction)
| EvDbUpdate (pid : string) (uuid : string)
| EvHook (h : hook) (pid : string)
| EvLog (site : log_site).

(** Modelled from the spec: how the persistence layer reports a write that
    a uniqueness constraint refuses.  The spec leaves it open, so both ways
    are covered: the call raises, or it returns without effect. *)
Inductive conflict_policy : Type := ConflictRaises | ConflictSwallowed.

(** Everything the gateway calls but does not define:
    - [py_repr]: the interpreter's [repr] of floats and containers;
    - [bot_username]: what [(await bot.get_me()).username] yields;
    - [description]: the localized invoice description of an order;
    - [uuid4]: the value of [str(uuid.uuid4())] in this call;
    - [http]: the provider's answer to a request;
    - [on_conflict]: see [conflict_policy];
    - [_on_payment_succeeded], [_on_payment_canceled]: the hooks of the base
      class [PaymentGateway], which act on the table and may raise. *)
Record Env : Type := mkEnv {
  py_repr : pyval -> string;
  bot_username : outcome (option string);
  description : SubscriptionData -> string;
  uuid4 : string;
  http : http_request -> http_response;
  on_conflict : conflict_policy;
  _on_payment_succeeded :
    string -> gmap string Transaction -> outcome unit * gmap string Transaction;
  _on_payment_canceled :
    string -> gmap string Transaction -> outcome unit * gmap string Transaction
}.

(** The state a call runs in: the transaction table, keyed by [payment_id],
    and the trace of what the call did, oldest event first. *)
Record world : Type := mkWorld {
  store : gmap string Transaction;
  trace : list event
}.

(** *** State and exceptions *)

Definition M (A : Type) : Type := world -> outcome A * world.

Definition ret {A} (a : A) : M A := fun w => (Returns a, w).

Definition raise {A} (e : exn) : M A := fun w => (Raises e, w).

Definition bind {A B} (m : M A) (k : A -> M B) : M B :=
  fun w =>
    match m w with
    | (Returns a, w') => k a w'
    | (Raises e, w') => (Raises e, w')
    end.

(** [x ← m; k] and [m ;; k] are stdpp's notations for [bind]. *)
#[global] Instance M_ret : MRet M := @ret.
#[global] Instance M_bind : MBind M := fun A B k m => bind m k.

Definition lift {A} (o : outcome A) : M A := fun w => (o, w).

Definition emit (e : event) : M unit :=
  fun w => (Returns tt, mkWorld (store w) (trace w ++ [e])).

Definition log (site : log_site) : M unit := emit (EvLog site).

(** [try: body except Exception as e: handler(e)] *)
Definition try_except {A} (body : M A) (handler : exn -> M A) : M A :=
  fun w =>
    match body w with
    | (Returns a, w') => (Returns a, w')
    | (Raises e, w') => handler e w'
    end.

Definition get_store : M (gmap string Transaction) :=
  fun w => (Returns (store w), w).

Definition put_store (st : gmap string Transaction) : M unit :=
  fun w => (Returns tt, mkWorld st (trace w)).

Definition on_store {A}
  (f : gmap string Transaction -> outcome A * gmap string Transaction) : M A :=
  fun w => let '(r, st) := f (store w) in (r, mkWorld st (trace w)).

(** *** The transaction table *)

(** Modelled from the spec: the unique constraint on [payment_uuid]: some
    other row already holds [u]. *)
Definition uuid_taken (st : gmap string Transaction) (pid u : string) : bool :=
  bool_decide (map_Exists (fun k t => k ≠ pid ∧ payment_uuid t = Some u) st).

(** Modelled from the spec: a write that a uniqueness constraint refuses
    changes nothing; it raises or returns, as [on_conflict] says. *)
Definition refused {A} (env : Env) (a : A) : M A :=
  match on_conflict env with
  | ConflictRaises => raise IntegrityError
  | ConflictSwallowed => ret a
  end.

(** Modelled from the spec: [Transaction.get_by_id(session, payment_id)],
    "get_by_id(payment_id) -> Transaction|absent". *)
Definition Transaction_get_by_id (pid : string) : M (option Transaction) :=
  emit (EvDbGet pid);;
  st ← get_store;
  ret (st !! pid).

(** Modelled from the spec: [Transaction.create(session, ...)].  A
    [payment_id] maps to at most one row and a [payment_uuid] is unique
    when present, so a row that would break either is refused. *)
Definition Transaction_create (env : Env) (row : Transaction) : M unit :=
  emit (EvDbCreate row);;
  st ← get_store;
  let taken :=
    match payment_uuid row with
    | Some u => uuid_taken st (payment_id row) u
    | None => false
    end in
  match st !! payment_id row with
  | Some _ => refused env tt
  | None =>
      if taken then refused env tt
      else put_store (<[payment_id row := row]> st)
  end.

(** Modelled from the spec: [Transaction.update(session, payment_id,
    payment_uuid=...)], "update(payment_id, payment_uuid)": sets the column
    of the row with that id, if there is one. *)
Definition Transaction_update (env : Env) (pid : string) (u : string) : M unit :=
  emit (EvDbUpdate pid u);;
  st ← get_store;
  match st !! pid with
  | None => ret tt
  | Some t =>
      if uuid_taken st pid u then refused env tt
      else put_store (<[pid := with_payment_uuid t (Some u)]> st)
  end.

(** *** Outbound calls *)

Definition headers_authorization (gw : UrlPay) : string :=
  "Bearer " +:+ opt_str (API_KEY (config gw)).

(** [async with session.post/get(...) as response] *)
Definition http_call (env : Env) (req : http_request) : M (Z * option pyval) :=
  emit (EvHttp req) ;;
  match http env req with
  | HttpFails => raise (ExternalError "aiohttp")
  | HttpResponse code body => ret (code, body)
  end.

(** [await response.json()] *)
Definition response_json (body : option pyval) : M pyval :=
  match body with
  | Some v => ret v
  | None => raise (ExternalError "json")
  end.

(** [(await self.bot.get_me()).username] *)
Definition get_me_username (env : Env) : M (option string) :=
  emit EvGetMe ;; lift (bot_username env).

(** *** [UrlPay] *)

(** [_generate_signature(self, amount)] *)
Definition _generate_signature (gw : UrlPay) (amount : string) : string :=
  let payload :=
    lower (currency_code gw) +:+ amount +:+
    opt_str (SHOP_ID (config gw)) +:+ opt_str (SECRET_KEY (config gw)) in
  Sha1.hexdigest (Sha1.bytes_of_string payload).

(** The rendering of the price, lines 73-77:
    [format(Decimal(str(data.price)).quantize(Decimal("0.01"),
    rounding=ROUND_HALF_UP), ".2f")] *)
Definition amount_str (data : SubscriptionData) : outcome string :=
  match Dec.quantize_cents (price data) Dec.ROUND_HALF_UP with
  | Returns amount => Returns (Dec.format_2f amount)
  | Raises e => Raises e
  end.

Definition create_payload (gw : UrlPay) (env : Env) (data : SubscriptionData)
    (amount order_uuid redirect_url : string) : pyval :=
  PDict [
    ("currency", PStr (lower (currency_code gw)));
    ("amount", PStr amount);
    ("uuid", PStr order_uuid);
    ("shopId", match SHOP_ID (config gw) with Some s => PStr s | None => PNone end);
    ("description", PStr (description env data));
    ("website_url", PStr redirect_url);
    ("language", PStr "ru");
    ("sign", PStr (_generate_signature gw amount));
    ("items", PList [PDict [
       ("description", PStr (description env data));
       ("quantity", PInt 1);
       ("price", PStr amount);
       ("vat_code", PInt 0);
       ("payment_subject", PInt 4);
       ("payment_mode", PInt 1)]])
  ].

(** The row [create_payment] persists for the id the provider assigned
    (lines 122-129). *)
Definition row_for (env : Env) (data : SubscriptionData) (id : pyval) : Transaction :=
  mkTransaction (user_id data) (packed data) (str (py_repr env) id)
                (Some (uuid4 env)) PENDING.

(** [create_payment(self, data)] *)
Definition create_payment (gw : UrlPay) (env : Env) (data : SubscriptionData) : M pyval :=
  if negb (opt_truthy (API_KEY (config gw)) &&
           opt_truthy (SHOP_ID (config gw)) &&
           opt_truthy (SECRET_KEY (config gw)))
  then raise (RuntimeError CredentialsNotConfigured)
  else
    username ← get_me_username env;
    let redirect_url := "https://t.me/" +:+ opt_str username in
    amount ← lift (amount_str data);
    let order_uuid := uuid4 env in
    let payload := create_payload gw env data amount order_uuid redirect_url in
    let url := _base_url +:+ "/v2/payments" in
    response ← http_call env (mkRequest POST url (headers_authorization gw) (Some payload));
    result ← response_json (snd response);
    success ← (if negb (fst response =? 201)%Z then ret false
                else v ← lift (get result "success" PNone); ret (truthy v));
    if negb success
    then raise (RuntimeError (CreatePaymentFailed (fst response) result))
    else
      id ← lift (getitem result "id");
      let payment_id := str (py_repr env) id in
      payment_url ← lift (get result "paymentUrl" PNone);
      if negb (truthy payment_url)
      then raise (RuntimeError NoPaymentUrl)
      else
        Transaction_create env
          (mkTransaction (user_id data) (packed data) payment_id (Some order_uuid) PENDING);;
        log LogPaymentLinkCreated;;
        ret payment_url.

(** [handle_payment_succeeded(self, payment_id)] *)
Definition handle_payment_succeeded (env : Env) (payment_id : string) : M unit :=
  emit (EvHook HookSucceeded payment_id);;
  on_store (_on_payment_succeeded env payment_id).

(** [handle_payment_canceled(self, payment_id)] *)
Definition handle_payment_canceled (env : Env) (payment_id : string) : M unit :=
  emit (EvHook HookCanceled payment_id);;
  on_store (_on_payment_canceled env payment_id).

(** [_fetch_payment(self, payment_id)]: the provider's record, or [None]. *)
Definition _fetch_payment (gw : UrlPay) (env : Env) (payment_id : string) : M pyval :=
  if negb (opt_truthy (API_KEY (config gw)))
  then log LogApiKeyMissing;; ret PNone
  else
    let url := _base_url +:+ "/v2/payments/" +:+ payment_id in
    response ← http_call env (mkRequest GET url (headers_authorization gw) None);
    if negb (fst response =? 200)%Z
    then log LogFetchFailed;; ret PNone
    else
      result ← response_json (snd response);
      success ← lift (get result "success" PNone);
      if negb (truthy success)
      then log LogFetchUnsuccessful;; ret PNone
      else lift (get result "payment" PNone).

(** What the authoritative fetch yields for [payment_id]: the result of
    [_fetch_payment], which is the same in whatever state it runs. *)
Definition fetched (gw : UrlPay) (env : Env) (payment_id : string) : outcome pyval :=
  fst (_fetch_payment gw env payment_id (mkWorld ∅ [])).

(** [status_map.get(payment_status)] *)
Definition status_map_get (payment_status : string) : option (list Z) :=
  if String.eqb payment_status "success" then Some [3%Z]
  else if String.eqb payment_status "cancel" then Some [4%Z; 5%Z; 6%Z]
  else None.

(** [_verify_callback(self, payload, payment_status)]: the confirmed
    [payment_id], or [None]. *)
Definition _verify_callback (gw : UrlPay) (env : Env)
    (payload : pyval) (payment_status : string) : M (option string) :=
  payment_id_raw ← lift (get payload "id" PNone);
  if is_None payment_id_raw
  then log LogNoPaymentId;; ret None
  else
    let payment_id := str (py_repr env) payment_id_raw in
    payment_uuid ← lift (get payload "uuid" PNone);
    if negb (truthy payment_uuid)
    then log LogNoUuid;; ret None
    else
      found ← Transaction_get_by_id payment_id;
      match found with
      | None => log LogUnknownPayment;; ret None
      | Some transaction =>
        (* lines 219-253, run once the correlation key is bound or verified *)
        let confirm (transaction : Transaction) : M (option string) :=
          payment ← _fetch_payment gw env payment_id;
          if negb (truthy payment)
          then ret None
          else
            api_uuid ← lift (get payment "uuid" PNone);
            (if truthy api_uuid &&
                negb (String.eqb (str (py_repr env) api_uuid)
                                 (str (py_repr env) payment_uuid))
             then log LogUuidMismatchApi else ret tt);;
            (if opt_truthy (payment_uuid_of transaction) && truthy api_uuid &&
                negb (String.eqb (opt_str (payment_uuid_of transaction))
                                 (str (py_repr env) api_uuid))
             then log LogUuidMismatchDatabaseApi else ret tt);;
            match status_map_get payment_status with
            | Some ((_ :: _) as expected_status) =>
                api_status ← lift (get payment "status" PNone);
                member ← lift (in_int_set api_status expected_status);
                if negb member
                then log LogStatusMismatch;; ret None
                else ret (Some payment_id)
            | _ => ret (Some payment_id)
            end in
        if opt_truthy (payment_uuid_of transaction)
        then
          if negb (String.eqb (opt_str (payment_uuid_of transaction))
                              (str (py_repr env) payment_uuid))
          then log LogUuidMismatchDatabase;; ret None
          else confirm transaction
        else
          Transaction_update env payment_id (str (py_repr env) payment_uuid);;
          confirm (with_payment_uuid transaction (Some (str (py_repr env) payment_uuid)))
      end.

(** [webhook_handler(self, request)]: the status of the [Response].
    [body] is what [await request.json()] yields, [None] when it raises. *)
Definition webhook_handler (gw : UrlPay) (env : Env) (body : option pyval) : M Z :=
  try_except
    (payload ← response_json body;
     log LogWebhookPayload;;
     payment_status_raw ← lift (get payload "payment_status" (PStr ""));
     let payment_status := lower (str (py_repr env) payment_status_raw) in
     if negb (String.eqb payment_status "success" || String.eqb payment_status "cancel")
     then log LogUnsupportedStatus;; ret 400%Z
     else
       verified ← _verify_callback gw env payload payment_status;
       match verified with
       | Some ((String _ _) as payment_id) =>
           (if String.eqb payment_status "success"
            then handle_payment_succeeded env payment_id
            else handle_payment_canceled env payment_id);;
           ret 200%Z
       | _ => log LogVerificationFailed;; ret 400%Z
       end)
    (fun _ => log LogWebhookException;; ret 400%Z).

(** *** The words of the specification *)

(** The signature in the words of the spec: the lowercase hexadecimal SHA-1
    digest of the UTF-8 bytes of the lowercased currency code, the amount,
    the shop id and the secret, concatenated; no salt. *)
Definition sign_spec (currency amount shop_id secret : string) : string :=
  Sha1.hexdigest
    (Sha1.bytes_of_string (lower currency +:+ amount +:+ shop_id +:+ secret)).

Definition is_lower_hex (c : ascii) : bool :=
  let n := N_of_ascii c in
  (((48 <=? n) && (n <=? 57)) || ((97 <=? n) && (n <=? 102)))%N.

(** The status the handler parses from the body (step 1): the lowercased
    [payment_status], if the body is a JSON object. *)
Definition parsed_status (env : Env) (body : option pyval) : option string :=
  match body with
  | Some payload =>
      match get payload "payment_status" (PStr "") with
      | Returns raw => Some (lower (str (py_repr env) raw))
      | Raises _ => None
      end
  | None => None
  end.

(** The provider statuses that confirm a parsed transition (step 7):
    [success → {3}], [cancel → {4, 5, 6}]. *)
Definition expected_for (payment_status : string) (expected : list Z) : Prop :=
  (payment_status = "success" ∧ expected = [3%Z]) ∨
  (payment_status = "cancel" ∧ expected = [4%Z; 5%Z; 6%Z]).

(** The freshly fetched record of the payment the payload names carries a
    status in the set that the payload's transition requires. *)
Definition confirmed_by_provider (gw : UrlPay) (env : Env) (payload : pyval) : Prop :=
  ∃ raw idv payment api_status expected,
    get payload "payment_status" (PStr "") = Returns raw ∧
    get payload "id" PNone = Returns idv ∧
    fetched gw env (str (py_repr env) idv) = Returns payment ∧
    get payment "status" PNone = Returns api_status ∧
    expected_for (lower (str (py_repr env) raw)) expected ∧
    in_int_set api_status expected = Returns true.

(** The authoritative fetch does not confirm the transition: it came back
    absent, or with a status outside the expected set. *)
Definition not_confirmed (gw : UrlPay) (env : Env) (pid payment_status : string) : Prop :=
  (∃ absent, fetched gw env pid = Returns absent ∧ truthy absent = false) ∨
  (∃ payment api_status expected,
     fetched gw env pid = Returns payment ∧ truthy payment = true ∧
     get payment "status" PNone = Returns api_status ∧
     status_map_get payment_status = Some expected ∧
     in_int_set api_status expected = Returns false).

(** The request [_fetch_payment] sends for a payment. *)
Definition fetch_request (gw : UrlPay) (payment_id : string) : http_request :=
  mkRequest GET (_base_url +:+ "/v2/payments/" +:+ payment_id)
            (headers_authorization gw) None.

(** *** What a trace shows *)

(** The hooks a trace records, in order. *)
Fixpoint hooks_of (t : list event) : list (hook * string) :=
  match t with
  | [] => []
  | EvHook h pid :: t' => (h, pid) :: hooks_of t'
  | _ :: t' => hooks_of t'
  end.

(** The outbound HTTP requests a trace records. *)
Fixpoint requests_of (t : list event) : list http_request :=
  match t with
  | [] => []
  | EvHttp req :: t' => req :: requests_of t'
  | _ :: t' => requests_of t'
  end.

(** The [Transaction.update] calls a trace records. *)
Fixpoint updates_of (t : list event) : list (string * string) :=
  match t with
  | [] => []
  | EvDbUpdate pid u :: t' => (pid, u) :: updates_of t'
  | _ :: t' => updates_of t'
  end.

(** The [Transaction.create] calls a trace records. *)
Fixpoint creates_of (t : list event) : list Transaction :=
  match t with
  | [] => []
  | EvDbCreate row :: t' => row :: creates_of t'
  | _ :: t' => creates_of t'
  end.

(** *** More of [create_payment] and [_verify_callback] *)

(** The request [create_payment] sends (lines 81-109), for the rendered
    amount and the bot's username. *)
Definition create_request (gw : UrlPay) (env : Env) (data : SubscriptionData)
    (amount : string) (username : option string) : http_request :=
  mkRequest POST (_base_url +:+ "/v2/payments") (headers_authorization gw)
    (Some (create_payload gw env data amount (uuid4 env)
             ("https://t.me/" +:+ opt_str username))).

(** The test of lines 56-62 passes: the three credentials are there and
    none is empty. *)
Definition configured (gw : UrlPay) : Prop :=
  opt_truthy (API_KEY (config gw)) = true ∧
  opt_truthy (SHOP_ID (config gw)) = true ∧
  opt_truthy (SECRET_KEY (config gw)) = true.

(** The payload names no stored transaction: it has no id, or no uuid, or
    the table has no row with that id. *)
Definition names_no_transaction (env : Env) (payload : pyval) (w : world) : Prop :=
  ∀ idv uuidv,
    get payload "id" PNone = Returns idv → is_None idv = false →
    get payload "uuid" PNone = Returns uuidv → truthy uuidv = true →
    store w !! str (py_repr env) idv = None.


End Gateway.

(* ===================================================================== *)
(** ** The revision [1d5d6e69d5c6]: [payment_uuid] on [transactions] *)
(* ===================================================================== *)

Module Migration.

(** [sa.String(length=n)]; any other column type is kept by its name. *)
Inductive sa_type : Type :=
  | SaString (length : Z)
  | SaOther (name : string).

(** [sa.Column(name, type, nullable=...)] *)
Record Column : Type := mkColumn {
  col_name : string;
  col_type : sa_type;
  nullable : bool
}.

(** The operations of [alembic.op] that the revision calls. *)
Inductive operation : Type :=
  | add_column (table_name : string) (column : Column)
  | create_unique_constraint (constraint_name table_name : string)
                             (columns : list string)
  | drop_constraint (constraint_name table_name : string) (type_ : string)
  | drop_column (table_name : string) (column_name : string).

Definition revision : string := "1d5d6e69d5c6".
Definition down_revision : option string := Some "032f2bef8d8d".

Section Revision.

(** What an operation does to a schema is the business of the database
    behind Alembic: [exec] runs one operation, and fails as that database
    does.  A failure stops the revision there, as an exception does. *)
Context {Schema : Type} (exec : operation -> Schema -> option Schema).

(** [upgrade()] *)
Definition upgrade (s : Schema) : option Schema :=
  s1 ← exec (add_column "transactions"
                        (mkColumn "payment_uuid" (SaString 64) true)) s;
  exec (create_unique_constraint "uq_transactions_payment_uuid" "transactions"
                                 ["payment_uuid"]) s1.

(** [downgrade()] *)
Definition downgrade (s : Schema) : option Schema :=
  s1 ← exec (drop_constraint "uq_transactions_payment_uuid" "transactions"
                             "unique") s;
  exec (drop_column "transactions" "payment_uuid") s1.

End Revision.

(** *** A schema of names

    A database to run the revision on: a table is its columns and its
    unique constraints, by name, and an operation fails when what it names
    is missing or is there already. *)

Record Table : Type := mkTable {
  columns : list Column;
  uniques : list (string * list string)
}.

Definition has_column (t : Table) (c : string) : bool :=
  existsb (fun x => String.eqb (col_name x) c) (columns t).

Definition has_unique (t : Table) (n : string) : bool :=
  existsb (fun x => String.eqb (fst x) n) (uniques t).

Definition run (o : operation) (s : gmap string Table)
    : option (gmap string Table) :=
  match o with
  | add_column tbl col =>
      t ← s !! tbl;
      if has_column t (col_name col) then None
      else Some (<[tbl := mkTable (columns t ++ [col]) (uniques t)]> s)
  | create_unique_constraint n tbl cols =>
      t ← s !! tbl;
      if has_unique t n || negb (forallb (has_column t) cols) then None
      else Some (<[tbl := mkTable (columns t) (uniques t ++ [(n, cols)])]> s)
  | drop_constraint n tbl ty =>
      t ← s !! tbl;
      if negb (String.eqb ty "unique") || negb (has_unique t n) then None
      else Some (<[tbl := mkTable (columns t)
                            (filter (fun x => fst x ≠ n) (uniques t))]> s)
  | drop_column tbl c =>
      t ← s !! tbl;
      if negb (has_column t c) then None
      else Some (<[tbl := mkTable (filter (fun x => col_name x ≠ c) (columns t))
                                  (uniques t)]> s)
  end.

End Migration.

(* ===================================================================== *)
(** ** A provider, a table and some deliveries to run the gateway on *)
(* ===================================================================== *)

Module Demo.

Import Py Gateway.

Definition gw : UrlPay :=
  mkUrlPay (mkUrlPayConfig (Some "key") (Some "shop-1") (Some "secret")) "RUB".

(** A gateway whose secret key is the empty string. *)
Definition gw_blank : UrlPay :=
  mkUrlPay (mkUrlPayConfig (Some "key") (Some "shop-1") (Some "")) "RUB".

(** The provider answers [created] to a POST and [record] to a GET. *)
Definition env (created record : http_response) : Env :=
  mkEnv (fun _ => "?") (Returns (Some "shop_bot")) (fun _ => "2 devices, 30 days")
        "3f2b8c1e-0d4a-4c1b-9e57-6a1f0c2d7b90"
        (fun req => match req_method req with POST => created | GET => record end)
        ConflictRaises
        (fun _ st => (Returns tt, st)) (fun _ st => (Returns tt, st)).

(** The same provider, with hooks that raise. *)
Definition env_hooks_raise (created record : http_response) : Env :=
  mkEnv (fun _ => "?") (Returns (Some "shop_bot")) (fun _ => "2 devices, 30 days")
        "3f2b8c1e-0d4a-4c1b-9e57-6a1f0c2d7b90"
        (fun req => match req_method req with POST => created | GET => record end)
        ConflictRaises
        (fun _ st => (Raises (ExternalError "hook"), st))
        (fun _ st => (Raises (ExternalError "hook"), st)).

Definition created_ok : http_response :=
  HttpResponse 201
    (Some (PDict [("success", PBool true); ("id", PInt 77);
                  ("paymentUrl", PStr "https://urlpay.io/pay/77")])).

(** The provider's record of payment 77, with a status and a uuid. *)
Definition payment (status : pyval) (uuid : string) : pyval :=
  PDict [("id", PInt 77); ("uuid", PStr uuid); ("status", status)].

Definition record (status : pyval) (uuid : string) : http_response :=
  HttpResponse 200
    (Some (PDict [("success", PBool true); ("payment", payment status uuid)])).

Definition unavailable : http_response := HttpResponse 503 None.

(** A webhook body for payment 77. *)
Definition webhook (payment_status uuid : string) : pyval :=
  PDict [("payment_status", PStr payment_status); ("id", PInt 77);
         ("uuid", PStr uuid)].

Definition row (uuid : option string) : Transaction :=
  mkTransaction 1001 "sub" "77" uuid PENDING.

(** A table holding the one transaction 77. *)
Definition table (uuid : option string) : world :=
  mkWorld {["77" := row uuid]} [].

Definition nothing : world := mkWorld ∅ [].

Definition data : SubscriptionData :=
  mkSubscriptionData 1001 2 30 (Dec.mkDecimal false 10005 (-3)) "sub".

(** A gateway without an API key. *)
Definition gw_unkeyed : UrlPay :=
  mkUrlPay (mkUrlPayConfig None (Some "shop-1") (Some "secret")) "RUB".

(** The gateway [gw] with its currency code in small letters and the shop
    id ["1shop-1"]. *)
Definition gw_shifted : UrlPay :=
  mkUrlPay (mkUrlPayConfig (Some "key") (Some "1shop-1") (Some "secret")) "rub".

(** A price of [1E+27], and a price of [-0.001]. *)
Definition data_huge : SubscriptionData :=
  mkSubscriptionData 1001 2 30 (Dec.mkDecimal false 1 27) "sub".

Definition data_minus_zero : SubscriptionData :=
  mkSubscriptionData 1001 2 30 (Dec.mkDecimal true 1 (-3)) "sub".

(** A webhook body for a payment 78, which [table] does not hold. *)
Definition stranger : pyval :=
  PDict [("payment_status", PStr "success"); ("id", PInt 78);
         ("uuid", PStr "abc")].

(** The provider refuses to create the payment. *)
Definition refused_500 : http_response :=
  HttpResponse 500 (Some (PDict [("error", PStr "down")])).

(** A schema with a table of transactions that has no [payment_uuid] yet. *)
Definition schema_before : gmap string Migration.Table :=
  {["transactions" :=
      Migration.mkTable
        [Migration.mkColumn "id" (Migration.SaOther "Integer") false;
         Migration.mkColumn "tg_id" (Migration.SaOther "Integer") false;
         Migration.mkColumn "payment_id" (Migration.SaString 64) false;
         Migration.mkColumn "subscription" (Migration.SaString 255) false;
         Migration.mkColumn "status" (Migration.SaOther "Enum") false]
        [("uq_transactions_payment_id", ["payment_id"])]]}.


End Demo.

(* ===================================================================== *)
(** * Facts and theorems *)
(* ===================================================================== *)

(** ** The definitions at work *)

Section Examples.
Import Py Dec Gateway.
Local Open Scope list_scope.

Example sha1_abc :
  Sha1.hexdigest (Sha1.bytes_of_string "abc")
  = "a9993e364706816aba3e25717850c26c9cd0d89d".
Proof. vm_compute. reflexivity. Qed.

Example sha1_empty :
  Sha1.hexdigest [] = "da39a3ee5e6b4b0d3255bfef95601890afd80709".
Proof. vm_compute. reflexivity. Qed.

(** Two blocks. *)
Example sha1_two_blocks :
  Sha1.hexdigest (Sha1.bytes_of_string
    "abcdbcdecdefdefgefghfghighijhijkijkljklmklmnlmnomnopnopq")
  = "84983e441c3bd26ebaae4aa1f95129e5e54670f1".
Proof. vm_compute. reflexivity. Qed.

Example quantize_tie_goes_up :
  quantize_cents (mkDecimal false 5 (-3)) ROUND_HALF_UP
  = Returns (mkDecimal false 1 (-2)).
Proof. reflexivity. Qed.

Example quantize_keeps_sign_of_zero :
  amount_str (mkSubscriptionData 1 1 1 (mkDecimal true 1 (-3)) "") = Returns "-0.00".
Proof. vm_compute. reflexivity. Qed.

Example quantize_too_many_digits :
  quantize_cents (mkDecimal false 1 27) ROUND_HALF_UP = Raises InvalidOperation.
Proof. vm_compute. reflexivity. Qed.

Example float_three_is_in_the_set :
  in_int_set (PFloat (S754_finite false 3 0)) [3%Z] = Returns true.
Proof. reflexivity. Qed.

Example string_three_is_not_in_the_set :
  in_int_set (PStr "3") [3%Z] = Returns false.
Proof. reflexivity. Qed.

Example lower_is_on_ascii_letters : lower "SucCesS-1" = "success-1".
Proof. reflexivity. Qed.

(** A confirmed cancellation, bound on the way: the trace of the delivery. *)
Example delivery_trace :
  webhook_handler Demo.gw (Demo.env Demo.created_ok (Demo.record (PInt 5) "abc"))
    (Some (Demo.webhook "cancel" "abc")) (Demo.table None)
  = (Returns 200%Z,
     mkWorld {["77" := Demo.row (Some "abc")]}
       [EvLog LogWebhookPayload; EvDbGet "77"; EvDbUpdate "77" "abc";
        EvHttp (fetch_request Demo.gw "77"); EvHook HookCanceled "77"]).
Proof. vm_compute. reflexivity. Qed.

End Examples.

(** ** Digits and decimals *)

#[local] Arguments append _ _ : simpl nomatch.

Section DigitsFacts.
Import Digits.
Local Open Scope N_scope.

Lemma str_app_assoc (a b c : string) : (a +:+ b) +:+ c = a +:+ (b +:+ c).
Proof. induction a as [|x a IH]; simpl; [reflexivity | now rewrite IH]. Qed.

Lemma str_length_app (a b : string) :
  String.length (a +:+ b) = (String.length a + String.length b)%nat.
Proof. induction a as [|x a IH]; simpl; [reflexivity | now rewrite IH]. Qed.

Lemma size_nat_gt (n : N) : n < 2 ^ N.of_nat (N.size_nat n).
Proof.
  destruct n as [|p]; [reflexivity|].
  simpl N.size_nat.
  induction p as [p IH|p IH|]; simpl Pos.size_nat.
  - rewrite Nat2N.inj_succ, N.pow_succ_r'. lia.
  - rewrite Nat2N.inj_succ, N.pow_succ_r'. lia.
  - reflexivity.
Qed.

Lemma digits_aux_acc (fuel : nat) : forall n acc,
  digits_aux fuel n acc = digits_aux fuel n "" +:+ acc.
Proof.
  induction fuel as [|fuel IH]; intros n acc; simpl; [reflexivity|].
  destruct (n / 10 =? 0); [reflexivity|].
  rewrite IH, (IH _ (String _ "")), str_app_assoc. reflexivity.
Qed.

Lemma digits_aux_fuel (f1 : nat) : forall f2 n acc,
  n < 2 ^ N.of_nat f1 -> n < 2 ^ N.of_nat f2 ->
  digits_aux f1 n acc = digits_aux f2 n acc.
Proof.
  induction f1 as [|f1 IH]; intros f2 n acc H1 H2.
  - assert (n = 0) as -> by (simpl in H1; lia).
    destruct f2; reflexivity.
  - destruct f2 as [|f2].
    + assert (n = 0) as -> by (simpl in H2; lia). reflexivity.
    + simpl. destruct (n / 10 =? 0) eqn:E; [reflexivity|].
      rewrite Nat2N.inj_succ, N.pow_succ_r' in H1, H2.
      apply IH.
      * apply N.Div0.div_lt_upper_bound; lia.
      * apply N.Div0.div_lt_upper_bound; lia.
Qed.

(** The recursion [digits] follows: the last digit is [n mod 10]. *)
Lemma digits_step (n : N) :
  digits n =
  if n <? 10 then String (digit_char n) ""
  else digits (n / 10) +:+ String (digit_char (n mod 10)) "".
Proof.
  unfold digits.
  destruct (N.ltb_spec n 10) as [Hlt|Hge].
  - rewrite (digits_aux_fuel _ 4%nat) by (try apply size_nat_gt; simpl; lia).
    simpl. rewrite N.div_small, N.mod_small by lia. reflexivity.
  - pose proof (size_nat_gt n) as Hs.
    destruct (N.size_nat n) as [|f] eqn:Ef; [simpl in Hs; lia|].
    simpl. destruct (N.eqb_spec (n / 10) 0) as [E0|_].
    { apply N.div_small_iff in E0; lia. }
    rewrite digits_aux_acc. f_equal.
    apply digits_aux_fuel; [|apply size_nat_gt].
    rewrite Nat2N.inj_succ, N.pow_succ_r' in Hs.
    apply N.Div0.div_lt_upper_bound; lia.
Qed.

Lemma is_digit_digit_char (d : N) : d < 10 -> is_digit (digit_char d) = true.
Proof.
  intros H. unfold is_digit, digit_char.
  rewrite N_ascii_embedding by lia.
  apply andb_true_intro; split; apply N.leb_le; lia.
Qed.

Lemma digit_char_value (d : N) : d < 10 -> N_of_ascii (digit_char d) - 48 = d.
Proof. intros H. unfold digit_char. rewrite N_ascii_embedding by lia. lia. Qed.

Lemma all_digits_app (a b : string) :
  all_digits (a +:+ b) = all_digits a && all_digits b.
Proof. induction a as [|x a IH]; simpl; [reflexivity | now rewrite IH, andb_assoc]. Qed.

Lemma value_aux_app (a b : string) : forall acc,
  value_aux acc (a +:+ b) = value_aux (value_aux acc a) b.
Proof. induction a as [|x a IH]; intros acc; simpl; [reflexivity | apply IH]. Qed.

(** Strong induction along [n / 10]. *)
Lemma by_digits (P : N -> Prop) :
  (forall n, n < 10 -> P n) ->
  (forall n, 10 <= n -> P (n / 10) -> P n) ->
  forall n, P n.
Proof.
  intros Hsmall Hbig n.
  induction n as [n IH] using (well_founded_induction N.lt_wf_0).
  destruct (N.lt_ge_cases n 10) as [Hlt|Hge]; [now apply Hsmall|].
  apply Hbig; [exact Hge|]. apply IH.
  apply N.div_lt; lia.
Qed.

Lemma digits_all_digits (n : N) : all_digits (digits n) = true.
Proof.
  induction n as [n Hn|n Hn IH] using by_digits; rewrite digits_step.
  - destruct (N.ltb_spec n 10); [|lia]. simpl.
    now rewrite is_digit_digit_char.
  - destruct (N.ltb_spec n 10); [lia|].
    rewrite all_digits_app, IH. simpl.
    rewrite is_digit_digit_char; [reflexivity|].
    apply N.mod_lt; lia.
Qed.

Lemma digits_value (n : N) : value (digits n) = n.
Proof.
  unfold value.
  induction n as [n Hn|n Hn IH] using by_digits; rewrite digits_step.
  - destruct (N.ltb_spec n 10); [|lia]. simpl.
    rewrite digit_char_value by assumption. lia.
  - destruct (N.ltb_spec n 10); [lia|].
    rewrite value_aux_app, IH. simpl.
    rewrite digit_char_value by (apply N.mod_lt; lia).
    pose proof (N.div_mod n 10). lia.
Qed.

Lemma digits_nonempty (n : N) : digits n <> "".
Proof.
  rewrite digits_step. destruct (n <? 10); [discriminate|].
  destruct (digits (n / 10)); discriminate.
Qed.

(** [len(str(n)) <= k] exactly when [n < 10^k]. *)
Lemma digits_length_le (k : nat) : forall n,
  (String.length (digits n) <= S k)%nat <-> n < 10 ^ N.of_nat (S k).
Proof.
  induction k as [|k IH]; intros n; rewrite digits_step.
  - destruct (N.ltb_spec n 10) as [Hlt|Hge]; simpl String.length.
    + split; [intros _; simpl; lia | lia].
    + rewrite str_length_app. simpl String.length.
      pose proof (digits_nonempty (n / 10)) as Hne.
      destruct (digits (n / 10)); [congruence|].
      simpl. split; [lia | intros; simpl in *; lia].
  - rewrite (Nat2N.inj_succ (S k)), N.pow_succ_r'.
    destruct (N.ltb_spec n 10) as [Hlt|Hge]; simpl String.length.
    + split; [|lia]. intros _.
      assert (0 < 10 ^ N.of_nat (S k)) by (apply N.neq_0_lt_0, N.pow_nonzero; lia).
      lia.
    + rewrite str_length_app. simpl String.length.
      specialize (IH (n / 10)).
      split; intros H.
      * assert (n / 10 < 10 ^ N.of_nat (S k)) as Hq by (apply IH; lia).
        pose proof (N.div_mod n 10). pose proof (N.mod_lt n 10). lia.
      * assert (n / 10 < 10 ^ N.of_nat (S k)) as Hq
          by (apply N.Div0.div_lt_upper_bound; lia).
        apply IH in Hq. lia.
Qed.

End DigitsFacts.

Section DecimalFacts.
Import Digits Dec Py.
Local Open Scope N_scope.

Lemma digits_len_le (n : N) (k : Z) :
  (1 <= k)%Z ->
  (Z.of_nat (String.length (digits n)) <= k)%Z <-> n < 10 ^ Z.to_N k.
Proof.
  intros Hk.
  destruct (Z.to_nat k) as [|k'] eqn:Ek; [lia|].
  replace (Z.to_N k) with (N.of_nat (S k')) by lia.
  rewrite <- digits_length_le. lia.
Qed.

Lemma digits_len_pos (n : N) : (1 <= Z.of_nat (String.length (digits n)))%Z.
Proof.
  pose proof (digits_nonempty n). destruct (digits n); [congruence|simpl; lia].
Qed.

Lemma pow10_pos (k : N) : 0 < 10 ^ k.
Proof. apply N.neq_0_lt_0, N.pow_nonzero. lia. Qed.

(** Looking at the first dropped digit is rounding half up. *)
Lemma round_half_up_correct (c : N) (k : Z) :
  (0 < k)%Z ->
  (if round_up ROUND_HALF_UP (c / 10 ^ Z.to_N k) (c mod 10 ^ Z.to_N k) k
   then c / 10 ^ Z.to_N k + 1 else c / 10 ^ Z.to_N k)
  = (2 * c + 10 ^ Z.to_N k) / (2 * 10 ^ Z.to_N k).
Proof.
  intros Hk. unfold round_up.
  set (p := 10 ^ Z.to_N (k - 1)).
  assert (Hp : 10 ^ Z.to_N k = 10 * p).
  { unfold p. replace (Z.to_N k) with (N.succ (Z.to_N (k - 1))) by lia.
    apply N.pow_succ_r'. }
  assert (0 < p) by apply pow10_pos.
  rewrite Hp.
  pose proof (N.div_mod c (10 * p) ltac:(lia)) as Hc.
  pose proof (N.mod_lt c (10 * p) ltac:(lia)) as Hr.
  set (q := c / (10 * p)) in *. set (r := c mod (10 * p)) in *.
  destruct (N.leb_spec 5 (r / p)) as [Hup|Hdown].
  - assert (5 * p <= r).
    { pose proof (N.Div0.mul_div_le r p). nia. }
    apply N.div_unique with (r := 2 * r - 10 * p); nia.
  - assert (r < 5 * p).
    { pose proof (N.mul_succ_div_gt r p ltac:(lia)). nia. }
    apply N.div_unique with (r := 2 * r + 10 * p); nia.
Qed.

Lemma cents_half_up_zero (s : bool) (e : Z) : cents_half_up (mkDecimal s 0 e) = 0.
Proof.
  unfold cents_half_up. simpl.
  destruct (-2 <=? e)%Z; [reflexivity|].
  apply N.div_small. pose proof (pow10_pos (Z.to_N (-2 - e))). lia.
Qed.


(** What [quantize] does with a result of [c] hundredths: it is returned
    when it fits the precision of the context. *)
Lemma quantize_checks (s : bool) (c : N) :
  (if (Emax <? adjusted (mkDecimal s c (-2)))%Z then Raises InvalidOperation
   else if (prec <? ndigits (mkDecimal s c (-2)))%Z then Raises InvalidOperation
   else Returns (mkDecimal s c (-2)))
  = if c <? 10 ^ 28 then Returns (mkDecimal s c (-2)) else Raises InvalidOperation.
Proof.
  unfold adjusted, ndigits, Emax, prec. simpl coeff. simpl exp.
  pose proof (digits_len_le c 28 ltac:(lia)) as Hlen.
  change (Z.to_N 28) with 28 in Hlen.
  destruct (N.ltb_spec c (10 ^ 28)) as [Hc|Hc].
  - apply Hlen in Hc.
    destruct (Z.ltb_spec 999999 (-2 + Z.of_nat (String.length (digits c)) - 1)); [lia|].
    destruct (Z.ltb_spec 28 (Z.of_nat (String.length (digits c)))); [lia|reflexivity].
  - destruct (Z.ltb_spec 999999 (-2 + Z.of_nat (String.length (digits c)) - 1)); [reflexivity|].
    destruct (Z.ltb_spec 28 (Z.of_nat (String.length (digits c)))); [reflexivity|].
    exfalso. apply N.le_ngt in Hc. apply Hc, Hlen. lia.
Qed.

(** [quantize] to hundredths with [ROUND_HALF_UP] yields the half-up
    rounding, unless that needs more than 28 digits. *)
Lemma quantize_half_up (d : Decimal) :
  quantize_cents d ROUND_HALF_UP =
  if cents_half_up d <? 10 ^ 28
  then Returns (mkDecimal (sign d) (cents_half_up d) (-2))
  else Raises InvalidOperation.
Proof.
  destruct d as [s c e]. unfold quantize_cents. simpl coeff. simpl sign.
  destruct (N.eqb_spec c 0) as [->|Hc0].
  { rewrite cents_half_up_zero. reflexivity. }
  pose proof (digits_len_pos c) as Hpos.
  set (nd := Z.of_nat (String.length (digits c))) in *.
  assert (Hadj : adjusted (mkDecimal s c e) = (e + nd - 1)%Z) by reflexivity.
  rewrite Hadj. unfold Emax at 1, prec at 1.
  unfold rescale. simpl coeff. simpl sign. simpl exp.
  destruct (N.eqb_spec c 0) as [|_]; [contradiction|].
  unfold cents_half_up. simpl coeff. simpl exp.
  destruct (Z.leb_spec (-2) e) as [He|He].
  - (* the coefficient is padded with zeros *)
    replace (e - -2)%Z with (e + 2)%Z by lia.
    set (p := 10 ^ Z.to_N (e + 2)).
    assert (Hp : 0 < p) by apply pow10_pos.
    rewrite quantize_checks.
    destruct (N.ltb_spec (c * p) (10 ^ 28)) as [Hfit|Hbig].
    + assert (e + 2 < 28)%Z as He28.
      { destruct (Z.lt_ge_cases (e + 2) 28) as [|Hge]; [assumption|exfalso].
        assert (10 ^ 28 <= p).
        { unfold p. apply N.pow_le_mono_r; lia. }
        nia. }
      assert (nd <= 26 - e)%Z.
      { apply digits_len_le; [lia|].
        assert (10 ^ 28 = 10 ^ Z.to_N (26 - e) * p) as E.
        { unfold p. rewrite <- N.pow_add_r. f_equal. lia. }
        rewrite E in Hfit. nia. }
      destruct (Z.ltb_spec 999999 (e + nd - 1)); [lia|].
      destruct (Z.ltb_spec 28 (e + nd - 1 - -2 + 1)); [lia|reflexivity].
    + destruct (Z.ltb_spec 999999 (e + nd - 1)); [reflexivity|].
      destruct (Z.ltb_spec 28 (e + nd - 1 - -2 + 1)) as [|Hnd]; [reflexivity|exfalso].
      assert (c < 10 ^ Z.to_N (26 - e)) as Hc by (apply digits_len_le; lia).
      assert (10 ^ 28 = 10 ^ Z.to_N (26 - e) * p) as E.
      { unfold p. rewrite <- N.pow_add_r. f_equal. lia. }
      rewrite E in Hbig. nia.
  - (* digits are dropped *)
    destruct (Z.leb_spec (-2) e) as [|_]; [lia|].
    rewrite (round_half_up_correct c (-2 - e)) by lia.
    set (k := Z.to_N (-2 - e)).
    set (p := 10 ^ k).
    assert (Hp : 0 < p) by apply pow10_pos.
    set (ans := (2 * c + p) / (2 * p)).
    rewrite quantize_checks.
    assert (Hq : c / p <= ans).
    { unfold ans. apply N.div_le_lower_bound; [lia|].
      pose proof (N.Div0.mul_div_le c p). nia. }
    destruct (N.ltb_spec ans (10 ^ 28)) as [Hfit|Hbig].
    + assert (nd <= 28 + (-2 - e))%Z.
      { apply digits_len_le; [lia|].
        replace (Z.to_N (28 + (-2 - e))) with (28 + k) by lia.
        rewrite N.pow_add_r. fold p.
        pose proof (N.mul_succ_div_gt c p ltac:(lia)). nia. }
      destruct (Z.ltb_spec 999999 (e + nd - 1)); [lia|].
      destruct (Z.ltb_spec 28 (e + nd - 1 - -2 + 1)); [lia|reflexivity].
    + destruct (Z.ltb_spec 999999 (e + nd - 1)); [reflexivity|].
      destruct (Z.ltb_spec 28 (e + nd - 1 - -2 + 1)); reflexivity.
Qed.


Lemma str_take_app (a b : string) : str_take (String.length a) (a +:+ b) = a.
Proof. induction a as [|x a IH]; simpl; [destruct b; reflexivity | now rewrite IH]. Qed.

Lemma str_drop_app (a b : string) : str_drop (String.length a) (a +:+ b) = b.
Proof. induction a as [|x a IH]; simpl; [destruct b; reflexivity | exact IH]. Qed.

Lemma rescale_cents (s : bool) (c : N) (mode : rounding) :
  rescale (mkDecimal s c (-2)) (-2) mode = mkDecimal s c (-2).
Proof.
  unfold rescale. simpl.
  destruct (N.eqb_spec c 0) as [->|_]; [reflexivity|].
  now rewrite N.mul_1_r.
Qed.

(** [format(_, ".2f")] of a number of hundredths. *)
Lemma format_cents (s : bool) (c : N) :
  format_2f (mkDecimal s c (-2)) = render_cents s c.
Proof.
  unfold format_2f, render_cents. rewrite rescale_cents. simpl coeff. simpl exp. simpl sign.
  f_equal.
  rewrite (digits_step c).
  destruct (N.ltb_spec c 10) as [H10|H10].
  { (* one digit *)
    simpl. rewrite (N.div_small c 100), (N.div_small c 10), (N.mod_small c 10) by lia.
    reflexivity. }
  rewrite (digits_step (c / 10)).
  assert (c / 10 / 10 = c / 100) as E100 by (rewrite N.Div0.div_div; reflexivity).
  destruct (N.ltb_spec (c / 10) 10) as [H100|H100].
  { (* two digits *)
    assert (c < 100) by (pose proof (N.mul_succ_div_gt c 10 ltac:(lia)); lia).
    simpl. rewrite (N.div_small c 100), (N.mod_small (c / 10) 10) by lia.
    reflexivity. }
  (* an integer part and two digits *)
  rewrite E100, str_app_assoc. simpl (String _ "" +:+ _).
  set (ip := digits (c / 100)).
  set (frac := String (digit_char (c / 10 mod 10)) (String (digit_char (c mod 10)) "")).
  rewrite str_length_app. change (String.length frac) with 2%nat.
  assert (Hip : ip <> "") by apply digits_nonempty.
  replace (-2 + Z.of_nat (String.length ip + 2))%Z with (Z.of_nat (String.length ip)) by lia.
  destruct (Z.ltb_spec (Z.of_nat (String.length ip)) 0); [lia|].
  destruct (Z.ltb_spec (Z.of_nat (String.length ip + 2)) (Z.of_nat (String.length ip))); [lia|].
  rewrite Nat2Z.id, str_take_app, str_drop_app.
  destruct ip; [congruence|]. reflexivity.
Qed.

End DecimalFacts.

Section AmountRendering.
Import Digits Dec Py Gateway.
Local Open Scope N_scope.

Lemma amount_str_eq (data : SubscriptionData) :
  amount_str data =
  if cents_half_up (price data) <? 10 ^ 28
  then Returns (render_cents (sign (price data)) (cents_half_up (price data)))
  else Raises InvalidOperation.
Proof.
  unfold amount_str. rewrite quantize_half_up.
  destruct (cents_half_up (price data) <? 10 ^ 28); [|reflexivity].
  now rewrite format_cents.
Qed.

(** C8. [create_payment] renders the price in fixed-point notation with
    exactly two fractional digits, after rounding half up to two places:
    the text is an optional sign, a non-empty run of digits, a point and two
    digits, and it denotes [floor (|price| * 100 + 1/2)] hundredths.  It is
    produced whenever that number has at most 28 digits (otherwise
    [quantize] raises [InvalidOperation]).  In particular [10.005] gives
    ["10.01"] and [10] gives ["10.00"]. *)
Theorem amount_str_half_up_two_places :
  (forall data : SubscriptionData,
     let c := cents_half_up (price data) in
     amount_str data =
       (if c <? 10 ^ 28
        then Returns (render_cents (sign (price data)) c)
        else Raises InvalidOperation) /\
     (forall s, amount_str data = Returns s ->
        exists (ip : string) (d1 d2 : ascii),
          s = (if sign (price data) then "-" else "") +:+ ip +:+ "." +:+
              String d1 (String d2 "") /\
          ip <> "" /\ all_digits ip = true /\
          is_digit d1 = true /\ is_digit d2 = true /\
          100 * value ip + value (String d1 (String d2 "")) = c)) /\
  (forall u dv du pk,
     amount_str (mkSubscriptionData u dv du (mkDecimal false 10005 (-3)) pk)
     = Returns "10.01") /\
  (forall u dv du pk,
     amount_str (mkSubscriptionData u dv du (mkDecimal false 10 0) pk)
     = Returns "10.00").
Proof.
  split; [|split; intros; vm_compute; reflexivity].
  intros data c. split; [apply amount_str_eq|].
  intros s Hs. rewrite amount_str_eq in Hs. fold c in Hs.
  destruct (c <? 10 ^ 28); [|discriminate].
  injection Hs as <-.
  assert (c / 10 mod 10 < 10) by (apply N.mod_lt; lia).
  assert (c mod 10 < 10) by (apply N.mod_lt; lia).
  exists (digits (c / 100)), (digit_char (c / 10 mod 10)), (digit_char (c mod 10)).
  split; [reflexivity|].
  split; [apply digits_nonempty|].
  split; [apply digits_all_digits|].
  split; [now apply is_digit_digit_char|].
  split; [now apply is_digit_digit_char|].
  rewrite digits_value. unfold value. simpl.
  rewrite !digit_char_value by assumption.
  clearbody c.
  replace (c / 100) with (c / 10 / 10) by (rewrite N.Div0.div_div; reflexivity).
  pose proof (N.div_mod c 10 ltac:(lia)).
  pose proof (N.div_mod (c / 10) 10 ltac:(lia)).
  lia.
Qed.

End AmountRendering.

#[local] Arguments append _ _ : simpl never.

(** ** Running the gateway *)

Section Runs.
Import Py Gateway.
Local Open Scope list_scope.

Lemma hooks_of_app t1 t2 : hooks_of (t1 ++ t2) = hooks_of t1 ++ hooks_of t2.
Proof. induction t1 as [|[] t1 IH]; simpl; try rewrite IH; reflexivity. Qed.

Lemma requests_of_app t1 t2 : requests_of (t1 ++ t2) = requests_of t1 ++ requests_of t2.
Proof. induction t1 as [|[] t1 IH]; simpl; try rewrite IH; reflexivity. Qed.

Lemma updates_of_app t1 t2 : updates_of (t1 ++ t2) = updates_of t1 ++ updates_of t2.
Proof. induction t1 as [|[] t1 IH]; simpl; try rewrite IH; reflexivity. Qed.

Lemma creates_of_app t1 t2 : creates_of (t1 ++ t2) = creates_of t1 ++ creates_of t2.
Proof. induction t1 as [|[] t1 IH]; simpl; try rewrite IH; reflexivity. Qed.

End Runs.

(** Unfolding the monad: a run becomes a nest of [match]es. *)
Ltac unfold_monad :=
  unfold Gateway.try_except, Gateway.refused, Gateway.log, Gateway.emit,
    Gateway.lift, Gateway.get_store, Gateway.put_store, Gateway.on_store,
    mbind, Gateway.M_bind, Gateway.bind, mret, Gateway.M_ret,
    Gateway.ret, Gateway.raise in *.

(** Case analysis on the innermost scrutinee of a [match] in the goal or in
    a hypothesis. *)
Ltac case_scrutinee :=
  match goal with
  | |- context [match ?x with _ => _ end] =>
      lazymatch x with
      | context [match _ with _ => _ end] => fail
      | _ => destruct x eqn:?
      end
  | H : context [match ?x with _ => _ end] |- _ =>
      lazymatch x with
      | context [match _ with _ => _ end] => fail
      | _ => destruct x eqn:?
      end
  end.

Section Fetch.
Import Py Gateway.
Local Open Scope list_scope.
Variables (gw : UrlPay) (env : Env).

(** [_fetch_payment] leaves the table alone, only adds requests and log lines
    to the trace, and its result does not depend on the state; with an API
    key, the first thing it does is the request. *)
Lemma fetch_payment_frame (pid : string) (w : world) :
  exists evs,
    Gateway._fetch_payment gw env pid w =
      (fetched gw env pid,
       mkWorld (store w) (trace w ++ evs)) /\
    hooks_of evs = [] /\ updates_of evs = [] /\ creates_of evs = [] /\
    (opt_truthy (API_KEY (config gw)) = true ->
     exists rest, evs = EvHttp (fetch_request gw pid) :: rest).
Proof.
  unfold fetched, Gateway._fetch_payment, http_call, response_json. unfold_monad. simpl.
  repeat (case_scrutinee; simpl); rewrite <- ?app_assoc;
    eexists; (split; [reflexivity|]); (do 3 (split; [reflexivity|]));
    intros Hkey; try (rewrite Hkey in *; discriminate);
    eexists; reflexivity.
Qed.

End Fetch.

(** Replacing a run of [_fetch_payment] by what [fetch_payment_frame] says
    of it. *)
Ltac use_fetch_frame :=
  match goal with
  | |- context [Gateway._fetch_payment ?g ?e ?p ?w] =>
      let evs := fresh "evs" in
      let Hf := fresh "Hfetch" in
      destruct (fetch_payment_frame g e p w) as (evs & Hf & ? & ? & ? & ?);
      rewrite Hf; clear Hf
  | H : context [Gateway._fetch_payment ?g ?e ?p ?w] |- _ =>
      let evs := fresh "evs" in
      let Hf := fresh "Hfetch" in
      destruct (fetch_payment_frame g e p w) as (evs & Hf & ? & ? & ? & ?);
      rewrite Hf in H; clear Hf
  end.

(** Running [_verify_callback] symbolically: one goal per path. *)
Ltac run_verify H :=
  unfold Gateway._verify_callback, Gateway.Transaction_get_by_id,
    Gateway.Transaction_update in H;
  unfold_monad; simpl in H;
  repeat (first [use_fetch_frame | case_scrutinee]; simpl in H).

(** Projections of a trace that grew by appending. *)
Ltac trace_simpl :=
  simpl;
  rewrite ?hooks_of_app, ?updates_of_app, ?creates_of_app, ?requests_of_app;
  simpl;
  repeat match goal with
    | E : Gateway.hooks_of _ = [] |- _ => rewrite E
    | E : Gateway.updates_of _ = [] |- _ => rewrite E
    | E : Gateway.creates_of _ = [] |- _ => rewrite E
    end;
  rewrite ?app_nil_r.

Section Verify.
Import Py Gateway.
Local Open Scope list_scope.
Variables (gw : UrlPay) (env : Env).

(** [_verify_callback] invokes no hook and creates no row. *)
Lemma verify_callback_hooks payload s w :
  hooks_of (trace (snd (_verify_callback gw env payload s w))) = hooks_of (trace w) /\
  creates_of (trace (snd (_verify_callback gw env payload s w))) = creates_of (trace w).
Proof.
  destruct (_verify_callback gw env payload s w) as [r w'] eqn:H.
  run_verify H; injection H as <- <-; trace_simpl; split; reflexivity.
Qed.

(** What an accepted callback has been through. *)
Lemma verify_callback_accepted payload s w pid w' :
  _verify_callback gw env payload s w = (Returns (Some pid), w') ->
  exists idv uuidv t payment,
    get payload "id" PNone = Returns idv /\ is_None idv = false /\
    pid = str (py_repr env) idv /\
    get payload "uuid" PNone = Returns uuidv /\ truthy uuidv = true /\
    store w !! pid = Some t /\
    fetched gw env pid = Returns payment /\ truthy payment = true /\
    (forall x xs, status_map_get s = Some (x :: xs) ->
       exists api_status,
         get payment "status" PNone = Returns api_status /\
         in_int_set api_status (x :: xs) = Returns true).
Proof.
  intros H.
  run_verify H; try discriminate H; injection H as <- <-; try congruence.
  all: repeat match goal with
         | E : negb _ = false |- _ => apply negb_false_iff in E
         | E : negb _ = true |- _ => apply negb_true_iff in E
         end.
  all: do 4 eexists; repeat (apply conj; [eassumption || reflexivity|]).
  all: intros x xs Hx; try congruence.
  all: injection Hx as <- <-; subst; eauto.
Qed.

End Verify.

(** Running [webhook_handler] symbolically, with [_verify_callback] and the
    hooks kept folded. *)
Ltac run_handler :=
  unfold Gateway.webhook_handler, Gateway.response_json,
    Gateway.handle_payment_succeeded, Gateway.handle_payment_canceled in *;
  unfold_monad; simpl in *;
  repeat (case_scrutinee; simpl in * ).

(** Boolean tests among the hypotheses, as propositions. *)
Ltac bool_facts :=
  unfold Gateway.payment_uuid_of in *;
  repeat match goal with
    | E : negb _ = false |- _ => apply negb_false_iff in E
    | E : negb _ = true |- _ => apply negb_true_iff in E
    | E : (_ || _) = true |- _ => apply orb_true_iff in E
    | E : (_ && _) = true |- _ => apply andb_true_iff in E; destruct E
    | E : String.eqb _ _ = true |- _ => apply String.eqb_eq in E
    | E : String.eqb _ _ = false |- _ => apply String.eqb_neq in E
    end.

Section StatusValidation.
Import Py Gateway.
Local Open Scope list_scope.
Variables (gw : UrlPay) (env : Env).

Lemma supported_status (s : string) :
  s = "success" \/ s = "cancel" ->
  (s = "success" /\ status_map_get s = Some [3%Z]) \/
  (s = "cancel" /\ status_map_get s = Some [4%Z; 5%Z; 6%Z]).
Proof. intros [->| ->]; [left|right]; split; reflexivity. Qed.

(** An accepted callback was confirmed by the provider. *)
Lemma accepted_confirms payload raw pid w1 w0 :
  get payload "payment_status" (PStr "") = Returns raw ->
  lower (str (py_repr env) raw) = "success" \/
  lower (str (py_repr env) raw) = "cancel" ->
  _verify_callback gw env payload (lower (str (py_repr env) raw)) w1
    = (Returns (Some pid), w0) ->
  confirmed_by_provider gw env payload.
Proof.
  intros Hraw Hs Hv.
  apply verify_callback_accepted in Hv
    as (idv & uuidv & t & payment & Hid & _ & -> & _ & _ & _ & Hf & _ & Hst).
  destruct (supported_status _ Hs) as [[Es Em]|[Es Em]];
    destruct (Hst _ _ Em) as (api & Hget & Hin);
    exists raw, idv, payment, api; eexists;
    (repeat (apply conj; [eassumption|])); (split; [|exact Hin]).
  - left; split; [exact Es | reflexivity].
  - right; split; [exact Es | reflexivity].
Qed.

(** C1. Acceptance requires the freshly fetched record to carry a status in
    the set of the parsed transition ([success]: {3}, [cancel]: {4, 5, 6}).
    Whatever the payload says, when the fetched status is not in that set
    (an absent status field is in no set) the handler answers 400 and
    invokes no hook; and an answer 200 is only given to a payload the
    provider confirmed. *)
Theorem status_validation_is_decisive (body : option pyval) (w : world) :
  let r := webhook_handler gw env body w in
  (~ (exists payload, body = Some payload /\ confirmed_by_provider gw env payload) ->
     fst r = Returns 400%Z /\ hooks_of (trace (snd r)) = hooks_of (trace w)) /\
  (fst r = Returns 200%Z ->
     exists payload, body = Some payload /\ confirmed_by_provider gw env payload) /\
  (forall members, in_int_set PNone members = Returns false).
Proof.
  cbv zeta.
  assert (Hacc : forall payload raw pid w1 w0,
            body = Some payload ->
            get payload "payment_status" (PStr "") = Returns raw ->
            lower (str (py_repr env) raw) = "success" \/
            lower (str (py_repr env) raw) = "cancel" ->
            _verify_callback gw env payload (lower (str (py_repr env) raw)) w1
              = (Returns (Some pid), w0) ->
            exists payload, body = Some payload /\ confirmed_by_provider gw env payload).
  { intros payload raw pid w1 w0 Hb Hraw Hs Hv. exists payload. split; [exact Hb|].
    eapply accepted_confirms; eassumption. }
  split; [|split].
  - intros Hno.
    destruct (webhook_handler gw env body w) as [r w'] eqn:H.
    run_handler; injection H as <- <-; bool_facts;
      try (exfalso; apply Hno; eapply Hacc; eauto; fail).
    all: match goal with
         | E : _verify_callback _ _ ?p ?s ?w1 = (_, ?w0) |- _ =>
             pose proof (proj1 (verify_callback_hooks gw env p s w1)) as Hh;
             rewrite E in Hh; simpl in Hh
         | _ => idtac
         end.
    all: trace_simpl; rewrite ?Hh; trace_simpl; split; reflexivity.
  - intros H200.
    destruct (webhook_handler gw env body w) as [r w'] eqn:H.
    run_handler; injection H as <- <-; simpl in H200; try discriminate H200.
    all: bool_facts; eapply Hacc; eauto.
  - intros members. unfold in_int_set. f_equal.
    induction members as [|z members IH]; [reflexivity | exact IH].
Qed.

End StatusValidation.

Section FetchAbsent.
Import Py Gateway.
Local Open Scope list_scope.
Variables (gw : UrlPay) (env : Env).

(** Either the handler rejects without a hook, or [_verify_callback]
    accepted a supported transition. *)
Lemma handler_rejects_or_verified (body : option pyval) (w : world) :
  (fst (webhook_handler gw env body w) = Returns 400%Z /\
   hooks_of (trace (snd (webhook_handler gw env body w))) = hooks_of (trace w)) \/
  (exists payload raw pid w1 w0,
     body = Some payload /\
     get payload "payment_status" (PStr "") = Returns raw /\
     (lower (str (py_repr env) raw) = "success" \/
      lower (str (py_repr env) raw) = "cancel") /\
     _verify_callback gw env payload (lower (str (py_repr env) raw)) w1
       = (Returns (Some pid), w0)).
Proof.
  destruct (webhook_handler gw env body w) as [r w'] eqn:H.
  run_handler; injection H as <- <-; bool_facts;
    try (right; do 5 eexists; repeat (apply conj; [eauto; fail|]); eauto; fail).
  all: left.
  all: match goal with
       | E : _verify_callback _ _ ?p ?s ?w1 = (_, ?w0) |- _ =>
           pose proof (proj1 (verify_callback_hooks gw env p s w1)) as Hh;
           rewrite E in Hh; simpl in Hh
       | _ => idtac
       end.
  all: trace_simpl; rewrite ?Hh; trace_simpl; split; reflexivity.
Qed.

(** C5, amended.  [_fetch_payment] returns [None], and raises nothing, when
    the response status is not 200, and, the body of a 200 being a JSON
    object, when it has no true [success] flag or no [payment] field.  A 200
    whose body is not a JSON object, or is not JSON at all, makes it raise
    instead ([result.get] and [response.json()] are not guarded).  A webhook
    whose authoritative fetch comes back absent, or raises, is rejected:
    400, no hook. *)
Theorem fetch_absent_is_rejection :
  (forall pid w code body,
     http env (fetch_request gw pid) = HttpResponse code body ->
     code <> 200%Z ->
     fst (_fetch_payment gw env pid w) = Returns PNone) /\
  (forall pid w d,
     http env (fetch_request gw pid) = HttpResponse 200 (Some (PDict d)) ->
     (dict_get d "success" = None \/
      exists flag, dict_get d "success" = Some flag /\ truthy flag = false) ->
     fst (_fetch_payment gw env pid w) = Returns PNone) /\
  (forall pid w d,
     http env (fetch_request gw pid) = HttpResponse 200 (Some (PDict d)) ->
     dict_get d "payment" = None ->
     fst (_fetch_payment gw env pid w) = Returns PNone) /\
  (forall payload idv absent w,
     get payload "id" PNone = Returns idv ->
     fetched gw env (str (py_repr env) idv) = Returns absent ->
     truthy absent = false ->
     fst (webhook_handler gw env (Some payload) w) = Returns 400%Z /\
     hooks_of (trace (snd (webhook_handler gw env (Some payload) w)))
       = hooks_of (trace w)) /\
  (forall pid w body,
     opt_truthy (API_KEY (config gw)) = true ->
     http env (fetch_request gw pid) = HttpResponse 200 (Some body) ->
     (forall d, body <> PDict d) ->
     fst (_fetch_payment gw env pid w) = Raises AttributeError) /\
  (forall pid w,
     opt_truthy (API_KEY (config gw)) = true ->
     http env (fetch_request gw pid) = HttpResponse 200 None ->
     fst (_fetch_payment gw env pid w) = Raises (ExternalError "json")) /\
  (forall payload idv e w,
     get payload "id" PNone = Returns idv ->
     fetched gw env (str (py_repr env) idv) = Raises e ->
     fst (webhook_handler gw env (Some payload) w) = Returns 400%Z /\
     hooks_of (trace (snd (webhook_handler gw env (Some payload) w)))
       = hooks_of (trace w)).
Proof.
  repeat apply conj.
  - intros pid w code body Hhttp Hcode.
    unfold _fetch_payment, http_call, response_json. unfold_monad.
    fold (fetch_request gw pid). rewrite Hhttp.
    destruct (negb (opt_truthy (API_KEY (config gw)))); [reflexivity|]. simpl.
    destruct (Z.eqb_spec code 200); [contradiction|reflexivity].
  - intros pid w d Hhttp Hflag.
    unfold _fetch_payment, http_call, response_json. unfold_monad.
    fold (fetch_request gw pid). rewrite Hhttp.
    destruct (negb (opt_truthy (API_KEY (config gw)))); [reflexivity|]. simpl.
    destruct Hflag as [->|(flag & -> & Hf)]; [reflexivity|].
    rewrite Hf. reflexivity.
  - intros pid w d Hhttp Hpay.
    unfold _fetch_payment, http_call, response_json. unfold_monad.
    fold (fetch_request gw pid). rewrite Hhttp.
    destruct (negb (opt_truthy (API_KEY (config gw)))); [reflexivity|]. simpl.
    rewrite Hpay.
    destruct (negb _); reflexivity.
  - intros payload idv absent w Hid Hf Habs.
    destruct (handler_rejects_or_verified (Some payload) w)
      as [Hrej|(p & raw & pid & w1 & w0 & Hb & _ & _ & Hv)]; [exact Hrej|exfalso].
    injection Hb as <-.
    apply verify_callback_accepted in Hv
      as (idv' & _ & _ & payment & Hid' & _ & -> & _ & _ & _ & Hf' & Ht & _).
    congruence.
  - intros pid w body Hkey Hhttp Hbody.
    unfold _fetch_payment, http_call, response_json. unfold_monad.
    fold (fetch_request gw pid). rewrite Hhttp, Hkey. simpl.
    destruct body; try reflexivity.
    exfalso. eapply Hbody. reflexivity.
  - intros pid w Hkey Hhttp.
    unfold _fetch_payment, http_call, response_json. unfold_monad.
    fold (fetch_request gw pid). rewrite Hhttp, Hkey. reflexivity.
  - intros payload idv e w Hid Hf.
    destruct (handler_rejects_or_verified (Some payload) w)
      as [Hrej|(p & raw & pid & w1 & w0 & Hb & _ & _ & Hv)]; [exact Hrej|exfalso].
    injection Hb as <-.
    apply verify_callback_accepted in Hv
      as (idv' & _ & _ & payment & Hid' & _ & -> & _ & _ & _ & Hf' & _).
    congruence.
Qed.

End FetchAbsent.

Section Dispatch.
Import Py Gateway.
Local Open Scope list_scope.
Variables (gw : UrlPay) (env : Env).

Lemma handler_accepts (payload : pyval) (s : string) (h : hook) (pid : string)
    (w w1 : world) (st : gmap string Transaction) :
  parsed_status env (Some payload) = Some s ->
  (s = "success" /\ h = HookSucceeded \/ s = "cancel" /\ h = HookCanceled) ->
  _verify_callback gw env payload s
    (mkWorld (store w) (trace w ++ [EvLog LogWebhookPayload]))
    = (Returns (Some pid), w1) ->
  str_truthy pid = true ->
  (match h with
   | HookSucceeded => _on_payment_succeeded env pid (store w1)
   | HookCanceled => _on_payment_canceled env pid (store w1)
   end) = (Returns tt, st) ->
  webhook_handler gw env (Some payload) w
    = (Returns 200%Z, mkWorld st (trace w1 ++ [EvHook h pid])).
Proof.
  intros Hs Hh Hv Hpid Hhook.
  unfold parsed_status in Hs.
  destruct (get payload "payment_status" (PStr "")) as [raw|] eqn:Hraw; [|discriminate].
  injection Hs as Hs.
  unfold webhook_handler, response_json, handle_payment_succeeded,
    handle_payment_canceled.
  unfold_monad. simpl. rewrite Hraw, Hs.
  destruct pid as [|c pid]; [discriminate|].
  destruct Hh as [[-> ->]|[-> ->]]; simpl; rewrite Hv; simpl; rewrite Hhook; reflexivity.
Qed.

(** A hook that raises is caught at the boundary: the hook was invoked, the
    answer is 400. *)
Lemma handler_hook_raises (payload : pyval) (s : string) (h : hook) (pid : string)
    (w w1 : world) (st : gmap string Transaction) (e : exn) :
  parsed_status env (Some payload) = Some s ->
  (s = "success" /\ h = HookSucceeded \/ s = "cancel" /\ h = HookCanceled) ->
  _verify_callback gw env payload s
    (mkWorld (store w) (trace w ++ [EvLog LogWebhookPayload]))
    = (Returns (Some pid), w1) ->
  str_truthy pid = true ->
  (match h with
   | HookSucceeded => _on_payment_succeeded env pid (store w1)
   | HookCanceled => _on_payment_canceled env pid (store w1)
   end) = (Raises e, st) ->
  webhook_handler gw env (Some payload) w
    = (Returns 400%Z,
       mkWorld st (trace w1 ++ [EvHook h pid; EvLog LogWebhookException])).
Proof.
  intros Hs Hh Hv Hpid Hhook.
  unfold parsed_status in Hs.
  destruct (get payload "payment_status" (PStr "")) as [raw|] eqn:Hraw; [|discriminate].
  injection Hs as Hs.
  unfold webhook_handler, response_json, handle_payment_succeeded,
    handle_payment_canceled.
  unfold_monad. simpl. rewrite Hraw, Hs.
  destruct pid as [|c pid]; [discriminate|].
  destruct Hh as [[-> ->]|[-> ->]]; simpl; rewrite Hv; simpl; rewrite Hhook; simpl;
    rewrite <- app_assoc; reflexivity.
Qed.

(** C2, amended.  The handler lowercases [payment_status] and answers 400
    unless it is exactly ["success"] or ["cancel"] (an absent field, a body
    that is not an object and a body that is not JSON included), touching
    neither the table nor the provider nor a hook.  When verification
    accepts (it returns a payment id that is not the empty string), the
    handler invokes the succeeded hook for a parsed ["success"] and the
    canceled hook for a parsed ["cancel"], on that id.  It answers 200 when
    the hook returns; when the hook raises, the exception is caught at the
    boundary of the handler and the answer is 400, the hook having been
    invoked.  An empty payment id is a failed verification to the handler
    ([if not payment_id]): 400, and no hook. *)
Theorem webhook_handler_dispatch (body : option pyval) (w : world) :
  (parsed_status env body <> Some "success" ->
   parsed_status env body <> Some "cancel" ->
   fst (webhook_handler gw env body w) = Returns 400%Z /\
   store (snd (webhook_handler gw env body w)) = store w /\
   hooks_of (trace (snd (webhook_handler gw env body w))) = hooks_of (trace w) /\
   requests_of (trace (snd (webhook_handler gw env body w))) = requests_of (trace w)) /\
  (forall payload pid w1 st,
     body = Some payload ->
     parsed_status env body = Some "success" ->
     _verify_callback gw env payload "success"
       (mkWorld (store w) (trace w ++ [EvLog LogWebhookPayload]))
       = (Returns (Some pid), w1) ->
     str_truthy pid = true ->
     _on_payment_succeeded env pid (store w1) = (Returns tt, st) ->
     webhook_handler gw env body w
       = (Returns 200%Z, mkWorld st (trace w1 ++ [EvHook HookSucceeded pid]))) /\
  (forall payload pid w1 st,
     body = Some payload ->
     parsed_status env body = Some "cancel" ->
     _verify_callback gw env payload "cancel"
       (mkWorld (store w) (trace w ++ [EvLog LogWebhookPayload]))
       = (Returns (Some pid), w1) ->
     str_truthy pid = true ->
     _on_payment_canceled env pid (store w1) = (Returns tt, st) ->
     webhook_handler gw env body w
       = (Returns 200%Z, mkWorld st (trace w1 ++ [EvHook HookCanceled pid]))) /\
  (forall payload pid w1 st e,
     body = Some payload ->
     parsed_status env body = Some "success" ->
     _verify_callback gw env payload "success"
       (mkWorld (store w) (trace w ++ [EvLog LogWebhookPayload]))
       = (Returns (Some pid), w1) ->
     str_truthy pid = true ->
     _on_payment_succeeded env pid (store w1) = (Raises e, st) ->
     webhook_handler gw env body w
       = (Returns 400%Z,
          mkWorld st (trace w1 ++ [EvHook HookSucceeded pid;
                                   EvLog LogWebhookException]))) /\
  (forall payload pid w1 st e,
     body = Some payload ->
     parsed_status env body = Some "cancel" ->
     _verify_callback gw env payload "cancel"
       (mkWorld (store w) (trace w ++ [EvLog LogWebhookPayload]))
       = (Returns (Some pid), w1) ->
     str_truthy pid = true ->
     _on_payment_canceled env pid (store w1) = (Raises e, st) ->
     webhook_handler gw env body w
       = (Returns 400%Z,
          mkWorld st (trace w1 ++ [EvHook HookCanceled pid;
                                   EvLog LogWebhookException]))) /\
  (forall payload s w1,
     body = Some payload ->
     parsed_status env body = Some s ->
     s = "success" \/ s = "cancel" ->
     _verify_callback gw env payload s
       (mkWorld (store w) (trace w ++ [EvLog LogWebhookPayload]))
       = (Returns (Some ""), w1) ->
     webhook_handler gw env body w
       = (Returns 400%Z,
          mkWorld (store w1) (trace w1 ++ [EvLog LogVerificationFailed]))).
Proof.
  repeat apply conj.
  - intros Hs Hc. unfold parsed_status in Hs, Hc.
    unfold webhook_handler, response_json. unfold_monad.
    destruct body as [payload|]; simpl; [|repeat split; trace_simpl; reflexivity].
    destruct (get payload "payment_status" (PStr "")) as [raw|] eqn:Hraw; simpl;
      [|repeat split; trace_simpl; reflexivity].
    destruct (String.eqb_spec (lower (str (py_repr env) raw)) "success") as [E|_];
      [congruence|].
    destruct (String.eqb_spec (lower (str (py_repr env) raw)) "cancel") as [E|_];
      [congruence|].
    simpl. repeat split; trace_simpl; reflexivity.
  - intros payload pid w1 st -> Hs Hv Hpid Hhook.
    eapply handler_accepts; eauto.
  - intros payload pid w1 st -> Hs Hv Hpid Hhook.
    eapply handler_accepts; eauto.
  - intros payload pid w1 st e -> Hs Hv Hpid Hhook.
    eapply handler_hook_raises; eauto.
  - intros payload pid w1 st e -> Hs Hv Hpid Hhook.
    eapply handler_hook_raises; eauto.
  - intros payload s w1 -> Hs Hsup Hv.
    unfold parsed_status in Hs.
    destruct (get payload "payment_status" (PStr "")) as [raw|] eqn:Hraw;
      [|discriminate].
    injection Hs as Hs.
    unfold webhook_handler, response_json. unfold_monad. simpl. rewrite Hraw, Hs.
    destruct Hsup as [-> | ->]; simpl; rewrite Hv; reflexivity.
Qed.

End Dispatch.

Section Credentials.
Import Py Gateway.
Local Open Scope list_scope.
Variables (gw : UrlPay) (env : Env).

(** C6. With any of the API key, the shop id and the secret key absent or
    empty, [create_payment] raises the configuration error at once: nothing
    was called (no request, not even [get_me]) and the table is as it was. *)
Theorem create_payment_needs_credentials
    (data : SubscriptionData) (w : world) (credential : option string) :
  credential = API_KEY (config gw) \/
  credential = SHOP_ID (config gw) \/
  credential = SECRET_KEY (config gw) ->
  credential = None \/ credential = Some "" ->
  create_payment gw env data w = (Raises (RuntimeError CredentialsNotConfigured), w).
Proof.
  intros Hwhich Hblank.
  assert (Hfalsy : opt_truthy credential = false)
    by (destruct Hblank as [-> | ->]; reflexivity).
  unfold create_payment.
  destruct Hwhich as [<- | [<- | <-]]; rewrite Hfalsy, ?andb_false_r; reflexivity.
Qed.

End Credentials.

Section Signature.
Import Py Gateway.
Local Open Scope list_scope.

Lemma hex_char_lower (n : Z) : (0 <= n < 16)%Z -> is_lower_hex (Sha1.hex_char n) = true.
Proof.
  intros [Hlo Hhi].
  destruct n as [|p|p]; [reflexivity| |lia].
  do 4 (destruct p as [p|p|]; try reflexivity; try lia).
Qed.

Lemma nibble_range (x : Z) : (0 <= Z.land x 0xF < 16)%Z.
Proof.
  change 0xF%Z with (Z.ones 4). rewrite Z.land_ones by lia.
  apply Z.mod_pos_bound. reflexivity.
Qed.

Lemma hex_word_spec (n : nat) (x : Z) :
  String.length (Sha1.hex_word n x) = n /\
  forall c, In c (list_ascii_of_string (Sha1.hex_word n x)) -> is_lower_hex c = true.
Proof.
  induction n as [|n [IHl IHc]]; simpl.
  - split; [reflexivity | intros c []].
  - split; [now rewrite IHl|].
    intros c [<-|Hc]; [apply hex_char_lower, nibble_range | now apply IHc].
Qed.

Lemma chars_append (a b : string) :
  list_ascii_of_string (a +:+ b) = list_ascii_of_string a ++ list_ascii_of_string b.
Proof.
  induction a as [|x a IH]; [reflexivity|].
  change (String x a +:+ b) with (String x (a +:+ b)). simpl. now rewrite IH.
Qed.

Lemma hexdigest_spec (msg : list Z) :
  String.length (Sha1.hexdigest msg) = 40%nat /\
  forall c, In c (list_ascii_of_string (Sha1.hexdigest msg)) -> is_lower_hex c = true.
Proof.
  unfold Sha1.hexdigest. split.
  - rewrite !str_length_app, !(proj1 (hex_word_spec _ _)). reflexivity.
  - intros c. rewrite !chars_append, !in_app_iff.
    intros H; repeat (destruct H as [H|H]; [now apply (proj2 (hex_word_spec _ _)) in H|]).
    now apply (proj2 (hex_word_spec _ _)) in H.
Qed.

(** C9. The signature is a function of the currency code, the amount, the
    shop id and the secret alone: the SHA-1 digest, as forty lowercase
    hexadecimal digits, of the UTF-8 bytes of the lowercased currency code
    followed by the amount, the shop id and the secret.  Nothing else (no
    salt, no state) enters: two gateways that agree on these four sign
    alike.  For instance [rub], [10.01], [shop-1], [secret] sign as
    [763150ba73215840fee5a1c4a281d38f537aebcb]. *)
Theorem signature_is_sha1_of_fields (gw : UrlPay) (amount shop secret : string) :
  SHOP_ID (config gw) = Some shop ->
  SECRET_KEY (config gw) = Some secret ->
  _generate_signature gw amount = sign_spec (currency_code gw) amount shop secret /\
  String.length (_generate_signature gw amount) = 40%nat /\
  (forall c, In c (list_ascii_of_string (_generate_signature gw amount)) ->
             is_lower_hex c = true) /\
  (forall gw', currency_code gw' = currency_code gw ->
               SHOP_ID (config gw') = Some shop ->
               SECRET_KEY (config gw') = Some secret ->
               _generate_signature gw' amount = _generate_signature gw amount) /\
  sign_spec "RUB" "10.01" "shop-1" "secret"
    = "763150ba73215840fee5a1c4a281d38f537aebcb".
Proof.
  intros Hshop Hsecret.
  assert (E : forall g, currency_code g = currency_code gw ->
                        SHOP_ID (config g) = Some shop ->
                        SECRET_KEY (config g) = Some secret ->
                        _generate_signature g amount
                        = sign_spec (currency_code gw) amount shop secret).
  { intros g Hc Hs Hk. unfold _generate_signature, sign_spec.
    rewrite Hc, Hs, Hk. reflexivity. }
  rewrite (E gw eq_refl Hshop Hsecret).
  split; [reflexivity|].
  split; [apply hexdigest_spec|].
  split; [apply hexdigest_spec|].
  split; [intros g Hc Hs Hk; now apply E|].
  vm_compute. reflexivity.
Qed.

End Signature.

Section Binding.
Import Py Gateway.
Local Open Scope list_scope.
Variables (gw : UrlPay) (env : Env).

Lemma opt_truthy_some (u : string) : u <> "" -> opt_truthy (Some u) = true.
Proof. destruct u; [congruence | reflexivity]. Qed.

(** C4. A disagreement between the uuid of the freshly fetched record and
    the uuid of the payload (or of the transaction) never rejects on its
    own.  When the identifiers are present, the transaction is found, its
    uuid is verified or bound, the fetch succeeds and the fetched status is
    in the expected set, the callback is accepted whatever uuid the fetched
    record carries; a differing one only leaves a warning in the trace. *)
Theorem uuid_cross_check_is_advisory
    (payload : pyval) (s : string) (w : world) (idv uuidv : pyval)
    (t : Transaction) (payment api_status : pyval) (expected : list Z) :
  let pid := str (py_repr env) idv in
  let u := str (py_repr env) uuidv in
  get payload "id" PNone = Returns idv -> is_None idv = false ->
  get payload "uuid" PNone = Returns uuidv -> truthy uuidv = true ->
  store w !! pid = Some t ->
  (payment_uuid t = Some u /\ u <> "") \/
  (opt_truthy (payment_uuid t) = false /\ uuid_taken (store w) pid u = false) ->
  fetched gw env pid = Returns payment -> truthy payment = true ->
  get payment "status" PNone = Returns api_status ->
  status_map_get s = Some expected ->
  in_int_set api_status expected = Returns true ->
  fst (_verify_callback gw env payload s w) = Returns (Some pid) /\
  (forall api_uuid,
     get payment "uuid" PNone = Returns api_uuid ->
     truthy api_uuid = true ->
     str (py_repr env) api_uuid <> u ->
     In (EvLog LogUuidMismatchApi) (trace (snd (_verify_callback gw env payload s w)))).
Proof.
  intros pid u Hid Hnone Huuid Htruthy Hrow Hbound Hfetch Hpay Hstatus Hmap Hin.
  subst pid u.
  assert (Hb : (opt_truthy (payment_uuid t) = true /\
                opt_str (payment_uuid t) = str (py_repr env) uuidv) \/
               (opt_truthy (payment_uuid t) = false /\
                uuid_taken (store w) (str (py_repr env) idv) (str (py_repr env) uuidv) = false)).
  { destruct Hbound as [[E Hne]|Hb]; [left|right; exact Hb].
    rewrite E. split; [now apply opt_truthy_some | reflexivity]. }
  clear Hbound.
  destruct (_verify_callback gw env payload s w) as [r w'] eqn:H.
  run_verify H; injection H as <- <-; bool_facts; simpl.
  all: destruct Hb as [[Hb1 Hb2]|[Hb1 Hb2]]; try congruence.
  all: try (exfalso; simpl in *; congruence).
  all: try (split; [congruence|]).
  all: try (intros api_uuid Hau Hat Hne).
  all: try (rewrite !in_app_iff; simpl; tauto).
  all: try match goal with
    | E : (_ && _) = false |- _ =>
        apply andb_false_iff in E; destruct E; bool_facts; congruence
    end.
  all: assert (a1 = payment) by congruence; subst;
       destruct payment; simpl in *; congruence.
Qed.

End Binding.

Section Store.
Import Py Gateway.
Local Open Scope list_scope.
Variables (gw : UrlPay) (env : Env).

Lemma opt_truthy_false (c : option string) :
  opt_truthy c = false <-> c = None \/ c = Some "".
Proof.
  destruct c as [[|x s]|]; simpl; split; intros H; auto; try discriminate.
  destruct H; discriminate.
Qed.

(** What [_verify_callback] does to the table: nothing, or one update of
    the row the payload names, whose [payment_uuid] was null or empty. *)
Lemma verify_callback_store (payload : pyval) (s : string) (w : world) :
  let w' := snd (_verify_callback gw env payload s w) in
  (store w' = store w /\ updates_of (trace w') = updates_of (trace w)) \/
  (exists idv uuidv t,
     let pid := str (py_repr env) idv in
     let u := str (py_repr env) uuidv in
     get payload "id" PNone = Returns idv /\
     get payload "uuid" PNone = Returns uuidv /\
     store w !! pid = Some t /\
     opt_truthy (payment_uuid t) = false /\
     updates_of (trace w') = updates_of (trace w) ++ [(pid, u)] /\
     (store w' = <[pid := with_payment_uuid t (Some u)]> (store w) /\
      uuid_taken (store w) pid u = false \/
      store w' = store w /\ uuid_taken (store w) pid u = true)).
Proof.
  cbv zeta.
  destruct (_verify_callback gw env payload s w) as [r w'] eqn:H.
  run_verify H; injection H as <- <-; bool_facts; simplify_eq; simpl.
  all: try (left; split; [reflexivity | trace_simpl; reflexivity]).
  all: right; do 3 eexists; repeat (apply conj; [reflexivity || eassumption|]).
  all: (split; [trace_simpl; reflexivity|]).
  all: try (left; split; [reflexivity | assumption]).
  all: try (right; split; [reflexivity | assumption]).
Qed.

(** A row with a non-empty [payment_uuid] keeps it through
    [_verify_callback]. *)
Lemma verify_callback_keeps_uuid (payload : pyval) (s : string) (w : world)
    (k : string) (t : Transaction) (u : string) :
  store w !! k = Some t -> payment_uuid t = Some u -> u <> "" ->
  exists t', store (snd (_verify_callback gw env payload s w)) !! k = Some t' /\
             payment_uuid t' = Some u.
Proof.
  intros Hk Hu Hne.
  destruct (verify_callback_store payload s w)
    as [[-> _]|(idv & uuidv & t0 & _ & _ & Hrow & Hfalsy & _ & [[-> _]|[-> _]])];
    eauto.
  destruct (decide (str (py_repr env) idv = k)) as [<-|Hneq].
  - rewrite Hrow in Hk. injection Hk as ->.
    rewrite Hu, (opt_truthy_some _ Hne) in Hfalsy. discriminate.
  - rewrite lookup_insert_ne by exact Hneq. eauto.
Qed.

Lemma verify_callback_rejects_other_uuid
    (payload : pyval) (s : string) (w : world) (idv uuidv : pyval)
    (t : Transaction) (stored : string) :
  let pid := str (py_repr env) idv in
  get payload "id" PNone = Returns idv -> is_None idv = false ->
  get payload "uuid" PNone = Returns uuidv -> truthy uuidv = true ->
  store w !! pid = Some t ->
  payment_uuid t = Some stored -> stored <> "" ->
  stored <> str (py_repr env) uuidv ->
  _verify_callback gw env payload s w
    = (Returns None,
       mkWorld (store w) (trace w ++ [EvDbGet pid; EvLog LogUuidMismatchDatabase])).
Proof.
  intros pid Hid Hnone Huuid Htruthy Hrow Hstored Hne Hdiff. subst pid.
  unfold _verify_callback, Transaction_get_by_id. unfold_monad. simpl.
  rewrite Hid. simpl. rewrite Hnone, Huuid. simpl. rewrite Htruthy. simpl.
  rewrite Hrow. unfold payment_uuid_of. rewrite Hstored. simpl.
  rewrite (opt_truthy_some _ Hne : str_truthy stored = true).
  destruct (String.eqb_spec stored (str (py_repr env) uuidv)); [contradiction|].
  simpl. rewrite <- app_assoc. reflexivity.
Qed.

Lemma verify_callback_adopts_uuid
    (payload : pyval) (s : string) (w : world) (idv uuidv : pyval)
    (t : Transaction) :
  let pid := str (py_repr env) idv in
  let u := str (py_repr env) uuidv in
  get payload "id" PNone = Returns idv -> is_None idv = false ->
  get payload "uuid" PNone = Returns uuidv -> truthy uuidv = true ->
  store w !! pid = Some t ->
  payment_uuid t = None \/ payment_uuid t = Some "" ->
  exists evs,
    trace (snd (_verify_callback gw env payload s w))
      = trace w ++ [EvDbGet pid; EvDbUpdate pid u] ++ evs /\
    updates_of evs = [] /\ hooks_of evs = [] /\
    (uuid_taken (store w) pid u = false ->
     store (snd (_verify_callback gw env payload s w))
       = <[pid := with_payment_uuid t (Some u)]> (store w)).
Proof.
  intros pid u Hid Hnone Huuid Htruthy Hrow Hfalsy. subst pid u.
  apply opt_truthy_false in Hfalsy.
  destruct (_verify_callback gw env payload s w) as [r w'] eqn:H.
  run_verify H; injection H as <- <-; bool_facts; simplify_eq; simpl;
    try congruence.
  all: rewrite <- ?app_assoc; simpl.
  all: eexists; (split; [reflexivity|]).
  all: (split; [trace_simpl; reflexivity|]).
  all: (split; [trace_simpl; reflexivity|]).
  all: intros Hfree; congruence.
Qed.

End Store.

(** Running [create_payment] symbolically. *)
Ltac run_create H :=
  unfold Gateway.create_payment, Gateway.get_me_username, Gateway.http_call,
    Gateway.response_json, Gateway.Transaction_create in H;
  unfold_monad; simpl in H;
  repeat (case_scrutinee; simpl in H).

Section Create.
Import Py Gateway.
Local Open Scope list_scope.
Variables (gw : UrlPay) (env : Env).


Lemma create_payment_run (data : SubscriptionData) (w : world) r w' :
  create_payment gw env data w = (r, w') ->
  match r with
  | Raises e =>
      store w' = store w /\
      (forall msg, e = RuntimeError msg ->
                   creates_of (trace w') = creates_of (trace w))
  | Returns url =>
      exists req body id flag,
        req_method req = POST /\
        http env req = HttpResponse 201 (Some body) /\
        get body "success" PNone = Returns flag /\ truthy flag = true /\
        getitem body "id" = Returns id /\
        get body "paymentUrl" PNone = Returns url /\ truthy url = true /\
        trace w' = trace w ++ [EvGetMe; EvHttp req; EvDbCreate (row_for env data id);
                               EvLog LogPaymentLinkCreated] /\
        (store w' = <[str (py_repr env) id := row_for env data id]> (store w) /\
         store w !! str (py_repr env) id = None /\
         uuid_taken (store w) (str (py_repr env) id) (uuid4 env) = false
         \/
         store w' = store w /\
         (is_Some (store w !! str (py_repr env) id) \/
          uuid_taken (store w) (str (py_repr env) id) (uuid4 env) = true))
  end.
Proof.
  intros H.
  run_create H; bool_facts; simplify_eq; simpl.
  all: try (split; [reflexivity|]; intros msg Hmsg; try discriminate Hmsg;
            trace_simpl; reflexivity).
  all: apply Z.eqb_eq in Heqb0; subst code.
  all: match goal with Hh : http env ?rq = _ |- _ => exists rq end.
  all: do 3 eexists; (split; [reflexivity|]); repeat (apply conj; [eassumption|]).
  all: (split; [rewrite <- !app_assoc; reflexivity|]).
  - right. split; [reflexivity|]. left. eauto.
  - right. split; [reflexivity|]. right. assumption.
  - left. repeat split; assumption.
Qed.

(** A row with a [payment_uuid] keeps it through [create_payment]. *)
Lemma create_payment_keeps_uuid (data : SubscriptionData) (w : world)
    (k : string) (t : Transaction) :
  store w !! k = Some t ->
  store (snd (create_payment gw env data w)) !! k = Some t.
Proof.
  intros Hk.
  destruct (create_payment gw env data w) as [r w'] eqn:H.
  apply create_payment_run in H. simpl.
  destruct r as [url|e].
  - destruct H as (req & body & id & flag & _ & _ & _ & _ & _ & _ & _ & _ & Hst).
    destruct Hst as [(-> & Hfresh & _)|[-> _]]; [|exact Hk].
    rewrite lookup_insert_ne; [exact Hk|]. intros E. rewrite E in Hfresh. congruence.
  - destruct H as [-> _]. exact Hk.
Qed.

(** C7. A call that returns persisted exactly one row, after the provider
    answered 201 with a true [success] flag and a payment URL: the row has
    the id the provider assigned, the uuid generated for the order, and the
    status PENDING (the table grows by that row when the id and the uuid are
    new to it, as provider ids and fresh uuids are).  A call that raises
    leaves the table as it was, and the failures of the provider's answer
    (the [RuntimeError]s) do not even reach [Transaction.create]. *)
Theorem create_payment_persists_after_success (data : SubscriptionData) (w : world) :
  let r := create_payment gw env data w in
  (forall e, fst r = Raises e -> store (snd r) = store w) /\
  (forall msg, fst r = Raises (RuntimeError msg) ->
     creates_of (trace (snd r)) = creates_of (trace w)) /\
  (forall url, fst r = Returns url ->
     exists req body id flag,
       req_method req = POST /\
       http env req = HttpResponse 201 (Some body) /\
       get body "success" PNone = Returns flag /\ truthy flag = true /\
       getitem body "id" = Returns id /\
       get body "paymentUrl" PNone = Returns url /\ truthy url = true /\
       trace (snd r) = trace w ++ [EvGetMe; EvHttp req;
                                   EvDbCreate (row_for env data id);
                                   EvLog LogPaymentLinkCreated] /\
       payment_id (row_for env data id) = str (py_repr env) id /\
       payment_uuid (row_for env data id) = Some (uuid4 env) /\
       status (row_for env data id) = PENDING /\
       (store w !! str (py_repr env) id = None ->
        uuid_taken (store w) (str (py_repr env) id) (uuid4 env) = false ->
        store (snd r) = <[str (py_repr env) id := row_for env data id]> (store w) /\
        size (store (snd r)) = S (size (store w)))).
Proof.
  cbv zeta.
  destruct (create_payment gw env data w) as [r w'] eqn:H.
  apply create_payment_run in H. simpl.
  repeat apply conj.
  - intros e ->. apply H.
  - intros msg ->. destruct H as [_ H]. now apply (H msg).
  - intros url ->.
    destruct H as (req & body & id & flag & H1 & H2 & H3 & H4 & H5 & H6 & H7 & H8 & Hst).
    exists req, body, id, flag.
    repeat (apply conj; [assumption || reflexivity|]).
    intros Hfresh Hfree.
    destruct Hst as [(-> & _ & _)|[_ [[x Hx]|Htaken]]]; [|congruence..].
    split; [reflexivity|]. now apply map_size_insert_None.
Qed.

End Create.

Section Rejection.
Import Py Gateway.
Local Open Scope list_scope.
Variables (gw : UrlPay) (env : Env).

Lemma verify_callback_binds_then_rejects
    (payload : pyval) (s : string) (w : world) (idv uuidv : pyval) (t : Transaction) :
  let pid := str (py_repr env) idv in
  let u := str (py_repr env) uuidv in
  s = "success" \/ s = "cancel" ->
  get payload "id" PNone = Returns idv -> is_None idv = false ->
  get payload "uuid" PNone = Returns uuidv -> truthy uuidv = true ->
  store w !! pid = Some t ->
  payment_uuid t = None ->
  uuid_taken (store w) pid u = false ->
  not_confirmed gw env pid s ->
  exists evs,
    _verify_callback gw env payload s w
      = (Returns None,
         mkWorld (<[pid := with_payment_uuid t (Some u)]> (store w))
                 (trace w ++ [EvDbGet pid; EvDbUpdate pid u] ++ evs)) /\
    hooks_of evs = [] /\ updates_of evs = [] /\
    (opt_truthy (API_KEY (config gw)) = true ->
     exists rest, evs = EvHttp (fetch_request gw pid) :: rest).
Proof.
  intros pid u Hs Hid Hnone Huuid Htruthy Hrow Hnull Hfree Hnot. subst pid u.
  assert (Hmap : status_map_get s = Some [3%Z] \/ status_map_get s = Some [4%Z; 5%Z; 6%Z])
    by (destruct Hs as [-> | ->]; auto).
  destruct (_verify_callback gw env payload s w) as [r w'] eqn:H.
  run_verify H; bool_facts; simplify_eq; simpl.
  all: try (rewrite Hnull in *; simpl in *; congruence).
  all: try congruence.
  all: try (destruct Hmap; congruence).
  all: destruct Hnot as [(absent & Hf & Ha)|(payment & st & ex & Hf & Hp & Hst & Hm & Hin)];
       try congruence.
  all: try (rewrite <- ?app_assoc; simpl; eexists; split; [reflexivity|];
            (do 2 (split; [trace_simpl; reflexivity|]));
            intros Hkey;
            match goal with
            | Hreq : _ = true -> exists rest, _ = _ :: rest |- _ =>
                destruct (Hreq Hkey) as [rest ->]
            end;
            eexists; reflexivity).
  all: try (exfalso; assert (a1 = payment) by congruence; subst;
            destruct payment; simpl in *; congruence).
Qed.

Lemma handler_rejects_unverified (payload : pyval) (s : string) (w w1 : world) :
  parsed_status env (Some payload) = Some s ->
  s = "success" \/ s = "cancel" ->
  _verify_callback gw env payload s
    (mkWorld (store w) (trace w ++ [EvLog LogWebhookPayload])) = (Returns None, w1) ->
  webhook_handler gw env (Some payload) w
    = (Returns 400%Z, mkWorld (store w1) (trace w1 ++ [EvLog LogVerificationFailed])).
Proof.
  intros Hs Hsup Hv.
  unfold parsed_status in Hs.
  destruct (get payload "payment_status" (PStr "")) as [raw|] eqn:Hraw; [|discriminate].
  injection Hs as Hs.
  unfold webhook_handler, response_json. unfold_monad. simpl. rewrite Hraw, Hs.
  destruct Hsup as [-> | ->]; simpl; rewrite Hv; reflexivity.
Qed.

(** C10. A rejection is not always free of a write.  When the delivery
    names a transaction whose [payment_uuid] is null, the payload's uuid is
    committed to the table before the authoritative fetch (the update comes
    first in the trace, the request right after it); if the fetch then comes
    back absent, or with a status outside the expected set, the handler
    answers 400, invokes no hook, and the committed uuid stays: nothing rolls
    it back. *)
Theorem binding_survives_rejection
    (payload : pyval) (s : string) (w : world) (idv uuidv : pyval) (t : Transaction) :
  let pid := str (py_repr env) idv in
  let u := str (py_repr env) uuidv in
  parsed_status env (Some payload) = Some s ->
  s = "success" \/ s = "cancel" ->
  get payload "id" PNone = Returns idv -> is_None idv = false ->
  get payload "uuid" PNone = Returns uuidv -> truthy uuidv = true ->
  store w !! pid = Some t ->
  payment_uuid t = None ->
  uuid_taken (store w) pid u = false ->
  not_confirmed gw env pid s ->
  let r := webhook_handler gw env (Some payload) w in
  fst r = Returns 400%Z /\
  store (snd r) = <[pid := with_payment_uuid t (Some u)]> (store w) /\
  store (snd r) !! pid = Some (with_payment_uuid t (Some u)) /\
  hooks_of (trace (snd r)) = hooks_of (trace w) /\
  exists evs,
    trace (snd r)
      = trace w ++ [EvLog LogWebhookPayload; EvDbGet pid; EvDbUpdate pid u] ++ evs /\
    updates_of evs = [] /\
    (opt_truthy (API_KEY (config gw)) = true ->
     exists rest, evs = EvHttp (fetch_request gw pid) :: rest).
Proof.
  intros pid u Hparsed Hs Hid Hnone Huuid Htruthy Hrow Hnull Hfree Hnot r.
  destruct (verify_callback_binds_then_rejects payload s
              (mkWorld (store w) (trace w ++ [EvLog LogWebhookPayload]))
              idv uuidv t Hs Hid Hnone Huuid Htruthy Hrow Hnull Hfree Hnot)
    as (evs & Hv & Hh & Hu & Hreq).
  subst r. rewrite (handler_rejects_unverified _ _ _ _ Hparsed Hs Hv). simpl.
  fold pid u.
  split; [reflexivity|]. split; [reflexivity|].
  split; [apply lookup_insert_eq|].
  split; [trace_simpl; reflexivity|].
  exists (evs ++ [EvLog LogVerificationFailed]).
  split; [rewrite <- !app_assoc; reflexivity|].
  split; [trace_simpl; reflexivity|].
  intros Hkey. destruct (Hreq Hkey) as [rest ->]. eexists. reflexivity.
Qed.

End Rejection.

Section BindOnce.
Import Py Gateway.
Local Open Scope list_scope.
Variables (gw : UrlPay) (env : Env).

(** C3, amended.  A stored non-empty [payment_uuid] must equal the payload's
    uuid as a string, or the callback is rejected with the table untouched;
    a [payment_uuid] that is null or the empty string is replaced by the
    payload's uuid through one [Transaction.update]; hence a non-empty
    [payment_uuid] is never changed by [_verify_callback] nor by
    [create_payment], and an update is only issued for a row whose
    [payment_uuid] is null or empty. *)
Theorem payment_uuid_binds_once :
  (forall payload s w idv uuidv t stored,
     get payload "id" PNone = Returns idv -> is_None idv = false ->
     get payload "uuid" PNone = Returns uuidv -> truthy uuidv = true ->
     store w !! str (py_repr env) idv = Some t ->
     payment_uuid t = Some stored -> stored <> "" ->
     stored <> str (py_repr env) uuidv ->
     _verify_callback gw env payload s w
       = (Returns None,
          mkWorld (store w)
                  (trace w ++ [EvDbGet (str (py_repr env) idv);
                               EvLog LogUuidMismatchDatabase]))) /\
  (forall payload s w idv uuidv t,
     get payload "id" PNone = Returns idv -> is_None idv = false ->
     get payload "uuid" PNone = Returns uuidv -> truthy uuidv = true ->
     store w !! str (py_repr env) idv = Some t ->
     payment_uuid t = None \/ payment_uuid t = Some "" ->
     exists evs,
       trace (snd (_verify_callback gw env payload s w))
         = trace w ++ [EvDbGet (str (py_repr env) idv);
                       EvDbUpdate (str (py_repr env) idv) (str (py_repr env) uuidv)]
                   ++ evs /\
       updates_of evs = [] /\
       (uuid_taken (store w) (str (py_repr env) idv) (str (py_repr env) uuidv) = false ->
        store (snd (_verify_callback gw env payload s w))
          = <[str (py_repr env) idv :=
                with_payment_uuid t (Some (str (py_repr env) uuidv))]> (store w))) /\
  (forall payload s w k t u,
     store w !! k = Some t -> payment_uuid t = Some u -> u <> "" ->
     exists t', store (snd (_verify_callback gw env payload s w)) !! k = Some t' /\
                payment_uuid t' = Some u) /\
  (forall data w k t,
     store w !! k = Some t ->
     store (snd (create_payment gw env data w)) !! k = Some t) /\
  (forall payload s w k v,
     In (k, v) (updates_of (trace (snd (_verify_callback gw env payload s w)))) ->
     In (k, v) (updates_of (trace w)) \/
     exists t, store w !! k = Some t /\
               (payment_uuid t = None \/ payment_uuid t = Some "")).
Proof.
  repeat apply conj.
  - intros. eapply verify_callback_rejects_other_uuid; eassumption.
  - intros payload s w idv uuidv t Hid Hnone Huuid Htruthy Hrow Hfalsy.
    destruct (verify_callback_adopts_uuid gw env payload s w idv uuidv t
                Hid Hnone Huuid Htruthy Hrow Hfalsy) as (evs & Ht & Hu & _ & Hst).
    exists evs. auto.
  - intros. eapply verify_callback_keeps_uuid; eauto.
  - intros. now apply create_payment_keeps_uuid.
  - intros payload s w k v Hin.
    destruct (verify_callback_store gw env payload s w)
      as [[_ E]|(idv & uuidv & t & _ & _ & Hrow & Hfalsy & E & _)];
      rewrite E in Hin; [now left|].
    apply in_app_iff in Hin. destruct Hin as [Hin|[Hin|[]]]; [now left|right].
    injection Hin as <- <-. exists t. split; [exact Hrow|].
    now apply opt_truthy_false.
Qed.

End BindOnce.

(* ===================================================================== *)
(** ** The theorems at work on concrete deliveries *)
(* ===================================================================== *)

Section Witnesses.
Import Py Gateway.
Local Open Scope list_scope.

(** A delivery that says "success" while the provider's record says 1 is
    answered 400 and no hook runs; one the provider confirms with 3 is
    answered 200. *)
Lemma status_validation_is_decisive_witness :
  (fst (webhook_handler Demo.gw (Demo.env Demo.created_ok (Demo.record (PInt 1) "abc"))
          (Some (Demo.webhook "success" "abc")) (Demo.table (Some "abc")))
     = Returns 400%Z /\
   hooks_of (trace (snd (webhook_handler Demo.gw
                           (Demo.env Demo.created_ok (Demo.record (PInt 1) "abc"))
                           (Some (Demo.webhook "success" "abc"))
                           (Demo.table (Some "abc"))))) = []) /\
  (exists payload,
     Some (Demo.webhook "success" "abc") = Some payload /\
     confirmed_by_provider Demo.gw
       (Demo.env Demo.created_ok (Demo.record (PInt 3) "abc")) payload).
Proof.
  split.
  - apply (proj1 (status_validation_is_decisive Demo.gw
                    (Demo.env Demo.created_ok (Demo.record (PInt 1) "abc"))
                    (Some (Demo.webhook "success" "abc")) (Demo.table (Some "abc")))).
    intros (payload & Hb & raw & idv & pay & st & ex & H1 & H2 & H3 & H4 & H5 & H6).
    injection Hb as <-.
    vm_compute in H1. injection H1 as <-.
    vm_compute in H2. injection H2 as <-.
    vm_compute in H3. injection H3 as <-.
    vm_compute in H4. injection H4 as <-.
    destruct H5 as [[_ ->]|[Hs _]]; [vm_compute in H6|vm_compute in Hs]; discriminate.
  - apply (proj1 (proj2 (status_validation_is_decisive Demo.gw
                    (Demo.env Demo.created_ok (Demo.record (PInt 3) "abc"))
                    (Some (Demo.webhook "success" "abc")) (Demo.table (Some "abc"))))).
    vm_compute. reflexivity.
Defined.

(** A confirmed "success" delivery runs the succeeded hook on payment 77 and
    is answered 200; with a hook that raises, the same delivery runs the
    hook and is answered 400. *)
Lemma webhook_handler_dispatch_witness :
  fst (webhook_handler Demo.gw (Demo.env Demo.created_ok (Demo.record (PInt 3) "abc"))
         (Some (Demo.webhook "SUCCESS" "abc")) (Demo.table (Some "abc")))
    = Returns 200%Z /\
  hooks_of (trace (snd (webhook_handler Demo.gw
                          (Demo.env Demo.created_ok (Demo.record (PInt 3) "abc"))
                          (Some (Demo.webhook "SUCCESS" "abc"))
                          (Demo.table (Some "abc")))))
    = [(HookSucceeded, "77")] /\
  webhook_handler Demo.gw
    (Demo.env_hooks_raise Demo.created_ok (Demo.record (PInt 3) "abc"))
    (Some (Demo.webhook "SUCCESS" "abc")) (Demo.table (Some "abc"))
  = (Returns 400%Z,
     mkWorld (store (Demo.table (Some "abc")))
       (trace (snd (_verify_callback Demo.gw
                      (Demo.env_hooks_raise Demo.created_ok
                         (Demo.record (PInt 3) "abc"))
                      (Demo.webhook "SUCCESS" "abc") "success"
                      (mkWorld (store (Demo.table (Some "abc")))
                         (trace (Demo.table (Some "abc"))
                          ++ [EvLog LogWebhookPayload]))))
        ++ [EvHook HookSucceeded "77"; EvLog LogWebhookException])).
Proof.
  set (env := Demo.env Demo.created_ok (Demo.record (PInt 3) "abc")).
  set (body := Some (Demo.webhook "SUCCESS" "abc")).
  set (w := Demo.table (Some "abc")).
  set (w1 := snd (_verify_callback Demo.gw env (Demo.webhook "SUCCESS" "abc") "success"
                    (mkWorld (store w) (trace w ++ [EvLog LogWebhookPayload])))).
  assert (E : webhook_handler Demo.gw env body w
              = (Returns 200%Z, mkWorld (store w1) (trace w1 ++ [EvHook HookSucceeded "77"]))).
  { apply (proj1 (proj2 (webhook_handler_dispatch Demo.gw env body w))
             (Demo.webhook "SUCCESS" "abc") "77" w1 (store w1)).
    - reflexivity.
    - vm_compute. reflexivity.
    - vm_compute. reflexivity.
    - reflexivity.
    - reflexivity. }
  rewrite E. split; [reflexivity|]. split; [vm_compute; reflexivity|].
  apply (proj1 (proj2 (proj2 (proj2
           (webhook_handler_dispatch Demo.gw
              (Demo.env_hooks_raise Demo.created_ok (Demo.record (PInt 3) "abc"))
              body w))))
           (Demo.webhook "SUCCESS" "abc") "77" _ _ (ExternalError "hook")).
  - reflexivity.
  - vm_compute. reflexivity.
  - vm_compute. reflexivity.
  - reflexivity.
  - vm_compute. reflexivity.
Defined.

(** The claim as the spec words it (verification accepts, so the hook is
    invoked and the answer is 200) fails when the hook raises: the delivery
    below is confirmed by the provider and passes verification with the
    payment id "77", the succeeded hook is invoked and raises, and the
    answer is 400. *)
Lemma raising_hook_is_answered_400 :
  ~ (forall gw env payload pid w w1,
       parsed_status env (Some payload) = Some "success" ->
       _verify_callback gw env payload "success"
         (mkWorld (store w) (trace w ++ [EvLog LogWebhookPayload]))
         = (Returns (Some pid), w1) ->
       pid <> "" ->
       fst (webhook_handler gw env (Some payload) w) = Returns 200%Z).
Proof.
  intros H.
  specialize (H Demo.gw
                (Demo.env_hooks_raise Demo.created_ok (Demo.record (PInt 3) "abc"))
                (Demo.webhook "success" "abc") "77" (Demo.table (Some "abc"))
                (snd (_verify_callback Demo.gw
                        (Demo.env_hooks_raise Demo.created_ok
                           (Demo.record (PInt 3) "abc"))
                        (Demo.webhook "success" "abc") "success"
                        (mkWorld (store (Demo.table (Some "abc")))
                                 (trace (Demo.table (Some "abc"))
                                  ++ [EvLog LogWebhookPayload]))))
                eq_refl).
  vm_compute in H.
  specialize (H eq_refl ltac:(discriminate)).
  discriminate H.
Qed.

(** The claim as the spec words it ([_fetch_payment] returns absent, and
    raises nothing, whenever the body has no true [success] flag) fails on
    a 200 whose body is a JSON list: [result.get] raises. *)
Lemma fetch_of_a_list_raises :
  ~ (forall gw env pid w code body,
       http env (fetch_request gw pid) = HttpResponse code body ->
       (forall d flag,
          body = Some (PDict d) -> dict_get d "success" = Some flag ->
          truthy flag = false) ->
       fst (_fetch_payment gw env pid w) = Returns PNone).
Proof.
  intros H.
  specialize (H Demo.gw
                (Demo.env Demo.created_ok (HttpResponse 200 (Some (PList []))))
                "77" Demo.nothing 200%Z (Some (PList [])) eq_refl).
  assert (Hflag : forall d flag,
            Some (PList []) = Some (PDict d) -> dict_get d "success" = Some flag ->
            truthy flag = false) by (intros d flag E; discriminate E).
  specialize (H Hflag). vm_compute in H. discriminate H.
Qed.

(** The claim as the spec words it (a [payment_uuid] that is not null is
    never updated and never changes) fails on a row whose [payment_uuid] is
    the empty string: the delivery below finds transaction 77 with [""],
    and leaves it with ["abc"]. *)
Lemma empty_payment_uuid_is_rebound :
  ~ (forall gw env payload s w pid t,
       store w !! pid = Some t -> payment_uuid t <> None ->
       (forall v,
          In (pid, v) (updates_of (trace (snd (_verify_callback gw env payload s w)))) ->
          In (pid, v) (updates_of (trace w))) /\
       exists t', store (snd (_verify_callback gw env payload s w)) !! pid = Some t' /\
                  payment_uuid t' = payment_uuid t).
Proof.
  intros H.
  destruct (H Demo.gw (Demo.env Demo.created_ok (Demo.record (PInt 3) "abc"))
              (Demo.webhook "success" "abc") "success" (Demo.table (Some ""))
              "77" (Demo.row (Some "")) eq_refl ltac:(discriminate))
    as [Hupd (t' & Hrow & Huuid)].
  vm_compute in Hrow. injection Hrow as <-.
  discriminate Huuid.
Qed.

(** A row bound to "abc" rejects a delivery that carries "xyz", and keeps
    "abc" when a delivery with "abc" comes in. *)
Lemma payment_uuid_binds_once_witness :
  _verify_callback Demo.gw (Demo.env Demo.created_ok (Demo.record (PInt 3) "abc"))
    (Demo.webhook "success" "xyz") "success" (Demo.table (Some "abc"))
  = (Returns None,
     mkWorld (store (Demo.table (Some "abc")))
             [EvDbGet "77"; EvLog LogUuidMismatchDatabase]) /\
  exists t',
    store (snd (_verify_callback Demo.gw
                  (Demo.env Demo.created_ok (Demo.record (PInt 3) "abc"))
                  (Demo.webhook "success" "abc") "success"
                  (Demo.table (Some "abc")))) !! "77" = Some t' /\
    payment_uuid t' = Some "abc".
Proof.
  pose proof (payment_uuid_binds_once Demo.gw
                (Demo.env Demo.created_ok (Demo.record (PInt 3) "abc")))
    as (Hreject & _ & Hkeep & _ & _).
  split.
  - apply (Hreject (Demo.webhook "success" "xyz") "success" (Demo.table (Some "abc"))
             (PInt 77) (PStr "xyz") (Demo.row (Some "abc")) "abc");
      try reflexivity; discriminate.
  - apply (Hkeep (Demo.webhook "success" "abc") "success" (Demo.table (Some "abc"))
             "77" (Demo.row (Some "abc")) "abc"); try reflexivity; discriminate.
Defined.

(** The provider's record carries the uuid "zzz" while the payload and the
    table say "abc": accepted all the same, with a warning. *)
Lemma uuid_cross_check_is_advisory_witness :
  fst (_verify_callback Demo.gw (Demo.env Demo.created_ok (Demo.record (PInt 3) "zzz"))
         (Demo.webhook "success" "abc") "success" (Demo.table (Some "abc")))
    = Returns (Some "77") /\
  In (EvLog LogUuidMismatchApi)
     (trace (snd (_verify_callback Demo.gw
                    (Demo.env Demo.created_ok (Demo.record (PInt 3) "zzz"))
                    (Demo.webhook "success" "abc") "success"
                    (Demo.table (Some "abc"))))).
Proof.
  destruct (uuid_cross_check_is_advisory Demo.gw
              (Demo.env Demo.created_ok (Demo.record (PInt 3) "zzz"))
              (Demo.webhook "success" "abc") "success" (Demo.table (Some "abc"))
              (PInt 77) (PStr "abc") (Demo.row (Some "abc"))
              (Demo.payment (PInt 3) "zzz") (PInt 3) [3%Z])
    as [Hacc Hlog]; try reflexivity.
  - left. split; [reflexivity | discriminate].
  - split; [exact Hacc|].
    apply (Hlog (PStr "zzz")); [reflexivity | reflexivity | discriminate].
Defined.

(** The provider answers 503 to the fetch: [_fetch_payment] returns [None]
    and the delivery is answered 400.  The provider answers 200 with a JSON
    list: [_fetch_payment] raises, and the delivery is answered 400. *)
Lemma fetch_absent_is_rejection_witness :
  fst (_fetch_payment Demo.gw (Demo.env Demo.created_ok Demo.unavailable) "77"
         (Demo.table (Some "abc"))) = Returns PNone /\
  fst (webhook_handler Demo.gw (Demo.env Demo.created_ok Demo.unavailable)
         (Some (Demo.webhook "success" "abc")) (Demo.table (Some "abc")))
    = Returns 400%Z /\
  fst (_fetch_payment Demo.gw
         (Demo.env Demo.created_ok (HttpResponse 200 (Some (PList [])))) "77"
         (Demo.table (Some "abc"))) = Raises AttributeError /\
  fst (webhook_handler Demo.gw
         (Demo.env Demo.created_ok (HttpResponse 200 (Some (PList []))))
         (Some (Demo.webhook "success" "abc")) (Demo.table (Some "abc")))
    = Returns 400%Z.
Proof.
  pose proof (fetch_absent_is_rejection Demo.gw
                (Demo.env Demo.created_ok Demo.unavailable))
    as (Hstatus & _ & _ & Hreject & _).
  pose proof (fetch_absent_is_rejection Demo.gw
                (Demo.env Demo.created_ok (HttpResponse 200 (Some (PList [])))))
    as (_ & _ & _ & _ & Hraises & _ & Hcaught).
  repeat apply conj.
  - apply (Hstatus "77" (Demo.table (Some "abc")) 503%Z None); [reflexivity | discriminate].
  - apply (Hreject (Demo.webhook "success" "abc") (PInt 77) PNone
             (Demo.table (Some "abc"))); reflexivity.
  - apply (Hraises "77" (Demo.table (Some "abc")) (PList []));
      [reflexivity | reflexivity | discriminate].
  - apply (Hcaught (Demo.webhook "success" "abc") (PInt 77) AttributeError
             (Demo.table (Some "abc"))); [reflexivity | vm_compute; reflexivity].
Defined.

(** An empty secret key: the call fails before anything is called. *)
Lemma create_payment_needs_credentials_witness :
  create_payment Demo.gw_blank (Demo.env Demo.created_ok Demo.unavailable)
    Demo.data Demo.nothing
  = (Raises (RuntimeError CredentialsNotConfigured), Demo.nothing).
Proof.
  apply (create_payment_needs_credentials Demo.gw_blank
           (Demo.env Demo.created_ok Demo.unavailable) Demo.data Demo.nothing (Some "")).
  - right. right. reflexivity.
  - right. reflexivity.
Defined.

(** A successful call on an empty table leaves exactly the row of payment
    77, PENDING, with the order's uuid. *)
Lemma create_payment_persists_after_success_witness :
  exists id,
    getitem (PDict [("success", PBool true); ("id", PInt 77);
                    ("paymentUrl", PStr "https://urlpay.io/pay/77")]) "id"
      = Returns id /\
    size (store (snd (create_payment Demo.gw
                        (Demo.env Demo.created_ok Demo.unavailable)
                        Demo.data Demo.nothing))) = 1%nat.
Proof.
  set (env := Demo.env Demo.created_ok Demo.unavailable).
  destruct (proj2 (proj2 (create_payment_persists_after_success Demo.gw env
                            Demo.data Demo.nothing))
              (PStr "https://urlpay.io/pay/77"))
    as (req & body & id & flag & _ & Hhttp & _ & _ & Hid & _ & _ & _ & _ & _ & _ & Hst).
  { vm_compute. reflexivity. }
  assert (body = PDict [("success", PBool true); ("id", PInt 77);
                        ("paymentUrl", PStr "https://urlpay.io/pay/77")]) as ->.
  { destruct req as [[] u a j]; vm_compute in Hhttp; congruence. }
  exists id. split; [exact Hid|].
  vm_compute in Hid. injection Hid as <-.
  destruct Hst as [_ Hsize]; [reflexivity | reflexivity |].
  exact Hsize.
Defined.

(** The price 10.005 renders as "10.01". *)
Lemma amount_str_half_up_two_places_witness :
  exists ip d1 d2,
    "10.01" = "" +:+ ip +:+ "." +:+ String d1 (String d2 "") /\
    ip <> "" /\ Digits.all_digits ip = true /\
    Digits.is_digit d1 = true /\ Digits.is_digit d2 = true /\
    (100 * Digits.value ip + Digits.value (String d1 (String d2 "")))%N = 1001%N.
Proof.
  apply (proj2 (proj1 amount_str_half_up_two_places Demo.data) "10.01").
  vm_compute. reflexivity.
Defined.

(** The demo gateway signs the amount "10.01". *)
Lemma signature_is_sha1_of_fields_witness :
  _generate_signature Demo.gw "10.01" = "763150ba73215840fee5a1c4a281d38f537aebcb".
Proof.
  destruct (signature_is_sha1_of_fields Demo.gw "10.01" "shop-1" "secret"
              eq_refl eq_refl) as (E & _ & _ & _ & Hv).
  rewrite E. exact Hv.
Defined.

(** Transaction 77 has no uuid yet; the delivery binds "abc"; the provider
    then says status 1: answered 400, and "abc" stays in the table. *)
Lemma binding_survives_rejection_witness :
  fst (webhook_handler Demo.gw (Demo.env Demo.created_ok (Demo.record (PInt 1) "abc"))
         (Some (Demo.webhook "success" "abc")) (Demo.table None)) = Returns 400%Z /\
  store (snd (webhook_handler Demo.gw
                (Demo.env Demo.created_ok (Demo.record (PInt 1) "abc"))
                (Some (Demo.webhook "success" "abc")) (Demo.table None))) !! "77"
    = Some (Demo.row (Some "abc")).
Proof.
  destruct (binding_survives_rejection Demo.gw
              (Demo.env Demo.created_ok (Demo.record (PInt 1) "abc"))
              (Demo.webhook "success" "abc") "success" (Demo.table None)
              (PInt 77) (PStr "abc") (Demo.row None))
    as (H400 & _ & Hrow & _); try reflexivity.
  - left. reflexivity.
  - right. exists (Demo.payment (PInt 1) "abc"), (PInt 1), [3%Z].
    repeat split; reflexivity.
  - split; [exact H400 | exact Hrow].
Defined.

End Witnesses.

(* ===================================================================== *)
(** * More of the code

    Properties of [webhook_handler], [_verify_callback], [_fetch_payment],
    [create_payment], [_generate_signature] and of the revision, read off
    the source. *)
(* ===================================================================== *)

(** ** What the handler answers, and what it calls *)

Section HandlerOutcome.
Import Py Gateway.
Local Open Scope list_scope.
Variables (gw : UrlPay) (env : Env).

(** X1. [webhook_handler] lets no exception out: whatever the body is (not
    JSON, not an object, wrong fields), whatever the table, the provider and
    the hooks do, the run ends with the answer 200 or the answer 400. *)
Theorem webhook_handler_never_raises (body : option pyval) (w : world) :
  fst (webhook_handler gw env body w) = Returns 200%Z \/
  fst (webhook_handler gw env body w) = Returns 400%Z.
Proof.
  destruct (webhook_handler gw env body w) as [r w'] eqn:H.
  run_handler; injection H as <- <-; auto.
Qed.

(** X2. One delivery invokes at most one hook.  When the answer is 200, the
    body was an object with an [id], the hook is the one of the parsed
    status (succeeded for ["success"], canceled for ["cancel"]), it was
    invoked once, on [str(id)], and that string is not empty. *)
Theorem webhook_handler_hooks (body : option pyval) (w : world) :
  let r := webhook_handler gw env body w in
  (hooks_of (trace (snd r)) = hooks_of (trace w) \/
   exists h pid, hooks_of (trace (snd r)) = hooks_of (trace w) ++ [(h, pid)]) /\
  (fst r = Returns 200%Z ->
   exists payload idv h,
     body = Some payload /\
     get payload "id" PNone = Returns idv /\
     str (py_repr env) idv <> "" /\
     (parsed_status env body = Some "success" /\ h = HookSucceeded \/
      parsed_status env body = Some "cancel" /\ h = HookCanceled) /\
     hooks_of (trace (snd r)) = hooks_of (trace w) ++ [(h, str (py_repr env) idv)]).
Proof.
  cbv zeta.
  destruct (webhook_handler gw env body w) as [r w'] eqn:H.
  run_handler; injection H as <- <-; bool_facts.
  all: match goal with
       | E : _verify_callback _ _ ?p ?s ?w1 = (_, ?w0) |- _ =>
           pose proof (proj1 (verify_callback_hooks gw env p s w1)) as Hh;
           rewrite E in Hh; simpl in Hh; revert Hh; trace_simpl; intros Hh
       | _ => idtac
       end.
  all: split; [|simpl; intros H200; try discriminate H200].
  all: try (left; trace_simpl; rewrite ?Hh; reflexivity).
  all: try (right; do 2 eexists; trace_simpl; rewrite ?Hh; reflexivity).
  all: match goal with
       | E : _verify_callback _ _ _ _ _ = (Returns (Some _), _) |- _ =>
           apply verify_callback_accepted in E
             as (idv & _ & _ & _ & Hid & _ & Hpid & _)
       end.
  all: do 3 eexists; split; [reflexivity|]; split; [exact Hid|].
  all: (split; [rewrite <- Hpid; discriminate|]).
  all: unfold parsed_status.
  all: repeat match goal with
         | E : get _ "payment_status" _ = _ |- _ => rewrite E; clear E
         end.
  all: rewrite <- Hpid; trace_simpl; rewrite ?Hh.
  all: (split; [|reflexivity]).
  all: first [left; split; [congruence|reflexivity]
             | right; split; [congruence|reflexivity]].
Qed.

End HandlerOutcome.

Section Unidentified.
Import Py Gateway.
Local Open Scope list_scope.
Variables (gw : UrlPay) (env : Env).

Lemma verify_callback_unidentified (payload : pyval) (s : string) (w : world) :
  names_no_transaction env payload w ->
  (forall pid, fst (_verify_callback gw env payload s w) <> Returns (Some pid)) /\
  store (snd (_verify_callback gw env payload s w)) = store w /\
  requests_of (trace (snd (_verify_callback gw env payload s w)))
    = requests_of (trace w) /\
  updates_of (trace (snd (_verify_callback gw env payload s w)))
    = updates_of (trace w).
Proof.
  intros Hno.
  destruct (_verify_callback gw env payload s w) as [r w'] eqn:H.
  run_verify H; injection H as <- <-; bool_facts; simpl.
  all: try match goal with
       | H1 : get ?p "id" PNone = Returns ?a, H2 : is_None ?a = false,
         H3 : get ?p "uuid" PNone = Returns ?b, H4 : truthy ?b = true |- _ =>
           pose proof (Hno a b H1 H2 H3 H4); congruence
       end.
  all: repeat split; try discriminate; trace_simpl; reflexivity.
Qed.

(** X3. A delivery that names no stored transaction (no [id], an empty or
    missing [uuid], or an [id] the table does not hold) is answered 400 and
    leaves no mark: the table is as it was, nothing is written, the provider
    is not contacted and no hook runs. *)
Theorem unidentified_delivery_has_no_effect (payload : pyval) (w : world) :
  names_no_transaction env payload w ->
  let r := webhook_handler gw env (Some payload) w in
  fst r = Returns 400%Z /\
  store (snd r) = store w /\
  requests_of (trace (snd r)) = requests_of (trace w) /\
  updates_of (trace (snd r)) = updates_of (trace w) /\
  hooks_of (trace (snd r)) = hooks_of (trace w).
Proof.
  intros Hno. cbv zeta.
  assert (Hv : forall s,
            let w1 := mkWorld (store w) (trace w ++ [EvLog LogWebhookPayload]) in
            (forall pid, fst (_verify_callback gw env payload s w1)
                         <> Returns (Some pid)) /\
            store (snd (_verify_callback gw env payload s w1)) = store w /\
            requests_of (trace (snd (_verify_callback gw env payload s w1)))
              = requests_of (trace w) /\
            updates_of (trace (snd (_verify_callback gw env payload s w1)))
              = updates_of (trace w) /\
            hooks_of (trace (snd (_verify_callback gw env payload s w1)))
              = hooks_of (trace w)).
  { intros s w1.
    destruct (verify_callback_unidentified payload s w1 Hno) as (H1 & H2 & H3 & H4).
    pose proof (proj1 (verify_callback_hooks gw env payload s w1)) as H5.
    rewrite H2, H3, H4, H5. subst w1. simpl. trace_simpl. auto. }
  destruct (webhook_handler gw env (Some payload) w) as [r w'] eqn:H.
  run_handler; injection H as <- <-; simpl.
  all: try match goal with
       | E : _verify_callback _ _ _ ?s _ = _ |- _ =>
           destruct (Hv s) as (H1 & H2 & H3 & H4 & H5);
           rewrite E in H1, H2, H3, H4, H5; simpl in H1, H2, H3, H4, H5
       end.
  all: try (exfalso; eapply H1; reflexivity).
  all: trace_simpl; rewrite ?H2, ?H3, ?H4, ?H5; repeat split; reflexivity.
Qed.

End Unidentified.

Section Frame.
Import Py Gateway.
Local Open Scope list_scope.
Variables (gw : UrlPay) (env : Env).

Lemma verify_callback_reads_id_and_uuid
    (p1 p2 : pyval) (s : string) (i1 i2 u1 u2 : pyval) :
  get p1 "id" PNone = Returns i1 -> get p2 "id" PNone = Returns i2 ->
  is_None i1 = is_None i2 -> str (py_repr env) i1 = str (py_repr env) i2 ->
  get p1 "uuid" PNone = Returns u1 -> get p2 "uuid" PNone = Returns u2 ->
  truthy u1 = truthy u2 -> str (py_repr env) u1 = str (py_repr env) u2 ->
  _verify_callback gw env p1 s = _verify_callback gw env p2 s.
Proof.
  intros Hi1 Hi2 Hnone Hstri Hu1 Hu2 Htruthy Hstru.
  unfold _verify_callback. unfold_monad.
  rewrite Hi1, Hi2, Hu1, Hu2, Hnone, Hstri, Htruthy, Hstru. reflexivity.
Qed.

(** X4. The handler reads three fields of the body and nothing else:
    [payment_status] through [str().lower()], [id] through [is None] and
    [str()], [uuid] through its truth value and [str()].  Two bodies that
    agree on these are handled alike, on any table: same answer, same
    writes, same requests, same hook.  So the amount, the signature or any
    other field a delivery carries plays no part, and an [id] sent as the
    number 77 is the [id] sent as the string ["77"]. *)
Theorem webhook_handler_reads_three_fields
    (p1 p2 : pyval) (w : world) (s1 s2 i1 i2 u1 u2 : pyval) :
  get p1 "payment_status" (PStr "") = Returns s1 ->
  get p2 "payment_status" (PStr "") = Returns s2 ->
  lower (str (py_repr env) s1) = lower (str (py_repr env) s2) ->
  get p1 "id" PNone = Returns i1 -> get p2 "id" PNone = Returns i2 ->
  is_None i1 = is_None i2 -> str (py_repr env) i1 = str (py_repr env) i2 ->
  get p1 "uuid" PNone = Returns u1 -> get p2 "uuid" PNone = Returns u2 ->
  truthy u1 = truthy u2 -> str (py_repr env) u1 = str (py_repr env) u2 ->
  webhook_handler gw env (Some p1) w = webhook_handler gw env (Some p2) w.
Proof.
  intros Hs1 Hs2 Hlow Hi1 Hi2 Hnone Hstri Hu1 Hu2 Htruthy Hstru.
  unfold webhook_handler, response_json. unfold_monad. simpl.
  rewrite Hs1, Hs2. simpl. rewrite Hlow.
  rewrite (verify_callback_reads_id_and_uuid p1 p2 _ i1 i2 u1 u2) by assumption.
  reflexivity.
Qed.

End Frame.

(** ** The authoritative fetch *)

Section FetchMore.
Import Py Gateway.
Local Open Scope list_scope.
Variables (gw : UrlPay) (env : Env).

(** X5. [_fetch_payment] never touches the table.  With an API key it sends
    exactly one request: a GET of [https://urlpay.io/api/v2/payments/<id>]
    with the key as bearer token and no body.  Without one (the key is
    [None] or empty) it sends nothing, logs the missing key and returns
    [None]. *)
Theorem fetch_payment_requests (pid : string) (w : world) :
  let w' := snd (_fetch_payment gw env pid w) in
  store w' = store w /\
  requests_of (trace w')
    = requests_of (trace w) ++
      (if opt_truthy (API_KEY (config gw)) then [fetch_request gw pid] else []) /\
  (opt_truthy (API_KEY (config gw)) = false ->
   _fetch_payment gw env pid w
     = (Returns PNone, mkWorld (store w) (trace w ++ [EvLog LogApiKeyMissing]))) /\
  req_method (fetch_request gw pid) = GET /\
  req_url (fetch_request gw pid) = "https://urlpay.io/api/v2/payments/" +:+ pid /\
  req_authorization (fetch_request gw pid)
    = "Bearer " +:+ opt_str (API_KEY (config gw)) /\
  req_json (fetch_request gw pid) = None.
Proof.
  cbv zeta.
  split; [|split; [|split; [|repeat split]]].
  - unfold _fetch_payment, http_call, response_json. unfold_monad. simpl.
    repeat (case_scrutinee; simpl); reflexivity.
  - unfold _fetch_payment, http_call, response_json. unfold_monad. simpl.
    fold (fetch_request gw pid).
    destruct (opt_truthy (API_KEY (config gw))); simpl;
      repeat (case_scrutinee; simpl); trace_simpl; reflexivity.
  - intros Hkey. unfold _fetch_payment. unfold_monad. rewrite Hkey. reflexivity.
Qed.

(** X6. What [_fetch_payment] returns, when it is not [None], is the
    [payment] field of an answer the provider gave with status 200 exactly
    and a JSON object whose [success] field is true; and the gateway had a
    non-empty API key. *)
Theorem fetch_payment_success_is_strict (pid : string) (payment : pyval) :
  fetched gw env pid = Returns payment ->
  is_None payment = false ->
  exists key d flag,
    API_KEY (config gw) = Some key /\ key <> "" /\
    http env (fetch_request gw pid) = HttpResponse 200 (Some (PDict d)) /\
    dict_get d "success" = Some flag /\ truthy flag = true /\
    dict_get d "payment" = Some payment.
Proof.
  unfold fetched, _fetch_payment, http_call, response_json. unfold_monad. simpl.
  fold (fetch_request gw pid).
  intros H Hsome.
  destruct (API_KEY (config gw)) as [[|c key]|] eqn:Hkey; simpl in H;
    try (injection H as <-; discriminate Hsome).
  destruct (http env (fetch_request gw pid)) as [|code body] eqn:Hhttp; simpl in H;
    [discriminate H|].
  destruct (Z.eqb_spec code 200) as [->|]; simpl in H;
    [|injection H as <-; discriminate Hsome].
  destruct body as [result|]; simpl in H; [|discriminate H].
  destruct result as [| | | | | |d]; simpl in H; try discriminate H.
  destruct (dict_get d "success") as [flag|] eqn:Hflag; simpl in H;
    [|injection H as <-; discriminate Hsome].
  destruct (truthy flag) eqn:Htruthy; simpl in H;
    [|injection H as <-; discriminate Hsome].
  destruct (dict_get d "payment") as [p|] eqn:Hp;
    injection H as <-; [|discriminate Hsome].
  exists (String c key), d, flag. repeat split; auto; discriminate.
Qed.

(** The trace of [_fetch_payment]: the one GET, when there is an API key. *)
Lemma fetch_payment_trace (pid : string) (w : world) :
  exists evs,
    _fetch_payment gw env pid w
      = (fetched gw env pid, mkWorld (store w) (trace w ++ evs)) /\
    hooks_of evs = [] /\ updates_of evs = [] /\
    requests_of evs
      = (if opt_truthy (API_KEY (config gw)) then [fetch_request gw pid] else []) /\
    (opt_truthy (API_KEY (config gw)) = false -> fetched gw env pid = Returns PNone).
Proof.
  unfold fetched, _fetch_payment, http_call, response_json. unfold_monad. simpl.
  fold (fetch_request gw pid).
  destruct (opt_truthy (API_KEY (config gw))); simpl;
    repeat (case_scrutinee; simpl); rewrite <- ?app_assoc;
    eexists; (split; [reflexivity|]); repeat split; try reflexivity;
    discriminate.
Qed.

(** The requests of [_verify_callback]: none, and then it does not accept,
    or the GET for the payment the payload names. *)
Lemma verify_callback_requests (payload : pyval) (s : string) (w : world) :
  let r := _verify_callback gw env payload s w in
  (requests_of (trace (snd r)) = requests_of (trace w) /\
   forall pid, fst r <> Returns (Some pid)) \/
  (exists idv,
     get payload "id" PNone = Returns idv /\
     opt_truthy (API_KEY (config gw)) = true /\
     requests_of (trace (snd r))
       = requests_of (trace w) ++ [fetch_request gw (str (py_repr env) idv)]).
Proof.
  cbv zeta.
  destruct (_verify_callback gw env payload s w) as [r w'] eqn:H.
  unfold _verify_callback, Transaction_get_by_id, Transaction_update in H.
  unfold_monad. simpl in H.
  repeat (first
    [ match goal with
      | H : context [_fetch_payment ?g ?e ?p ?w0] |- _ =>
          let evs := fresh "evs" in
          let Hf := fresh "Hfetch" in
          destruct (fetch_payment_trace p w0) as (evs & Hf & ? & ? & ? & ?);
          rewrite Hf in H; clear Hf
      end
    | case_scrutinee ]; simpl in H).
  all: injection H as <- <-; simpl.
  all: rewrite ?requests_of_app; simpl.
  all: repeat match goal with E : requests_of _ = _ |- _ => rewrite E; clear E end.
  all: destruct (opt_truthy (API_KEY (config gw))) eqn:Hkey; simpl; rewrite ?app_nil_r.
  all: try (left; split; [reflexivity | discriminate]).
  all: try (right; eexists; split; [first [eassumption | reflexivity]|];
            split; reflexivity).
  all: exfalso;
       match goal with
       | Hno : false = false -> _ |- _ => specialize (Hno eq_refl)
       end;
       simplify_eq; simpl in *; congruence.
Qed.

(** X16. A gateway without an API key acknowledges nothing: every delivery
    is answered 400, no hook runs and no request leaves. *)
Theorem webhook_handler_without_api_key (body : option pyval) (w : world) :
  opt_truthy (API_KEY (config gw)) = false ->
  let r := webhook_handler gw env body w in
  fst r = Returns 400%Z /\
  hooks_of (trace (snd r)) = hooks_of (trace w) /\
  requests_of (trace (snd r)) = requests_of (trace w).
Proof.
  intros Hkey. cbv zeta.
  destruct (webhook_handler gw env body w) as [r w'] eqn:H.
  run_handler; injection H as <- <-; simpl.
  all: match goal with
       | E : _verify_callback _ _ ?p ?s ?w1 = (_, ?w0) |- _ =>
           pose proof (proj1 (verify_callback_hooks gw env p s w1)) as Hh;
           pose proof (verify_callback_requests p s w1) as Hr;
           cbv zeta in Hr; rewrite E in Hh, Hr; simpl in Hh, Hr;
           rewrite ?hooks_of_app in Hh; rewrite ?requests_of_app in Hr;
           simpl in Hh, Hr; rewrite ?app_nil_r in Hh; rewrite ?app_nil_r in Hr;
           destruct Hr as [[Hr Hno]|(idv & _ & Hk & _)]; [|congruence]
       | _ => idtac
       end.
  all: try (exfalso; eapply Hno; reflexivity).
  all: rewrite ?hooks_of_app, ?requests_of_app; simpl; rewrite ?app_nil_r.
  all: repeat split; first [reflexivity | assumption].
Qed.

(** X17. The only request a delivery can cause is the GET of the payment
    its [id] names, with the configured key as bearer token, and it causes
    at most one; a delivery that causes none is answered 400.  The handler
    creates no row. *)
Theorem webhook_handler_requests (body : option pyval) (w : world) :
  let r := webhook_handler gw env body w in
  creates_of (trace (snd r)) = creates_of (trace w) /\
  (requests_of (trace (snd r)) = requests_of (trace w) /\ fst r = Returns 400%Z \/
   exists payload idv key,
     body = Some payload /\
     get payload "id" PNone = Returns idv /\
     API_KEY (config gw) = Some key /\ key <> "" /\
     requests_of (trace (snd r))
       = requests_of (trace w) ++
         [mkRequest GET
            ("https://urlpay.io/api/v2/payments/" +:+ str (py_repr env) idv)
            ("Bearer " +:+ key) None]).
Proof.
  cbv zeta.
  destruct (webhook_handler gw env body w) as [r w'] eqn:H.
  run_handler; injection H as <- <-; simpl.
  all: match goal with
       | E : _verify_callback _ _ ?p ?s ?w1 = (_, ?w0) |- _ =>
           pose proof (proj2 (verify_callback_hooks gw env p s w1)) as Hc;
           pose proof (verify_callback_requests p s w1) as Hr;
           cbv zeta in Hr; rewrite E in Hc, Hr; simpl in Hc, Hr;
           rewrite ?creates_of_app in Hc; rewrite ?requests_of_app in Hr;
           simpl in Hc, Hr; rewrite ?app_nil_r in Hc; rewrite ?app_nil_r in Hr
       | _ => idtac
       end.
  all: rewrite ?creates_of_app, ?requests_of_app; simpl; rewrite ?app_nil_r.
  all: (split; [first [exact Hc | reflexivity]|]).
  all: try (left; split; reflexivity).
  all: destruct Hr as [[Hr Hno]|(idv & Hid & Hkey & Hr)];
       try (left; split; [exact Hr | reflexivity]);
       try (exfalso; eapply Hno; reflexivity).
  all: right; exists p, idv.
  all: destruct (API_KEY (config gw)) as [[|c key]|] eqn:Ek; try discriminate Hkey.
  all: eexists; split; [reflexivity|]; split; [exact Hid|]; split; [reflexivity|].
  all: split; [discriminate|].
  all: rewrite Hr; unfold fetch_request, headers_authorization; rewrite Ek; reflexivity.
Qed.

End FetchMore.

(** ** Creating a payment *)

Section CreateMore.
Import Py Gateway.
Local Open Scope list_scope.
Variables (gw : UrlPay) (env : Env).

(** Up to the request: with credentials, a username and an amount,
    [create_payment] sends its request, and no other. *)
Lemma create_payment_sends (data : SubscriptionData) (w : world)
    (username : option string) (amount : string) :
  configured gw ->
  bot_username env = Returns username ->
  amount_str data = Returns amount ->
  exists evs,
    trace (snd (create_payment gw env data w))
      = trace w ++ [EvGetMe; EvHttp (create_request gw env data amount username)]
                ++ evs /\
    requests_of evs = [].
Proof.
  intros (Hk & Hs & Hc) Hbot Hamount.
  unfold create_payment, get_me_username, http_call, response_json, Transaction_create.
  unfold_monad. rewrite Hk, Hs, Hc. simpl. rewrite Hbot, Hamount. simpl.
  fold (create_request gw env data amount username).
  repeat (case_scrutinee; simpl); rewrite <- ?app_assoc; simpl;
    eexists; (split; [reflexivity|]); reflexivity.
Qed.

(** X7. With its credentials, the bot's username and an amount that
    renders, [create_payment] sends exactly one request, whatever the
    provider answers: a POST to [https://urlpay.io/api/v2/payments] with the
    API key as bearer token.  Its JSON body carries the lowercased currency
    code, the shop id, the uuid generated for the order, the redirect
    [https://t.me/<username>], and one and the same amount text three times:
    as [amount], as the [price] of the single item (quantity 1), and under
    the signature. *)
Theorem create_payment_request (data : SubscriptionData) (w : world)
    (key shop secret : string) (username : option string) (amount : string) :
  API_KEY (config gw) = Some key -> key <> "" ->
  SHOP_ID (config gw) = Some shop -> shop <> "" ->
  SECRET_KEY (config gw) = Some secret -> secret <> "" ->
  bot_username env = Returns username ->
  amount_str data = Returns amount ->
  exists payload item,
    requests_of (trace (snd (create_payment gw env data w)))
      = requests_of (trace w) ++
        [mkRequest POST "https://urlpay.io/api/v2/payments" ("Bearer " +:+ key)
                   (Some payload)] /\
    get payload "currency" PNone = Returns (PStr (lower (currency_code gw))) /\
    get payload "amount" PNone = Returns (PStr amount) /\
    get payload "uuid" PNone = Returns (PStr (uuid4 env)) /\
    get payload "shopId" PNone = Returns (PStr shop) /\
    get payload "sign" PNone
      = Returns (PStr (sign_spec (currency_code gw) amount shop secret)) /\
    get payload "website_url" PNone
      = Returns (PStr ("https://t.me/" +:+ opt_str username)) /\
    get payload "items" PNone = Returns (PList [item]) /\
    get item "price" PNone = Returns (PStr amount) /\
    get item "quantity" PNone = Returns (PInt 1).
Proof.
  intros Hk Hkne Hs Hsne Hc Hcne Hbot Hamount.
  assert (Hconf : configured gw).
  { unfold configured. rewrite Hk, Hs, Hc.
    repeat split; [destruct key|destruct shop|destruct secret]; simpl; congruence. }
  destruct (create_payment_sends data w username amount Hconf Hbot Hamount)
    as (evs & Htrace & Hreq).
  eexists. eexists.
  split.
  { rewrite Htrace. rewrite !requests_of_app, Hreq, app_nil_r. simpl.
    unfold create_request, headers_authorization. rewrite Hk. reflexivity. }
  unfold create_payload, _generate_signature, sign_spec. rewrite Hs, Hc. simpl.
  repeat split; reflexivity.
Qed.

(** X8. How [create_payment] fails on the provider's answer, in the order
    the code tests it.  A transport failure is passed on.  The body is
    decoded before the status is looked at, so an answer that is not JSON
    raises the decoding error whatever its status.  A status other than 201
    raises the [RuntimeError] that quotes status and body; so does a 201
    whose [success] field is missing or falsy, and a 201 whose body is not
    an object raises [AttributeError].  After that a missing [id] is a
    [KeyError], and a missing or empty [paymentUrl] the second
    [RuntimeError].  In each case the request has been sent and the table
    is untouched: nothing follows the request in the trace. *)
Theorem create_payment_failures (data : SubscriptionData) (w : world)
    (username : option string) (amount : string) :
  configured gw ->
  bot_username env = Returns username ->
  amount_str data = Returns amount ->
  let req := create_request gw env data amount username in
  let failed e :=
    create_payment gw env data w
    = (Raises e, mkWorld (store w) (trace w ++ [EvGetMe; EvHttp req])) in
  (http env req = HttpFails -> failed (ExternalError "aiohttp")) /\
  (forall code, http env req = HttpResponse code None ->
     failed (ExternalError "json")) /\
  (forall code body,
     http env req = HttpResponse code (Some body) -> code <> 201%Z ->
     failed (RuntimeError (CreatePaymentFailed code body))) /\
  (forall body,
     http env req = HttpResponse 201 (Some body) ->
     (forall d, body <> PDict d) ->
     failed AttributeError) /\
  (forall d,
     http env req = HttpResponse 201 (Some (PDict d)) ->
     (dict_get d "success" = None \/
      exists flag, dict_get d "success" = Some flag /\ truthy flag = false) ->
     failed (RuntimeError (CreatePaymentFailed 201 (PDict d)))) /\
  (forall d flag,
     http env req = HttpResponse 201 (Some (PDict d)) ->
     dict_get d "success" = Some flag -> truthy flag = true ->
     dict_get d "id" = None ->
     failed (KeyError "id")) /\
  (forall d flag id,
     http env req = HttpResponse 201 (Some (PDict d)) ->
     dict_get d "success" = Some flag -> truthy flag = true ->
     dict_get d "id" = Some id ->
     (dict_get d "paymentUrl" = None \/
      exists url, dict_get d "paymentUrl" = Some url /\ truthy url = false) ->
     failed (RuntimeError NoPaymentUrl)).
Proof.
  intros (Hk & Hs & Hc) Hbot Hamount req failed. subst failed. cbv beta.
  unfold create_payment, get_me_username, http_call, response_json, Transaction_create.
  unfold_monad. rewrite Hk, Hs, Hc. simpl. rewrite Hbot, Hamount. simpl.
  fold (create_request gw env data amount username). fold req.
  repeat apply conj.
  - intros ->. simpl. rewrite <- app_assoc. reflexivity.
  - intros code ->. simpl. rewrite <- app_assoc. reflexivity.
  - intros code body -> Hcode. simpl.
    destruct (Z.eqb_spec code 201); [contradiction|]. simpl.
    rewrite <- app_assoc. reflexivity.
  - intros body -> Hbody. simpl.
    destruct body; simpl; rewrite <- ?app_assoc; try reflexivity.
    exfalso. eapply Hbody. reflexivity.
  - intros d -> Hflag. simpl.
    destruct Hflag as [->|(flag & -> & ->)]; simpl; rewrite <- app_assoc; reflexivity.
  - intros d flag ->. simpl. intros -> Hf ->. simpl. rewrite Hf. simpl.
    rewrite <- app_assoc. reflexivity.
  - intros d flag id ->. simpl. intros -> Hf -> Hurl. simpl. rewrite Hf. simpl.
    destruct Hurl as [->|(url & -> & ->)]; simpl; rewrite <- app_assoc; reflexivity.
Qed.

(** X9. Two failures of [create_payment] come before any request: an
    exception of [bot.get_me()], passed on as it is, and a price of more
    than 28 digits once rounded to hundredths, on which [quantize] raises
    [InvalidOperation].  Both leave the table untouched and the provider
    uncontacted: the trace only shows the call of [get_me]. *)
Theorem create_payment_fails_before_request (data : SubscriptionData) (w : world) :
  configured gw ->
  (forall e, bot_username env = Raises e ->
     create_payment gw env data w
     = (Raises e, mkWorld (store w) (trace w ++ [EvGetMe]))) /\
  (forall username, bot_username env = Returns username ->
     (10 ^ 28 <= Dec.cents_half_up (price data))%N ->
     create_payment gw env data w
     = (Raises InvalidOperation, mkWorld (store w) (trace w ++ [EvGetMe]))).
Proof.
  intros (Hk & Hs & Hc).
  unfold create_payment, get_me_username. unfold_monad. rewrite Hk, Hs, Hc. simpl.
  split.
  - intros e ->. reflexivity.
  - intros username -> Hbig. simpl.
    rewrite amount_str_eq.
    destruct (N.ltb_spec (Dec.cents_half_up (price data)) (10 ^ 28)); [lia|].
    reflexivity.
Qed.

End CreateMore.

#[local] Arguments append _ _ : simpl nomatch.

Section AmountSign.
Import Digits Dec Py Gateway.
Local Open Scope list_scope.
Variables (gw : UrlPay) (env : Env).

Lemma render_cents_sign (s : bool) (c : N) :
  (s = true <-> exists rest, render_cents s c = String "-" rest) /\
  (c = 0%N -> render_cents s c = if s then "-0.00" else "0.00").
Proof.
  split.
  - unfold render_cents. destruct s; simpl.
    + split; [eexists; reflexivity | reflexivity].
    + split; [discriminate|]. intros [rest H]. exfalso.
      pose proof (digits_nonempty (c / 100)) as Hne.
      pose proof (digits_all_digits (c / 100)) as Hall.
      destruct (digits (c / 100)) as [|c0 r]; [congruence|].
      simpl in H. injection H as -> _. simpl in Hall. discriminate.
  - intros ->. destruct s; vm_compute; reflexivity.
Qed.

(** X14. [create_payment] refuses no price for its sign or for being zero.
    Whenever the rounded amount fits the 28 digits of the context, the
    request goes out with it: a negatively signed price keeps its minus
    sign (and only such a price has one), and a price that rounds to zero
    is sent as ["0.00"], or as ["-0.00"] when it was negative. *)
Theorem create_payment_accepts_any_sign (data : SubscriptionData) (w : world)
    (username : option string) :
  configured gw ->
  bot_username env = Returns username ->
  (cents_half_up (price data) < 10 ^ 28)%N ->
  exists amount,
    amount_str data = Returns amount /\
    requests_of (trace (snd (create_payment gw env data w)))
      = requests_of (trace w) ++ [create_request gw env data amount username] /\
    (sign (price data) = true <-> exists rest, amount = String "-" rest) /\
    (cents_half_up (price data) = 0%N ->
     amount = if sign (price data) then "-0.00" else "0.00").
Proof.
  intros Hconf Hbot Hfits.
  assert (Ha : amount_str data
               = Returns (render_cents (sign (price data))
                                       (cents_half_up (price data)))).
  { rewrite amount_str_eq. apply N.ltb_lt in Hfits. now rewrite Hfits. }
  eexists. split; [exact Ha|].
  destruct (create_payment_sends gw env data w username _ Hconf Hbot Ha)
    as (evs & Htrace & Hreq).
  split.
  { rewrite Htrace, !requests_of_app, Hreq. reflexivity. }
  apply render_cents_sign.
Qed.

End AmountSign.

(** ** The signature *)

Section SignatureMore.
Import Py Gateway.

Lemma lower_char_idempotent (c : ascii) : lower_char (lower_char c) = lower_char c.
Proof. destruct c as [[] [] [] [] [] [] [] []]; vm_compute; reflexivity. Qed.

Lemma lower_idempotent (s : string) : lower (lower s) = lower s.
Proof.
  induction s as [|c s IH]; simpl; [reflexivity|].
  now rewrite lower_char_idempotent, IH.
Qed.

(** X13. The signed text has no separators, so the signature does not tell
    where one field ends and the next begins: characters moved from the end
    of the amount to the front of the shop id, or from the end of the shop
    id to the front of the secret, give the same signature.  Nor does it
    depend on the case of the currency code; and a shop id that is [None]
    signs as the text ["None"]. *)
Theorem signature_has_no_field_boundaries
    (gw gw' : UrlPay) (amount x shop secret : string) :
  lower (currency_code gw') = lower (currency_code gw) ->
  SECRET_KEY (config gw) = Some secret ->
  (SHOP_ID (config gw) = Some shop ->
   SHOP_ID (config gw') = Some (x +:+ shop) ->
   SECRET_KEY (config gw') = Some secret ->
   _generate_signature gw (amount +:+ x) = _generate_signature gw' amount) /\
  (SHOP_ID (config gw) = Some (shop +:+ x) ->
   SHOP_ID (config gw') = Some shop ->
   SECRET_KEY (config gw') = Some (x +:+ secret) ->
   _generate_signature gw amount = _generate_signature gw' amount) /\
  (forall cased,
     currency_code cased = lower (currency_code gw) ->
     config cased = config gw ->
     _generate_signature cased amount = _generate_signature gw amount) /\
  (SHOP_ID (config gw) = None ->
   SHOP_ID (config gw') = Some "None" ->
   SECRET_KEY (config gw') = Some secret ->
   _generate_signature gw amount = _generate_signature gw' amount).
Proof.
  intros Hcur Hsec. unfold _generate_signature. rewrite Hsec, Hcur.
  repeat apply conj.
  - intros -> -> ->. simpl. now rewrite !str_app_assoc.
  - intros -> -> ->. simpl. now rewrite !str_app_assoc.
  - intros cased -> ->. now rewrite lower_idempotent, Hsec.
  - intros -> -> ->. reflexivity.
Qed.

End SignatureMore.

#[local] Arguments append _ _ : simpl never.

(** ** From creation to confirmation *)

Section Acceptance.
Import Py Gateway.
Local Open Scope list_scope.
Variables (gw : UrlPay) (env : Env).

(** Sufficient conditions for [_verify_callback] to accept, and what the
    run leaves behind. *)
Lemma verify_callback_accepts
    (payload : pyval) (s : string) (w : world) (idv uuidv : pyval)
    (t : Transaction) (d : list (string * pyval)) (expected : list Z) :
  let pid := str (py_repr env) idv in
  let u := str (py_repr env) uuidv in
  get payload "id" PNone = Returns idv -> is_None idv = false ->
  get payload "uuid" PNone = Returns uuidv -> truthy uuidv = true ->
  store w !! pid = Some t ->
  (payment_uuid t = Some u /\ u <> "" \/
   opt_truthy (payment_uuid t) = false /\ uuid_taken (store w) pid u = false) ->
  fetched gw env pid = Returns (PDict d) -> d <> [] ->
  status_map_get s = Some expected ->
  in_int_set (default PNone (dict_get d "status")) expected = Returns true ->
  exists evs,
    _verify_callback gw env payload s w
      = (Returns (Some pid),
         mkWorld (if opt_truthy (payment_uuid t) then store w
                  else <[pid := with_payment_uuid t (Some u)]> (store w))
                 (trace w ++ evs)) /\
    hooks_of evs = [] /\ creates_of evs = [] /\
    updates_of evs = if opt_truthy (payment_uuid t) then [] else [(pid, u)].
Proof.
  intros pid u Hid Hnone Huuid Htruthy Hrow Hbound Hf Hd Hmap Hin. subst pid u.
  destruct (_verify_callback gw env payload s w) as [r w'] eqn:H.
  run_verify H; bool_facts; simplify_eq; simpl in *.
  all: unfold default in Hin.
  all: try match goal with
       | E : fetched _ _ _ = Returns ?a |- _ =>
           is_var a; assert (a = PDict d) by congruence; subst a; simpl in *
       | E : fetched _ _ _ = Raises _ |- _ => congruence
       end.
  all: simplify_eq.
  all: try (destruct d; simpl in *; congruence).
  all: try congruence.
  all: try (destruct Hbound as [[Hb Hne]|[Hb Hfree]];
            [pose proof (opt_truthy_some _ Hne : str_truthy _ = true);
             rewrite Hb in *; simpl in *; try congruence
            |rewrite ?Hb in *; simpl in *; try congruence]).
  all: rewrite <- ?app_assoc; simpl.
  all: try (eexists; split; [reflexivity|]; repeat split; trace_simpl; reflexivity).
Qed.

(** X11. The way to a 200.  The body parses to a supported status and
    carries an [id] (with a non-empty [str()]) and a truthy [uuid]; the
    table holds the transaction, bound to that very uuid or not bound yet
    (and the uuid is not taken by another row); the provider's record of the
    payment is a non-empty object whose [status] is in the set of the
    transition; the hook returns.  Then the handler answers 200, the hook of
    the transition runs exactly once, on [str(id)] and on the table as
    verification left it; no row is created, and the only write is the
    binding of the uuid when the transaction had none. *)
Theorem confirmed_delivery_is_acknowledged
    (payload : pyval) (s : string) (h : hook) (w : world) (idv uuidv : pyval)
    (t : Transaction) (d : list (string * pyval)) (expected : list Z)
    (st : gmap string Transaction) :
  let pid := str (py_repr env) idv in
  let u := str (py_repr env) uuidv in
  let verified :=
    if opt_truthy (payment_uuid t) then store w
    else <[pid := with_payment_uuid t (Some u)]> (store w) in
  parsed_status env (Some payload) = Some s ->
  (s = "success" /\ h = HookSucceeded /\ expected = [3%Z] \/
   s = "cancel" /\ h = HookCanceled /\ expected = [4%Z; 5%Z; 6%Z]) ->
  get payload "id" PNone = Returns idv -> is_None idv = false -> pid <> "" ->
  get payload "uuid" PNone = Returns uuidv -> truthy uuidv = true ->
  store w !! pid = Some t ->
  (payment_uuid t = Some u /\ u <> "" \/
   opt_truthy (payment_uuid t) = false /\ uuid_taken (store w) pid u = false) ->
  fetched gw env pid = Returns (PDict d) -> d <> [] ->
  in_int_set (default PNone (dict_get d "status")) expected = Returns true ->
  (match h with
   | HookSucceeded => _on_payment_succeeded env pid verified
   | HookCanceled => _on_payment_canceled env pid verified
   end) = (Returns tt, st) ->
  let r := webhook_handler gw env (Some payload) w in
  fst r = Returns 200%Z /\
  store (snd r) = st /\
  hooks_of (trace (snd r)) = hooks_of (trace w) ++ [(h, pid)] /\
  creates_of (trace (snd r)) = creates_of (trace w) /\
  updates_of (trace (snd r))
    = updates_of (trace w)
      ++ (if opt_truthy (payment_uuid t) then [] else [(pid, u)]).
Proof.
  intros pid u verified Hs Hh Hid Hnone Hpid Huuid Htruthy Hrow Hbound Hf Hd Hin
    Hhook r.
  assert (Hmap : status_map_get s = Some expected)
    by (destruct Hh as [(-> & _ & ->)|(-> & _ & ->)]; reflexivity).
  destruct (verify_callback_accepts payload s
              (mkWorld (store w) (trace w ++ [EvLog LogWebhookPayload]))
              idv uuidv t d expected Hid Hnone Huuid Htruthy Hrow Hbound Hf Hd
              Hmap Hin)
    as (evs & Hv & Hhooks & Hcreates & Hupdates).
  assert (Hsh : s = "success" /\ h = HookSucceeded \/ s = "cancel" /\ h = HookCanceled)
    by (destruct Hh as [(? & ? & _)|(? & ? & _)]; auto).
  subst r.
  rewrite (handler_accepts gw env payload s h pid w _ st Hs Hsh Hv
             (opt_truthy_some _ Hpid) Hhook).
  simpl. rewrite <- !app_assoc.
  rewrite !hooks_of_app, !creates_of_app, !updates_of_app, Hhooks, Hcreates, Hupdates.
  simpl. rewrite ?app_nil_r.
  repeat split; reflexivity.
Qed.

End Acceptance.

Section RoundTrip.
Import Py Gateway.
Local Open Scope list_scope.
Variables (gw : UrlPay) (env : Env).

(** X10. From [create_payment] to [_verify_callback].  A call that returned
    recorded one row, for the id the provider gave; when that id and the
    order's uuid were new to the table, the row is there, bound to the
    order's uuid.  A callback for that id is then checked against it: with
    another uuid it is rejected on the spot, before the provider is asked
    and with the table untouched; with the order's uuid it passes the check
    without any write. *)
Theorem created_payment_is_bound (data : SubscriptionData) (w w1 : world) (url : pyval) :
  create_payment gw env data w = (Returns url, w1) ->
  uuid4 env <> "" ->
  exists id,
    let pid := str (py_repr env) id in
    creates_of (trace w1) = creates_of (trace w) ++ [row_for env data id] /\
    (store w !! pid = None -> uuid_taken (store w) pid (uuid4 env) = false ->
     store w1 !! pid = Some (row_for env data id) /\
     forall payload s idv uuidv,
       get payload "id" PNone = Returns idv -> is_None idv = false ->
       str (py_repr env) idv = pid ->
       get payload "uuid" PNone = Returns uuidv -> truthy uuidv = true ->
       (str (py_repr env) uuidv <> uuid4 env ->
        _verify_callback gw env payload s w1
          = (Returns None,
             mkWorld (store w1)
                     (trace w1 ++ [EvDbGet pid; EvLog LogUuidMismatchDatabase]))) /\
       (str (py_repr env) uuidv = uuid4 env ->
        store (snd (_verify_callback gw env payload s w1)) = store w1 /\
        updates_of (trace (snd (_verify_callback gw env payload s w1)))
          = updates_of (trace w1))).
Proof.
  intros Hrun Hne.
  apply create_payment_run in Hrun.
  destruct Hrun as (req & body & id & flag & _ & _ & _ & _ & _ & _ & _ & Htrace & Hst).
  exists id. cbv zeta. split.
  { rewrite Htrace, creates_of_app. simpl. reflexivity. }
  intros Hfresh Hfree.
  assert (Hrow : store w1 !! str (py_repr env) id = Some (row_for env data id)).
  { destruct Hst as [(-> & _ & _)|[_ [[x Hx]|Htaken]]]; [|congruence..].
    apply lookup_insert_eq. }
  split; [exact Hrow|].
  intros payload s idv uuidv Hid Hnone Hsame Huuid Htruthy. split.
  - intros Hdiff.
    rewrite <- Hsame.
    apply (verify_callback_rejects_other_uuid gw env payload s w1 idv uuidv
             (row_for env data id) (uuid4 env)); auto.
    rewrite Hsame. exact Hrow.
  - intros Heq.
    destruct (verify_callback_store gw env payload s w1)
      as [[E1 E2]|(idv' & uuidv' & t & Hid' & _ & Hrow' & Hfalsy & _)]; [auto|exfalso].
    assert (idv' = idv) by congruence. subst idv'.
    rewrite Hsame, Hrow in Hrow'. injection Hrow' as <-.
    simpl in Hfalsy. rewrite (opt_truthy_some _ Hne : str_truthy _ = true) in Hfalsy.
    discriminate.
Qed.

End RoundTrip.

Section Redelivery.
Import Py Gateway.
Local Open Scope list_scope.
Variables (gw : UrlPay) (env : Env).

(** X18. The handler keeps no memory of the deliveries it has acknowledged.
    When a delivery is acknowledged as in X11 and the hook has left the
    transaction bound to the delivery's uuid, the same body delivered again
    is acknowledged again: 200 once more, and the hook runs a second time on
    the same payment id (it runs on the table the first hook left).  The
    second run writes nothing.  Telling a repeated delivery from the first
    is left to the hooks. *)
Theorem redelivery_runs_the_hook_again
    (payload : pyval) (s : string) (h : hook) (w : world) (idv uuidv : pyval)
    (t t1 : Transaction) (d : list (string * pyval)) (expected : list Z)
    (st st' : gmap string Transaction) :
  let pid := str (py_repr env) idv in
  let u := str (py_repr env) uuidv in
  let verified :=
    if opt_truthy (payment_uuid t) then store w
    else <[pid := with_payment_uuid t (Some u)]> (store w) in
  let run_hook table :=
    match h with
    | HookSucceeded => _on_payment_succeeded env pid table
    | HookCanceled => _on_payment_canceled env pid table
    end in
  parsed_status env (Some payload) = Some s ->
  (s = "success" /\ h = HookSucceeded /\ expected = [3%Z] \/
   s = "cancel" /\ h = HookCanceled /\ expected = [4%Z; 5%Z; 6%Z]) ->
  get payload "id" PNone = Returns idv -> is_None idv = false -> pid <> "" ->
  get payload "uuid" PNone = Returns uuidv -> truthy uuidv = true -> u <> "" ->
  store w !! pid = Some t ->
  (payment_uuid t = Some u \/
   opt_truthy (payment_uuid t) = false /\ uuid_taken (store w) pid u = false) ->
  fetched gw env pid = Returns (PDict d) -> d <> [] ->
  in_int_set (default PNone (dict_get d "status")) expected = Returns true ->
  run_hook verified = (Returns tt, st) ->
  st !! pid = Some t1 -> payment_uuid t1 = Some u ->
  run_hook st = (Returns tt, st') ->
  let first := webhook_handler gw env (Some payload) w in
  let second := webhook_handler gw env (Some payload) (snd first) in
  fst first = Returns 200%Z /\
  fst second = Returns 200%Z /\
  store (snd second) = st' /\
  hooks_of (trace (snd second)) = hooks_of (trace w) ++ [(h, pid); (h, pid)] /\
  updates_of (trace (snd second)) = updates_of (trace (snd first)).
Proof.
  intros pid u verified run_hook Hs Hh Hid Hnone Hpid Huuid Htruthy Hu Hrow Hbound
    Hf Hd Hin Hhook Hrow1 Hbound1 Hhook1 first second.
  assert (Hmap : status_map_get s = Some expected)
    by (destruct Hh as [(-> & _ & ->)|(-> & _ & ->)]; reflexivity).
  assert (Hsh : s = "success" /\ h = HookSucceeded \/ s = "cancel" /\ h = HookCanceled)
    by (destruct Hh as [(? & ? & _)|(? & ? & _)]; auto).
  assert (Hb : payment_uuid t = Some u /\ u <> "" \/
               opt_truthy (payment_uuid t) = false /\
               uuid_taken (store w) pid u = false)
    by (destruct Hbound as [E|E]; [left; split; assumption | right; exact E]).
  destruct (verify_callback_accepts gw env payload s
              (mkWorld (store w) (trace w ++ [EvLog LogWebhookPayload]))
              idv uuidv t d expected Hid Hnone Huuid Htruthy Hrow Hb Hf Hd Hmap Hin)
    as (evs & Hv & Hhooks & Hcreates & Hupdates).
  pose proof (handler_accepts gw env payload s h pid w _ st Hs Hsh Hv
                (opt_truthy_some _ Hpid) Hhook) as E1.
  subst first second. rewrite E1. cbn [fst snd].
  set (w1 := mkWorld st _).
  assert (Hb1 : payment_uuid t1 = Some u /\ u <> "" \/
                opt_truthy (payment_uuid t1) = false /\
                uuid_taken (store w1) pid u = false)
    by (left; split; assumption).
  destruct (verify_callback_accepts gw env payload s
              (mkWorld (store w1) (trace w1 ++ [EvLog LogWebhookPayload]))
              idv uuidv t1 d expected Hid Hnone Huuid Htruthy Hrow1 Hb1 Hf Hd Hmap Hin)
    as (evs1 & Hv1 & Hhooks1 & Hcreates1 & Hupdates1).
  assert (Ht1 : opt_truthy (payment_uuid t1) = true)
    by (rewrite Hbound1; now apply opt_truthy_some).
  rewrite Ht1 in Hv1, Hupdates1.
  pose proof (handler_accepts gw env payload s h pid w1 _ st' Hs Hsh Hv1
                (opt_truthy_some _ Hpid) Hhook1) as E2.
  rewrite E2. subst w1. simpl.
  rewrite <- !app_assoc.
  rewrite !hooks_of_app, !updates_of_app, Hhooks, Hhooks1, Hupdates1.
  simpl. rewrite ?app_nil_r. rewrite <- ?app_assoc.
  repeat split; reflexivity.
Qed.

End Redelivery.

Section Exclusive.
Import Py Gateway.
Local Open Scope list_scope.

(** A value equals at most one integer. *)
Lemma eq_int_functional (v : pyval) (a b : Z) :
  eq_int v a = true -> eq_int v b = true -> a = b.
Proof.
  destruct v as [|x|i|f|s|l|d]; simpl; try discriminate.
  - intros Ha Hb. apply Z.eqb_eq in Ha, Hb. congruence.
  - intros Ha Hb. apply Z.eqb_eq in Ha, Hb. congruence.
  - destruct f as [s|s| |s m e]; simpl; try discriminate.
    + intros Ha Hb. apply Z.eqb_eq in Ha, Hb. congruence.
    + destruct (Z.leb_spec 0 e) as [He|He].
      * intros Ha Hb. apply Z.eqb_eq in Ha, Hb. congruence.
      * intros Ha Hb. apply Z.eqb_eq in Ha, Hb.
        assert (0 < 2 ^ (- e))%Z by (apply Z.pow_pos_nonneg; lia).
        nia.
Qed.

Lemma in_int_set_member (v : pyval) (members : list Z) :
  in_int_set v members = Returns true ->
  exists z, In z members /\ eq_int v z = true.
Proof.
  unfold in_int_set.
  destruct v; try discriminate; intros H; injection H as H;
    apply existsb_exists in H; exact H.
Qed.

(** X12. The two transitions exclude each other.  Against one and the same
    answer of the provider for a payment, if a callback saying ["success"]
    is accepted, no callback saying ["cancel"] is accepted for that payment,
    whatever the tables and the uuids: the status sets {3} and {4, 5, 6} are
    disjoint, also under the equalities of Python ([3.0 == 3],
    [True == 1]). *)
Theorem success_and_cancel_are_exclusive (gw : UrlPay) (env : Env)
    (p1 p2 : pyval) (idv : pyval) (w1 w2 : world) (pid : string) :
  get p1 "id" PNone = Returns idv ->
  fst (_verify_callback gw env p1 "success" w1) = Returns (Some pid) ->
  get p2 "id" PNone = Returns idv ->
  forall pid', fst (_verify_callback gw env p2 "cancel" w2) <> Returns (Some pid').
Proof.
  intros Hi1 Hv1 Hi2 pid' Hv2.
  destruct (_verify_callback gw env p1 "success" w1) as [r1 w1'] eqn:E1.
  destruct (_verify_callback gw env p2 "cancel" w2) as [r2 w2'] eqn:E2.
  simpl in Hv1, Hv2. subst r1 r2.
  apply verify_callback_accepted in E1
    as (i1 & _ & _ & pay1 & A1 & _ & -> & _ & _ & _ & A3 & _ & A4).
  apply verify_callback_accepted in E2
    as (i2 & _ & _ & pay2 & B1 & _ & -> & _ & _ & _ & B3 & _ & B4).
  assert (i1 = idv) by congruence. assert (i2 = idv) by congruence. subst.
  assert (pay1 = pay2) by congruence. subst.
  destruct (A4 _ _ eq_refl) as (st1 & A5 & A6).
  destruct (B4 _ _ eq_refl) as (st2 & B5 & B6).
  assert (st1 = st2) by congruence. subst.
  apply in_int_set_member in A6 as (a & Ha & Ea).
  apply in_int_set_member in B6 as (b & Hb & Eb).
  pose proof (eq_int_functional _ _ _ Ea Eb) as E. subst b.
  simpl in Ha, Hb. lia.
Qed.

End Exclusive.

(** ** The revision *)

Section MigrationFacts.
Import Migration.
Local Open Scope list_scope.

Lemma filter_absent {A} (P : A -> Prop) `{forall x, Decision (P x)}
    (f : A -> bool) (l : list A) (a : A) :
  (forall x, f x = true <-> ~ P x) ->
  existsb f l = false -> f a = true ->
  filter P (l ++ [a]) = l.
Proof.
  intros Hf Hl Ha.
  rewrite filter_app.
  assert (Hlast : filter P [a] = []).
  { rewrite filter_cons. destruct (decide (P a)) as [Hp|_]; [|reflexivity].
    apply Hf in Ha. contradiction. }
  rewrite Hlast, app_nil_r.
  induction l as [|x l IH]; [reflexivity|].
  simpl in Hl. apply orb_false_iff in Hl as [Hx Hl].
  rewrite filter_cons. destruct (decide (P x)) as [_|Hn].
  - now rewrite IH.
  - apply Hf in Hn. congruence.
Qed.

Lemma existsb_last {A} (f : A -> bool) (l : list A) (a : A) :
  f a = true -> existsb f (l ++ [a]) = true.
Proof. intros Ha. rewrite existsb_app. simpl. rewrite Ha. now rewrite orb_true_r. Qed.

Lemma table_eta (t : Table) : mkTable (columns t) (uniques t) = t.
Proof. destruct t; reflexivity. Qed.

(** On a schema of names, dropping a column undoes adding it. *)
Lemma run_add_drop (tbl : string) (col : Column) (s s' : gmap string Table) :
  run (add_column tbl col) s = Some s' ->
  run (drop_column tbl (col_name col)) s' = Some s.
Proof.
  unfold run. destruct (s !! tbl) as [t|] eqn:Ht; simpl; [|discriminate].
  destruct (has_column t (col_name col)) eqn:Hc; [discriminate|].
  intros [= <-]. rewrite lookup_insert_eq. simpl.
  unfold has_column in *. simpl.
  rewrite existsb_last by apply String.eqb_refl. simpl.
  rewrite (filter_absent _ (fun x => String.eqb (col_name x) (col_name col))).
  - rewrite insert_insert_eq, table_eta. now rewrite insert_id.
  - intros x. rewrite String.eqb_eq. split; [auto|]. intros Hn.
    destruct (decide (col_name x = col_name col)); [assumption|contradiction].
  - exact Hc.
  - apply String.eqb_refl.
Qed.

(** On a schema of names, dropping a unique constraint undoes creating it. *)
Lemma run_create_drop (n tbl : string) (cols : list string)
    (s s' : gmap string Table) :
  run (create_unique_constraint n tbl cols) s = Some s' ->
  run (drop_constraint n tbl "unique") s' = Some s.
Proof.
  unfold run. destruct (s !! tbl) as [t|] eqn:Ht; simpl; [|discriminate].
  destruct (has_unique t n) eqn:Hc; [discriminate|]. simpl.
  destruct (forallb (has_column t) cols); [|discriminate]. simpl.
  intros [= <-]. rewrite lookup_insert_eq. simpl.
  unfold has_unique in *. simpl.
  rewrite existsb_last by apply String.eqb_refl. simpl.
  rewrite (filter_absent _ (fun x => String.eqb (fst x) n)).
  - rewrite insert_insert_eq, table_eta. now rewrite insert_id.
  - intros x. rewrite String.eqb_eq. split; [auto|]. intros Hn.
    destruct (decide (fst x = n)); [assumption|contradiction].
  - exact Hc.
  - apply String.eqb_refl.
Qed.

(** X15. [downgrade] undoes [upgrade].  On any database where dropping a
    column undoes adding it and dropping a unique constraint undoes creating
    it, a schema that [upgrade] has changed is brought back by [downgrade]
    to what it was: the two functions name the same table, column and
    constraint, and [downgrade] takes the steps of [upgrade] backwards. *)
Theorem downgrade_undoes_upgrade {S : Type} (exec : operation -> S -> option S) :
  (forall tbl col s s',
     exec (add_column tbl col) s = Some s' ->
     exec (drop_column tbl (col_name col)) s' = Some s) ->
  (forall n tbl cols s s',
     exec (create_unique_constraint n tbl cols) s = Some s' ->
     exec (drop_constraint n tbl "unique") s' = Some s) ->
  forall s s', upgrade exec s = Some s' -> downgrade exec s' = Some s.
Proof.
  intros Hcol Hcon s s'. unfold upgrade, downgrade.
  destruct (exec (add_column _ _) s) as [s1|] eqn:H1; simpl; [|discriminate].
  intros H2.
  rewrite (Hcon _ _ _ _ _ H2). simpl.
  exact (Hcol _ _ _ _ H1).
Qed.

End MigrationFacts.

(** ** These properties at work on concrete runs *)

Section MoreWitnesses.
Import Py Gateway.
Local Open Scope list_scope.

Lemma demo_configured : configured Demo.gw.
Proof. repeat split; reflexivity. Qed.

(** A confirmed "cancel" delivery runs the canceled hook once, on "77". *)
Lemma webhook_handler_hooks_witness :
  exists payload idv h,
    Some (Demo.webhook "cancel" "abc") = Some payload /\
    get payload "id" PNone = Returns idv /\
    str (py_repr (Demo.env Demo.created_ok (Demo.record (PInt 5) "abc"))) idv <> "" /\
    (parsed_status (Demo.env Demo.created_ok (Demo.record (PInt 5) "abc"))
       (Some (Demo.webhook "cancel" "abc")) = Some "success" /\ h = HookSucceeded \/
     parsed_status (Demo.env Demo.created_ok (Demo.record (PInt 5) "abc"))
       (Some (Demo.webhook "cancel" "abc")) = Some "cancel" /\ h = HookCanceled) /\
    hooks_of (trace (snd (webhook_handler Demo.gw
                            (Demo.env Demo.created_ok (Demo.record (PInt 5) "abc"))
                            (Some (Demo.webhook "cancel" "abc"))
                            (Demo.table (Some "abc")))))
      = hooks_of (trace (Demo.table (Some "abc")))
        ++ [(h, str (py_repr (Demo.env Demo.created_ok (Demo.record (PInt 5) "abc")))
                    idv)].
Proof.
  apply (proj2 (webhook_handler_hooks Demo.gw
                  (Demo.env Demo.created_ok (Demo.record (PInt 5) "abc"))
                  (Some (Demo.webhook "cancel" "abc")) (Demo.table (Some "abc")))).
  vm_compute. reflexivity.
Defined.

(** A delivery for payment 78, which the table does not hold. *)
Lemma unidentified_delivery_has_no_effect_witness :
  fst (webhook_handler Demo.gw (Demo.env Demo.created_ok (Demo.record (PInt 3) "abc"))
         (Some Demo.stranger) (Demo.table (Some "abc"))) = Returns 400%Z /\
  store (snd (webhook_handler Demo.gw
                (Demo.env Demo.created_ok (Demo.record (PInt 3) "abc"))
                (Some Demo.stranger) (Demo.table (Some "abc"))))
    = store (Demo.table (Some "abc")) /\
  requests_of (trace (snd (webhook_handler Demo.gw
                             (Demo.env Demo.created_ok (Demo.record (PInt 3) "abc"))
                             (Some Demo.stranger) (Demo.table (Some "abc")))))
    = requests_of (trace (Demo.table (Some "abc"))) /\
  updates_of (trace (snd (webhook_handler Demo.gw
                            (Demo.env Demo.created_ok (Demo.record (PInt 3) "abc"))
                            (Some Demo.stranger) (Demo.table (Some "abc")))))
    = updates_of (trace (Demo.table (Some "abc"))) /\
  hooks_of (trace (snd (webhook_handler Demo.gw
                          (Demo.env Demo.created_ok (Demo.record (PInt 3) "abc"))
                          (Some Demo.stranger) (Demo.table (Some "abc")))))
    = hooks_of (trace (Demo.table (Some "abc"))).
Proof.
  apply (unidentified_delivery_has_no_effect Demo.gw
           (Demo.env Demo.created_ok (Demo.record (PInt 3) "abc"))
           Demo.stranger (Demo.table (Some "abc"))).
  intros idv uuidv Hid _ _ _.
  vm_compute in Hid. injection Hid as <-.
  vm_compute. reflexivity.
Defined.

(** The id as a number or as a string, the status in capitals, a field more:
    the same delivery. *)
Lemma webhook_handler_reads_three_fields_witness :
  webhook_handler Demo.gw (Demo.env Demo.created_ok (Demo.record (PInt 3) "abc"))
    (Some (Demo.webhook "success" "abc")) (Demo.table None)
  = webhook_handler Demo.gw (Demo.env Demo.created_ok (Demo.record (PInt 3) "abc"))
      (Some (PDict [("amount", PStr "1.00"); ("payment_status", PStr "SUCCESS");
                    ("id", PStr "77"); ("uuid", PStr "abc")]))
      (Demo.table None).
Proof.
  apply (webhook_handler_reads_three_fields Demo.gw
           (Demo.env Demo.created_ok (Demo.record (PInt 3) "abc"))
           (Demo.webhook "success" "abc")
           (PDict [("amount", PStr "1.00"); ("payment_status", PStr "SUCCESS");
                   ("id", PStr "77"); ("uuid", PStr "abc")])
           (Demo.table None)
           (PStr "success") (PStr "SUCCESS") (PInt 77) (PStr "77")
           (PStr "abc") (PStr "abc")); reflexivity.
Defined.

(** Without an API key the fetch sends nothing and returns [None]. *)
Lemma fetch_payment_requests_witness :
  _fetch_payment Demo.gw_unkeyed
    (Demo.env Demo.created_ok (Demo.record (PInt 3) "abc")) "77" Demo.nothing
  = (Returns PNone,
     mkWorld (store Demo.nothing) (trace Demo.nothing ++ [EvLog LogApiKeyMissing])).
Proof.
  apply (proj1 (proj2 (proj2 (fetch_payment_requests Demo.gw_unkeyed
                                (Demo.env Demo.created_ok (Demo.record (PInt 3) "abc"))
                                "77" Demo.nothing)))).
  reflexivity.
Defined.

(** The record of payment 77 came with a 200 and a true [success]. *)
Lemma fetch_payment_success_is_strict_witness :
  exists key d flag,
    API_KEY (config Demo.gw) = Some key /\ key <> "" /\
    http (Demo.env Demo.created_ok (Demo.record (PInt 3) "abc"))
         (fetch_request Demo.gw "77") = HttpResponse 200 (Some (PDict d)) /\
    dict_get d "success" = Some flag /\ truthy flag = true /\
    dict_get d "payment" = Some (Demo.payment (PInt 3) "abc").
Proof.
  apply (fetch_payment_success_is_strict Demo.gw
           (Demo.env Demo.created_ok (Demo.record (PInt 3) "abc"))
           "77" (Demo.payment (PInt 3) "abc")).
  - vm_compute. reflexivity.
  - reflexivity.
Defined.

(** The request for a price of 10.005: the amount "10.01" throughout. *)
Lemma create_payment_request_witness :
  exists payload item,
    requests_of (trace (snd (create_payment Demo.gw
                               (Demo.env Demo.created_ok Demo.unavailable)
                               Demo.data Demo.nothing)))
      = requests_of (trace Demo.nothing) ++
        [mkRequest POST "https://urlpay.io/api/v2/payments" ("Bearer " +:+ "key")
                   (Some payload)] /\
    get payload "currency" PNone = Returns (PStr (lower (currency_code Demo.gw))) /\
    get payload "amount" PNone = Returns (PStr "10.01") /\
    get payload "uuid" PNone
      = Returns (PStr (uuid4 (Demo.env Demo.created_ok Demo.unavailable))) /\
    get payload "shopId" PNone = Returns (PStr "shop-1") /\
    get payload "sign" PNone
      = Returns (PStr (sign_spec (currency_code Demo.gw) "10.01" "shop-1" "secret")) /\
    get payload "website_url" PNone
      = Returns (PStr ("https://t.me/" +:+ opt_str (Some "shop_bot"))) /\
    get payload "items" PNone = Returns (PList [item]) /\
    get item "price" PNone = Returns (PStr "10.01") /\
    get item "quantity" PNone = Returns (PInt 1).
Proof.
  apply (create_payment_request Demo.gw (Demo.env Demo.created_ok Demo.unavailable)
           Demo.data Demo.nothing "key" "shop-1" "secret" (Some "shop_bot") "10.01");
    first [discriminate | vm_compute; reflexivity].
Defined.

(** The provider answers 500 to the creation. *)
Lemma create_payment_failures_witness :
  create_payment Demo.gw (Demo.env Demo.refused_500 Demo.unavailable)
    Demo.data Demo.nothing
  = (Raises (RuntimeError
               (CreatePaymentFailed 500 (PDict [("error", PStr "down")]))),
     mkWorld (store Demo.nothing)
       (trace Demo.nothing ++
        [EvGetMe;
         EvHttp (create_request Demo.gw (Demo.env Demo.refused_500 Demo.unavailable)
                   Demo.data "10.01" (Some "shop_bot"))])).
Proof.
  apply (proj1 (proj2 (proj2
           (create_payment_failures Demo.gw
              (Demo.env Demo.refused_500 Demo.unavailable) Demo.data Demo.nothing
              (Some "shop_bot") "10.01" demo_configured eq_refl
              ltac:(vm_compute; reflexivity))))
           500%Z (PDict [("error", PStr "down")])).
  - reflexivity.
  - discriminate.
Defined.

(** A price of 1E+27 does not fit the context: no request. *)
Lemma create_payment_fails_before_request_witness :
  create_payment Demo.gw (Demo.env Demo.created_ok Demo.unavailable)
    Demo.data_huge Demo.nothing
  = (Raises InvalidOperation,
     mkWorld (store Demo.nothing) (trace Demo.nothing ++ [EvGetMe])).
Proof.
  apply (proj2 (create_payment_fails_before_request Demo.gw
                  (Demo.env Demo.created_ok Demo.unavailable)
                  Demo.data_huge Demo.nothing demo_configured)
           (Some "shop_bot")).
  - reflexivity.
  - apply N.leb_le. vm_compute. reflexivity.
Defined.

(** Payment 77, created on an empty table. *)
Lemma created_payment_is_bound_witness :
  exists id,
    let env := Demo.env Demo.created_ok (Demo.record (PInt 3) "abc") in
    let w1 := snd (create_payment Demo.gw env Demo.data Demo.nothing) in
    let pid := str (py_repr env) id in
    creates_of (trace w1)
      = creates_of (trace Demo.nothing) ++ [row_for env Demo.data id] /\
    (store Demo.nothing !! pid = None ->
     uuid_taken (store Demo.nothing) pid (uuid4 env) = false ->
     store w1 !! pid = Some (row_for env Demo.data id) /\
     forall payload s idv uuidv,
       get payload "id" PNone = Returns idv -> is_None idv = false ->
       str (py_repr env) idv = pid ->
       get payload "uuid" PNone = Returns uuidv -> truthy uuidv = true ->
       (str (py_repr env) uuidv <> uuid4 env ->
        _verify_callback Demo.gw env payload s w1
          = (Returns None,
             mkWorld (store w1)
                     (trace w1 ++ [EvDbGet pid; EvLog LogUuidMismatchDatabase]))) /\
       (str (py_repr env) uuidv = uuid4 env ->
        store (snd (_verify_callback Demo.gw env payload s w1)) = store w1 /\
        updates_of (trace (snd (_verify_callback Demo.gw env payload s w1)))
          = updates_of (trace w1))).
Proof.
  apply (created_payment_is_bound Demo.gw
           (Demo.env Demo.created_ok (Demo.record (PInt 3) "abc"))
           Demo.data Demo.nothing
           (snd (create_payment Demo.gw
                   (Demo.env Demo.created_ok (Demo.record (PInt 3) "abc"))
                   Demo.data Demo.nothing))
           (PStr "https://urlpay.io/pay/77")).
  - vm_compute. reflexivity.
  - discriminate.
Defined.

(** The first confirmed delivery for a transaction without a uuid: 200, the
    succeeded hook, and the uuid bound. *)
Lemma confirmed_delivery_is_acknowledged_witness :
  fst (webhook_handler Demo.gw (Demo.env Demo.created_ok (Demo.record (PInt 3) "abc"))
         (Some (Demo.webhook "success" "abc")) (Demo.table None)) = Returns 200%Z /\
  store (snd (webhook_handler Demo.gw
                (Demo.env Demo.created_ok (Demo.record (PInt 3) "abc"))
                (Some (Demo.webhook "success" "abc")) (Demo.table None)))
    = <["77" := with_payment_uuid (Demo.row None) (Some "abc")]>
        (store (Demo.table None)) /\
  hooks_of (trace (snd (webhook_handler Demo.gw
                          (Demo.env Demo.created_ok (Demo.record (PInt 3) "abc"))
                          (Some (Demo.webhook "success" "abc")) (Demo.table None))))
    = hooks_of (trace (Demo.table None)) ++ [(HookSucceeded, "77")] /\
  creates_of (trace (snd (webhook_handler Demo.gw
                            (Demo.env Demo.created_ok (Demo.record (PInt 3) "abc"))
                            (Some (Demo.webhook "success" "abc")) (Demo.table None))))
    = creates_of (trace (Demo.table None)) /\
  updates_of (trace (snd (webhook_handler Demo.gw
                            (Demo.env Demo.created_ok (Demo.record (PInt 3) "abc"))
                            (Some (Demo.webhook "success" "abc")) (Demo.table None))))
    = updates_of (trace (Demo.table None)) ++ [("77", "abc")].
Proof.
  apply (confirmed_delivery_is_acknowledged Demo.gw
           (Demo.env Demo.created_ok (Demo.record (PInt 3) "abc"))
           (Demo.webhook "success" "abc") "success" HookSucceeded (Demo.table None)
           (PInt 77) (PStr "abc") (Demo.row None)
           [("id", PInt 77); ("uuid", PStr "abc"); ("status", PInt 3)] [3%Z]
           (<["77" := with_payment_uuid (Demo.row None) (Some "abc")]>
              (store (Demo.table None)))).
  - vm_compute. reflexivity.
  - left. repeat split; reflexivity.
  - reflexivity.
  - reflexivity.
  - vm_compute. discriminate.
  - reflexivity.
  - reflexivity.
  - vm_compute. reflexivity.
  - right. split; vm_compute; reflexivity.
  - vm_compute. reflexivity.
  - discriminate.
  - vm_compute. reflexivity.
  - vm_compute. reflexivity.
Defined.

(** The confirmed delivery of payment 77, twice in a row. *)
Lemma redelivery_runs_the_hook_again_witness :
  let env := Demo.env Demo.created_ok (Demo.record (PInt 3) "abc") in
  let body := Some (Demo.webhook "success" "abc") in
  let first := webhook_handler Demo.gw env body (Demo.table None) in
  let second := webhook_handler Demo.gw env body (snd first) in
  fst first = Returns 200%Z /\
  fst second = Returns 200%Z /\
  store (snd second)
    = <["77" := with_payment_uuid (Demo.row None) (Some "abc")]>
        (store (Demo.table None)) /\
  hooks_of (trace (snd second))
    = hooks_of (trace (Demo.table None))
      ++ [(HookSucceeded, "77"); (HookSucceeded, "77")] /\
  updates_of (trace (snd second)) = updates_of (trace (snd first)).
Proof.
  apply (redelivery_runs_the_hook_again Demo.gw
           (Demo.env Demo.created_ok (Demo.record (PInt 3) "abc"))
           (Demo.webhook "success" "abc") "success" HookSucceeded (Demo.table None)
           (PInt 77) (PStr "abc") (Demo.row None)
           (with_payment_uuid (Demo.row None) (Some "abc"))
           [("id", PInt 77); ("uuid", PStr "abc"); ("status", PInt 3)] [3%Z]
           (<["77" := with_payment_uuid (Demo.row None) (Some "abc")]>
              (store (Demo.table None)))
           (<["77" := with_payment_uuid (Demo.row None) (Some "abc")]>
              (store (Demo.table None)))).
  - vm_compute. reflexivity.
  - left. repeat split; reflexivity.
  - reflexivity.
  - reflexivity.
  - vm_compute. discriminate.
  - reflexivity.
  - reflexivity.
  - vm_compute. discriminate.
  - vm_compute. reflexivity.
  - right. split; vm_compute; reflexivity.
  - vm_compute. reflexivity.
  - discriminate.
  - vm_compute. reflexivity.
  - vm_compute. reflexivity.
  - vm_compute. reflexivity.
  - reflexivity.
  - vm_compute. reflexivity.
Defined.

(** The provider says 3: "success" is accepted, "cancel" is not. *)
Lemma success_and_cancel_are_exclusive_witness :
  fst (_verify_callback Demo.gw (Demo.env Demo.created_ok (Demo.record (PInt 3) "abc"))
         (Demo.webhook "success" "abc") "success" (Demo.table (Some "abc")))
    = Returns (Some "77") /\
  fst (_verify_callback Demo.gw (Demo.env Demo.created_ok (Demo.record (PInt 3) "abc"))
         (Demo.webhook "cancel" "abc") "cancel" (Demo.table None))
    <> Returns (Some "77").
Proof.
  split; [vm_compute; reflexivity|].
  apply (success_and_cancel_are_exclusive Demo.gw
           (Demo.env Demo.created_ok (Demo.record (PInt 3) "abc"))
           (Demo.webhook "success" "abc") (Demo.webhook "cancel" "abc")
           (PInt 77) (Demo.table (Some "abc")) (Demo.table None) "77").
  - reflexivity.
  - vm_compute. reflexivity.
  - reflexivity.
Defined.

(** "10.01" for the shop "shop-1" signs as "10.0" for the shop "1shop-1". *)
Lemma signature_has_no_field_boundaries_witness :
  _generate_signature Demo.gw ("10.0" +:+ "1")
  = _generate_signature Demo.gw_shifted "10.0".
Proof.
  apply (proj1 (signature_has_no_field_boundaries Demo.gw Demo.gw_shifted
                  "10.0" "1" "shop-1" "secret" eq_refl eq_refl));
    reflexivity.
Defined.

(** A price of -0.001 is sent as "-0.00". *)
Lemma create_payment_accepts_any_sign_witness :
  exists amount,
    amount_str Demo.data_minus_zero = Returns amount /\
    requests_of (trace (snd (create_payment Demo.gw
                               (Demo.env Demo.created_ok Demo.unavailable)
                               Demo.data_minus_zero Demo.nothing)))
      = requests_of (trace Demo.nothing) ++
        [create_request Demo.gw (Demo.env Demo.created_ok Demo.unavailable)
           Demo.data_minus_zero amount (Some "shop_bot")] /\
    (Dec.sign (price Demo.data_minus_zero) = true <->
     exists rest, amount = String "-" rest) /\
    (Dec.cents_half_up (price Demo.data_minus_zero) = 0%N ->
     amount = if Dec.sign (price Demo.data_minus_zero) then "-0.00" else "0.00").
Proof.
  apply (create_payment_accepts_any_sign Demo.gw
           (Demo.env Demo.created_ok Demo.unavailable)
           Demo.data_minus_zero Demo.nothing (Some "shop_bot") demo_configured
           eq_refl).
  apply N.ltb_lt. vm_compute. reflexivity.
Defined.

(** The revision on a schema of names: up, the column and the constraint
    are there; down again, the schema is what it was. *)
Lemma downgrade_undoes_upgrade_witness :
  exists s',
    Migration.upgrade Migration.run Demo.schema_before = Some s' /\
    (exists t, s' !! "transactions" = Some t /\
               Migration.has_column t "payment_uuid" = true /\
               Migration.has_unique t "uq_transactions_payment_uuid" = true) /\
    Migration.downgrade Migration.run s' = Some Demo.schema_before.
Proof.
  destruct (Migration.upgrade Migration.run Demo.schema_before) as [s'|] eqn:Hup;
    [|vm_compute in Hup; discriminate].
  exists s'. split; [reflexivity|]. split.
  - vm_compute in Hup. injection Hup as <-. eexists. split; [reflexivity|].
    split; reflexivity.
  - exact (downgrade_undoes_upgrade Migration.run run_add_drop run_create_drop
             _ _ Hup).
Defined.

(** Without an API key even a delivery the provider would confirm is
    answered 400. *)
Lemma webhook_handler_without_api_key_witness :
  fst (webhook_handler Demo.gw_unkeyed
         (Demo.env Demo.created_ok (Demo.record (PInt 3) "abc"))
         (Some (Demo.webhook "success" "abc")) (Demo.table (Some "abc")))
    = Returns 400%Z /\
  hooks_of (trace (snd (webhook_handler Demo.gw_unkeyed
                          (Demo.env Demo.created_ok (Demo.record (PInt 3) "abc"))
                          (Some (Demo.webhook "success" "abc"))
                          (Demo.table (Some "abc")))))
    = hooks_of (trace (Demo.table (Some "abc"))) /\
  requests_of (trace (snd (webhook_handler Demo.gw_unkeyed
                             (Demo.env Demo.created_ok (Demo.record (PInt 3) "abc"))
                             (Some (Demo.webhook "success" "abc"))
                             (Demo.table (Some "abc")))))
    = requests_of (trace (Demo.table (Some "abc"))).
Proof.
  apply (webhook_handler_without_api_key Demo.gw_unkeyed
           (Demo.env Demo.created_ok (Demo.record (PInt 3) "abc"))
           (Some (Demo.webhook "success" "abc")) (Demo.table (Some "abc"))).
  reflexivity.
Defined.

End MoreWitnesses.
